(** * Lunaix VFS core: a shallow embedding of kernel/fs/vfs.c

    The development follows the C source function by function.  Kernel
    objects live in a store indexed by their 32-bit addresses; every
    function of the source that touches the store is a computation in a
    small state-and-fault monad.  A fault stands for what the model
    assigns no further behaviour to: a failed [assert], [panick], a
    dereference of a pointer that denotes no object, a call through a
    NULL function pointer, a read behind the terminator of a string.

    Mutexes and the LRU recency lists are not represented: the model is
    sequential, so [lock_dnode]/[lock_inode] and their unlock
    counterparts leave the modelled store untouched.  The one function
    with an exit that does not pair them, [__vfs_do_chdir], hands back
    the dnode mutexes it still holds. *)

From Stdlib Require Import ZArith String Ascii List Lia Bool.
From stdpp Require Import base option list gmap strings.

Local Open Scope string_scope.
Local Open Scope Z_scope.

(** ** Machine integers and pointers *)

Definition ptr := Z.
Definition NULL : ptr := 0.

(** [uint32_t]/[size_t] arithmetic of the i386 target wraps modulo 2^32. *)
Definition wrap32 (z : Z) : Z := z mod 2 ^ 32.

(** [(int) x]: the two's-complement reading of a 32-bit word. *)
Definition to_int (z : Z) : Z :=
  let u := wrap32 z in if u <? 2 ^ 31 then u else u - 2 ^ 32.

(** [x & FLAG] used as a C truth value. *)
Definition has_flag (x flag : Z) : bool := negb (Z.land x flag =? 0).

(** ** Data model *)

(** [struct hstr]: a name with its precomputed hash. *)
Record hstr := mk_hstr { hash : Z; len : Z; value : string }.

Record v_dnode := mk_dnode {
  d_name : hstr;
  d_inode : ptr;
  d_parent : ptr;
  d_children : list ptr;      (* the [children] list, linked through [siblings] *)
  d_super_block : ptr;
  d_mnt : ptr;
  d_ref_count : Z
}.

Record v_inode := mk_inode {
  i_id : Z;
  i_itype : Z;
  i_fsize : Z;
  i_link_count : Z;
  i_open_count : Z;
  i_ops : ptr                 (* the method table [inode->ops] *)
}.

Record v_file := mk_file {
  f_dnode : ptr;
  f_inode : ptr;
  f_pos : Z;
  f_ref_count : Z;
  f_ops : ptr                 (* the method table [file->ops] *)
}.

Record v_fd := mk_fd { fd_file : ptr; fd_flags : Z }.

Record filesystem := mk_fs { fs_types : Z }.

Record v_superblock := mk_sb { sb_root : ptr; sb_fs : ptr }.

(** [struct dirent], the user buffer of [readdir]. *)
Record dirent := mk_dirent {
  d_type : Z;
  d_offset : Z;
  d_nlen : Z;
  d_dname : string
}.

(** The kernel store.  [dnode_cache] maps a bucket index to its chain,
    head first; [fds] is the descriptor table of [__current]. *)
Record heap := mk_heap {
  dnodes : gmap Z v_dnode;
  inodes : gmap Z v_inode;
  files : gmap Z v_file;
  superblocks : gmap Z v_superblock;
  filesystems : gmap Z filesystem;
  dnode_cache : gmap Z (list ptr);
  fds : gmap Z v_fd;
  cwd : ptr;
  vfs_sysroot : ptr
}.

Definition set_dnodes (f : gmap Z v_dnode → gmap Z v_dnode) (h : heap) : heap :=
  mk_heap (f (dnodes h)) (inodes h) (files h) (superblocks h) (filesystems h)
          (dnode_cache h) (fds h) (cwd h) (vfs_sysroot h).

Definition set_inodes (f : gmap Z v_inode → gmap Z v_inode) (h : heap) : heap :=
  mk_heap (dnodes h) (f (inodes h)) (files h) (superblocks h) (filesystems h)
          (dnode_cache h) (fds h) (cwd h) (vfs_sysroot h).

Definition set_files (f : gmap Z v_file → gmap Z v_file) (h : heap) : heap :=
  mk_heap (dnodes h) (inodes h) (f (files h)) (superblocks h) (filesystems h)
          (dnode_cache h) (fds h) (cwd h) (vfs_sysroot h).

Definition set_dnode_cache (f : gmap Z (list ptr) → gmap Z (list ptr)) (h : heap) : heap :=
  mk_heap (dnodes h) (inodes h) (files h) (superblocks h) (filesystems h)
          (f (dnode_cache h)) (fds h) (cwd h) (vfs_sysroot h).

Definition set_fds (f : gmap Z v_fd → gmap Z v_fd) (h : heap) : heap :=
  mk_heap (dnodes h) (inodes h) (files h) (superblocks h) (filesystems h)
          (dnode_cache h) (f (fds h)) (cwd h) (vfs_sysroot h).

(** Field updates of a dnode. *)
Definition dnode_with_name (n : hstr) (d : v_dnode) : v_dnode :=
  mk_dnode n (d_inode d) (d_parent d) (d_children d) (d_super_block d) (d_mnt d) (d_ref_count d).
Definition dnode_with_parent (p : ptr) (d : v_dnode) : v_dnode :=
  mk_dnode (d_name d) (d_inode d) p (d_children d) (d_super_block d) (d_mnt d) (d_ref_count d).
Definition dnode_with_children (c : list ptr) (d : v_dnode) : v_dnode :=
  mk_dnode (d_name d) (d_inode d) (d_parent d) c (d_super_block d) (d_mnt d) (d_ref_count d).
Definition dnode_with_ref_count (r : Z) (d : v_dnode) : v_dnode :=
  mk_dnode (d_name d) (d_inode d) (d_parent d) (d_children d) (d_super_block d) (d_mnt d) r.

Definition inode_with_link_count (n : Z) (i : v_inode) : v_inode :=
  mk_inode (i_id i) (i_itype i) (i_fsize i) n (i_open_count i) (i_ops i).
Definition inode_with_open_count (n : Z) (i : v_inode) : v_inode :=
  mk_inode (i_id i) (i_itype i) (i_fsize i) (i_link_count i) n (i_ops i).

Definition file_with_pos (p : Z) (f : v_file) : v_file :=
  mk_file (f_dnode f) (f_inode f) p (f_ref_count f) (f_ops f).
Definition file_with_ref_count (r : Z) (f : v_file) : v_file :=
  mk_file (f_dnode f) (f_inode f) (f_pos f) r (f_ops f).

Definition dirent_with_offset (o : Z) (d : dirent) : dirent :=
  mk_dirent (d_type d) o (d_nlen d) (d_dname d).

(** ** What the sources leave open

    The constants and macros of <lunaix/fs.h>, <lunaix/status.h>,
    <lunaix/foptions.h>, <lunaix/dirent.h> and <lunaix/ds/hstr.h> are
    used by vfs.c but declared elsewhere; the development is parametric
    in them. *)
Class vfs_config := {
  VFS_NAME_MAXLEN : Z;
  VFS_HASHBITS : Z;
  VFS_HASH_MASK : Z;
  VFS_MAX_FD : Z;
  VFS_IFDIR : Z;
  VFS_IFSYMLINK : Z;
  VFS_WALK_MKPARENT : Z;
  VFS_WALK_FSRELATIVE : Z;
  VFS_WALK_PARENT : Z;
  FSTYPE_ROFS : Z;
  FSEEK_CUR : Z;
  FSEEK_END : Z;
  FSEEK_SET : Z;
  DIRENT_NAME_MAX_LEN : Z;
  ENAMETOOLONG : Z;
  EINVAL : Z;
  ENOMEM : Z;
  ENOENT : Z;
  ENOTSUP : Z;
  ENOTDIR : Z;
  ENOTEMPTY : Z;
  EISDIR : Z;
  EBUSY : Z;
  EROFS : Z;
  EBADF : Z;
  EXDEV : Z;
  (** [VFS_VALID_CHAR(chr)] *)
  VFS_VALID_CHAR : ascii → bool;
  (** [HSTR_EQ(str1, str2)] *)
  HSTR_EQ : hstr → hstr → bool;
  (** the hash that [hstr_rehash(str, HSTR_FULL_HASH)] stores for a string *)
  strhash_32 : string → Z
}.

(** What a driver hands to [read_complete_callback]. *)
Record dir_entry := mk_dir_entry { de_name : string; de_len : Z; de_dtype : Z }.

(** The collaborators of the VFS: the method tables of the file-system
    drivers and the object allocator.  A method table is addressed by the
    pointer stored in the object ([inode->ops], [file->ops]); a slot that
    yields [None] is a NULL function pointer.  A driver method receives
    the store and returns its status together with the store it leaves. *)
Class vfs_env := {
  ops_dir_lookup : ptr → option (ptr → ptr → heap → Z * heap);
  ops_mkdir : ptr → option (ptr → ptr → heap → Z * heap);
  ops_rmdir : ptr → option (ptr → ptr → heap → Z * heap);
  ops_create : ptr → option (ptr → ptr → heap → Z * heap);
  ops_unlink : ptr → option (ptr → heap → Z * heap);
  ops_rename : ptr → option (ptr → ptr → ptr → heap → Z * heap);
  ops_read_symlink : ptr → option (ptr → heap → (Z * string) * heap);
  ops_set_symlink : ptr → option (ptr → string → heap → Z * heap);
  fops_seek : ptr → option (ptr → Z → heap → Z * heap);
  fops_readdir : ptr → option (ptr → Z → heap → (Z * list dir_entry) * heap);
  fops_close : ptr → option (ptr → heap → Z * heap);
  (** [cake_grab(dnode_pile)]: the address of a fresh object, or NULL *)
  cake_grab_dnode : heap → ptr * heap;
  (** [lru_evict_half(dnode_lru)] *)
  lru_evict_half_dnode : heap → heap
}.

(** ** Observable events

    Calls that leave the VFS core (driver methods) and consultations of
    the name cache by the path walker are recorded, in order, in a ghost
    trace. *)
Inductive event :=
| EvDcacheLookup (parent : ptr) (name : hstr)
| EvDirLookup (inode dnode : ptr)
| EvMkdir (inode dnode : ptr)
| EvRmdir (inode dnode : ptr)
| EvCreate (inode dnode : ptr)
| EvUnlink (inode : ptr)
| EvRename (inode current target : ptr)
| EvReadSymlink (inode : ptr)
| EvSetSymlink (inode : ptr) (target : string)
| EvSeek (inode : ptr) (pos : Z)
| EvReaddir (file : ptr) (index : Z)
| EvClose (file : ptr).

Record world := mk_world { w_heap : heap; w_trace : list event }.

(** ** The state-and-fault monad *)

Definition M (A : Type) : Type := world → option (A * world).

Definition ret {A} (a : A) : M A := λ w, Some (a, w).

Definition bind {A B} (m : M A) (k : A → M B) : M B :=
  λ w, match m w with
       | Some (a, w') => k a w'
       | None => None
       end.

Definition fault {A} : M A := λ _, None.

Declare Scope vfs_scope.
Delimit Scope vfs_scope with vfs.
Notation "x <- c ;; k" := (bind c (λ x, k))
  (at level 100, c at next level, right associativity) : vfs_scope.
Notation "c ;; k" := (bind c (λ _, k))
  (at level 100, right associativity) : vfs_scope.
Local Open Scope vfs_scope.

(** [assert(cond)] *)
Definition assert (b : bool) : M unit := if b then ret tt else fault.

Definition get_heap : M heap := λ w, Some (w_heap w, w).

Definition modify_heap (f : heap → heap) : M unit :=
  λ w, Some (tt, mk_world (f (w_heap w)) (w_trace w)).

Definition log (e : event) : M unit :=
  λ w, Some (tt, mk_world (w_heap w) (w_trace w ++ [e])).

(** Reading through a pointer faults when it denotes no object. *)
Definition of_option {A} (o : option A) : M A :=
  match o with Some a => ret a | None => fault end.

Definition deref_dnode (p : ptr) : M v_dnode :=
  h <- get_heap ;; of_option (dnodes h !! p).
Definition deref_inode (p : ptr) : M v_inode :=
  h <- get_heap ;; of_option (inodes h !! p).
Definition deref_file (p : ptr) : M v_file :=
  h <- get_heap ;; of_option (files h !! p).
Definition deref_sb (p : ptr) : M v_superblock :=
  h <- get_heap ;; of_option (superblocks h !! p).
Definition deref_fs (p : ptr) : M filesystem :=
  h <- get_heap ;; of_option (filesystems h !! p).

(** Writing through a pointer. *)
Definition update_dnode (p : ptr) (f : v_dnode → v_dnode) : M unit :=
  deref_dnode p ;; modify_heap (set_dnodes (alter f p)).
Definition update_inode (p : ptr) (f : v_inode → v_inode) : M unit :=
  deref_inode p ;; modify_heap (set_inodes (alter f p)).
Definition update_file (p : ptr) (f : v_file → v_file) : M unit :=
  deref_file p ;; modify_heap (set_files (alter f p)).

(** A call through a function pointer of a driver: the call is recorded,
    then the driver runs on the store.  Calling a NULL slot faults. *)
Definition call_driver {A} (e : event) (f : option (heap → A * heap)) : M A :=
  λ w, match f with
       | Some g => let '(r, h') := g (w_heap w) in
                   Some (r, mk_world h' (w_trace w ++ [e]))
       | None => None
       end.

Section VFS.
Context {cfg : vfs_config} {env : vfs_env}.

(** ** 4.A Hashed name cache *)

(** [hstr_rehash(str, HSTR_FULL_HASH)] *)
Definition hstr_rehash (s : hstr) : hstr :=
  mk_hstr (strhash_32 (value s)) (len s) (value s).

(** The global names, as [vfs_init] leaves them: [vfs_dot] and
    [vfs_ddot] are rehashed, [vfs_empty] is not. *)
Definition vfs_ddot : hstr := hstr_rehash (mk_hstr 0 2 "..").
Definition vfs_dot : hstr := hstr_rehash (mk_hstr 0 1 ".").
Definition vfs_empty : hstr := mk_hstr 0 0 "".

(** [__dcache_hash(parent, &hash)]: the bucket index, and the mixed hash
    that the function writes back through its second argument. *)
Definition __dcache_hash (parent : ptr) (hv : Z) : Z * Z :=
  let _hash := wrap32 (hv + wrap32 parent) in
  let _hash := Z.lxor _hash (Z.shiftr _hash VFS_HASHBITS) in
  (Z.land _hash VFS_HASH_MASK, _hash).

(** The [hashtable_bucket_foreach] loop of [vfs_dcache_lookup]. *)
Fixpoint bucket_find (h : heap) (hv : Z) (chain : list ptr) : option ptr :=
  match chain with
  | [] => Some NULL
  | pos :: n =>
      d ← dnodes h !! pos;
      if hash (d_name d) =? hv then Some pos else bucket_find h hv n
  end.

Definition bucket (h : heap) (slot : Z) : list ptr :=
  default [] (dnode_cache h !! slot).

(** [vfs_dcache_lookup]; [None] is a fault. *)
Definition vfs_dcache_lookup (h : heap) (parent : ptr) (str : hstr) : option ptr :=
  if (len str =? 0) || HSTR_EQ str vfs_dot then Some parent
  else if HSTR_EQ str vfs_ddot then
    d ← dnodes h !! parent;
    Some (if d_parent d =? 0 then parent else d_parent d)
  else
    let slot_hash := __dcache_hash parent (hash str) in
    bucket_find h (snd slot_hash) (bucket h (fst slot_hash)).

Definition dnode_with_hash (hv : Z) (d : v_dnode) : v_dnode :=
  dnode_with_name (mk_hstr hv (len (d_name d)) (value (d_name d))) d.

(** [vfs_dcache_add].  [__dcache_hash] is handed [&dnode->name.hash], so
    the stored hash becomes the parent-mixed one. *)
Definition vfs_dcache_add (parent dnode : ptr) : M unit :=
  assert (negb (parent =? 0)) ;;
  update_dnode dnode (λ d, dnode_with_ref_count (d_ref_count d + 1) d) ;;
  update_dnode dnode (dnode_with_parent parent) ;;
  update_dnode parent (λ p, dnode_with_children (d_children p ++ [dnode]) p) ;;
  d <- deref_dnode dnode ;;
  let slot_hash := __dcache_hash parent (hash (d_name d)) in
  update_dnode dnode (dnode_with_hash (snd slot_hash)) ;;
  modify_heap (λ h, set_dnode_cache <[fst slot_hash := dnode :: bucket h (fst slot_hash)]> h).

(** [llist_delete(&dnode->siblings)] and [hlist_delete(&dnode->hash_list)]
    unlink the node from whichever list holds it. *)
Definition llist_delete_siblings (dnode : ptr) (h : heap) : heap :=
  set_dnodes (fmap (λ d, dnode_with_children (filter (λ c, c ≠ dnode) (d_children d)) d)) h.
Definition hlist_delete_hash_list (dnode : ptr) (h : heap) : heap :=
  set_dnode_cache (fmap (filter (λ c, c ≠ dnode))) h.

(** [vfs_dcache_remove] *)
Definition vfs_dcache_remove (dnode : ptr) : M unit :=
  assert (negb (dnode =? 0)) ;;
  d <- deref_dnode dnode ;;
  assert (d_ref_count d =? 1) ;;
  modify_heap (llist_delete_siblings dnode) ;;
  modify_heap (hlist_delete_hash_list dnode) ;;
  update_dnode dnode (dnode_with_parent NULL) ;;
  update_dnode dnode (λ d, dnode_with_ref_count (d_ref_count d - 1) d).

(** [vfs_dcache_rehash] *)
Definition vfs_dcache_rehash (new_parent dnode : ptr) : M unit :=
  assert (negb (new_parent =? 0)) ;;
  update_dnode dnode (λ d, dnode_with_name (hstr_rehash (d_name d)) d) ;;
  vfs_dcache_remove dnode ;;
  vfs_dcache_add new_parent dnode.

(** ** 4.D Object lifecycle *)

Definition cake_grab : M ptr :=
  λ w, let '(p, h') := cake_grab_dnode (w_heap w) in Some (p, mk_world h' (w_trace w)).

(** [vfs_d_alloc]: the fresh dnode is zeroed, takes a copy of [name]
    ([hstrcpy]) and inherits the superblock of its parent. *)
Definition vfs_d_alloc (parent : ptr) (name : hstr) : M ptr :=
  dnode <- cake_grab ;;
  dnode <- (if dnode =? 0
            then modify_heap lru_evict_half_dnode ;; cake_grab
            else ret dnode) ;;
  if dnode =? 0 then ret NULL
  else
    sb <- (if negb (parent =? 0)
           then p <- deref_dnode parent ;; ret (d_super_block p)
           else ret NULL) ;;
    modify_heap (set_dnodes <[dnode := mk_dnode name NULL NULL [] sb NULL 0]>) ;;
    ret dnode.

Fixpoint for_each {A} (l : list A) (body : A → M unit) : M unit :=
  match l with
  | [] => ret tt
  | x :: l' => body x ;; for_each l' body
  end.

(** [vfs_d_free] *)
Definition vfs_d_free (dnode : ptr) : M unit :=
  d <- deref_dnode dnode ;;
  assert (d_ref_count d =? 1) ;;
  (if negb (d_inode d =? 0)
   then i <- deref_inode (d_inode d) ;;
        assert (i_link_count i >? 0) ;;
        update_inode (d_inode d) (λ i, inode_with_link_count (i_link_count i - 1) i)
   else ret tt) ;;
  vfs_dcache_remove dnode ;;
  d <- deref_dnode dnode ;;
  for_each (d_children d) vfs_dcache_remove ;;
  modify_heap (set_dnodes (delete dnode)).

(** ** 4.E Path walker *)

Definition VFS_SYMLINK_DEPTH : Z := 16.
Definition PATH_DELIM : ascii := "/"%char.
Definition NUL : ascii := "000"%char.

(** What a walk hands back: the status, and the values written through
    the out-parameters [dentry] and [component] ([None]: not written). *)
Record walk_result := mk_walk_result {
  wr_errno : Z;
  wr_dentry : option ptr;
  wr_component : option hstr
}.

(** The [error:] exit. *)
Definition walk_error (errno : Z) : walk_result :=
  mk_walk_result errno (Some NULL) None.

(** The exit below the loop: [*dentry = current_level; return 0]. *)
Definition walk_done (current_level : ptr) : walk_result :=
  mk_walk_result 0 (Some current_level) None.

(** [j], the number of bytes gathered in [fname_buffer]. *)
Definition str_len (s : string) : Z := Z.of_nat (String.length s).

(** The head of the loop body: gathering one byte of a component.  The
    outcome is an early [return], a jump to [cont:], or a completed
    component. *)
Inductive scan :=
| ScanReturn (errno : Z)
| ScanCont (buf : string)
| ScanComplete (buf : string).

Definition walk_scan (current lookahead : ascii) (buf : string) : scan :=
  if negb (Ascii.eqb current PATH_DELIM) then
    if str_len buf >=? VFS_NAME_MAXLEN - 1 then ScanReturn ENAMETOOLONG
    else if negb (VFS_VALID_CHAR current) then ScanReturn EINVAL
    else
      let buf' := String.append buf (String current "") in
      if negb (Ascii.eqb lookahead NUL) then ScanCont buf'
      else if Ascii.eqb lookahead PATH_DELIM then ScanCont buf'
      else ScanComplete buf'
  else if Ascii.eqb lookahead PATH_DELIM then ScanCont buf
  else ScanComplete buf.

(** The symlink block.  [rec] is [__vfs_walk] at [depth + 1] with
    options 0 and no [component].  The outcome is an exit of the walk or
    the new [current_level] and [current_inode]. *)
Definition walk_symlink (rec : ptr → string → M walk_result)
    (current_level current_inode : ptr) : M (walk_result + ptr * ptr) :=
  ci <- deref_inode current_inode ;;
  if has_flag (i_itype ci) VFS_IFSYMLINK then
    r <- call_driver (EvReadSymlink current_inode)
           (f ← ops_read_symlink (i_ops ci); Some (f current_inode)) ;;
    if negb (fst r =? 0) then ret (inl (walk_error (fst r)))
    else
      d <- deref_dnode current_level ;;
      res <- rec (d_parent d) (snd r) ;;
      if negb (wr_errno res =? 0) then ret (inl (walk_error (wr_errno res)))
      else
        dnode <- of_option (wr_dentry res) ;;
        d <- deref_dnode current_level ;;
        vfs_dcache_rehash (d_parent d) dnode ;;
        dn <- deref_dnode dnode ;;
        ret (inr (dnode, d_inode dn))
  else ret (inr (current_level, current_inode)).

(** Cache lookup and, on a miss, population from the driver. *)
Definition walk_lookup (walk_options : Z) (current_level current_inode : ptr)
    (name : hstr) : M (walk_result + ptr) :=
  log (EvDcacheLookup current_level name) ;;
  h <- get_heap ;;
  dnode <- of_option (vfs_dcache_lookup h current_level name) ;;
  if dnode =? 0 then
    dnode <- vfs_d_alloc current_level name ;;
    if dnode =? 0 then ret (inl (walk_error ENOMEM))
    else
      ci <- deref_inode current_inode ;;
      errno <- call_driver (EvDirLookup current_inode dnode)
                 (f ← ops_dir_lookup (i_ops ci); Some (f current_inode dnode)) ;;
      errno <- (if (errno =? ENOENT) && has_flag walk_options VFS_WALK_MKPARENT then
                  ci <- deref_inode current_inode ;;
                  match ops_mkdir (i_ops ci) with
                  | None => ret ENOTSUP
                  | Some f => call_driver (EvMkdir current_inode dnode)
                                (Some (f current_inode dnode))
                  end
                else ret errno) ;;
      vfs_dcache_add current_level dnode ;;
      if negb (errno =? 0) then vfs_d_free dnode ;; ret (inl (walk_error errno))
      else ret (inr dnode)
  else ret (inr dnode).

(** The name of a completed component: [name.len = j] and
    [hstr_rehash(&name, HSTR_FULL_HASH)]. *)
Definition component_name (buf : string) : hstr :=
  hstr_rehash (mk_hstr 0 (str_len buf) buf).

(** The rest of the loop body, for a completed component; [k] is the
    code from [j = 0; current_level = dnode;] on. *)
Definition walk_component (rec : ptr → string → M walk_result)
    (walk_options : Z) (has_component : bool) (lookahead : ascii)
    (current_level : ptr) (buf : string) (k : ptr → M walk_result) : M walk_result :=
  let name := component_name buf in
  if Ascii.eqb lookahead NUL && has_flag walk_options VFS_WALK_PARENT then
    ret (mk_walk_result 0 (Some current_level)
           (if has_component then Some name else None))
  else
    d <- deref_dnode current_level ;;
    s <- walk_symlink rec current_level (d_inode d) ;;
    match s with
    | inl r => ret r
    | inr (current_level, current_inode) =>
        l <- walk_lookup walk_options current_level current_inode name ;;
        match l with
        | inl r => ret r
        | inr dnode => k dnode
        end
    end.

(** The [while (current && current_level)] loop.  [rest] is the path
    from index [i] on; a string that ends stands for one that ends in
    its terminator. *)
Fixpoint walk_loop (rec : ptr → string → M walk_result)
    (walk_options : Z) (has_component : bool)
    (current : ascii) (rest : string) (buf : string) (current_level : ptr)
    {struct rest} : M walk_result :=
  if Ascii.eqb current NUL || (current_level =? 0) then ret (walk_done current_level)
  else
    let lookahead := match rest with EmptyString => NUL | String c _ => c end in
    let cont := λ buf' current_level',
      match rest with
      | EmptyString => ret (walk_done current_level')
      | String c rest' =>
          walk_loop rec walk_options has_component c rest' buf' current_level'
      end in
    match walk_scan current lookahead buf with
    | ScanReturn errno => ret (mk_walk_result errno None None)
    | ScanCont buf' => cont buf' current_level
    | ScanComplete buf' =>
        walk_component rec walk_options has_component lookahead current_level buf'
          (cont EmptyString)
    end.

(** The prologue: the choice of the starting dnode, and the path from
    index [i] on.  With an empty path and no start the source reads the
    byte after the terminator; the model assigns no behaviour to that. *)
Definition walk_start (start : ptr) (path : string) (walk_options : Z) : M (ptr * string) :=
  let path0 := match path with EmptyString => NUL | String c _ => c end in
  if Ascii.eqb path0 PATH_DELIM || (start =? 0) then
    start' <- (if has_flag walk_options VFS_WALK_FSRELATIVE && negb (start =? 0) then
                 d <- deref_dnode start ;;
                 sb <- deref_sb (d_super_block d) ;;
                 ret (sb_root sb)
               else
                 h <- get_heap ;;
                 root <- deref_dnode (vfs_sysroot h) ;;
                 if d_mnt root =? 0 then fault else ret (vfs_sysroot h)) ;;
    match path with
    | EmptyString => fault
    | String _ path' => ret (start', path')
    end
  else ret (start, path).

(** [__vfs_walk] with [n] levels of symlink nesting left, that is at
    [depth = VFS_SYMLINK_DEPTH - n]. *)
Fixpoint walk_at (n : nat) (start : ptr) (path : string)
    (has_component : bool) (walk_options : Z) : M walk_result :=
  match n with
  | O => ret (mk_walk_result ENAMETOOLONG None None)
  | S n' =>
      sp <- walk_start start path walk_options ;;
      let rec := λ s p, walk_at n' s p false 0 in
      match snd sp with
      | EmptyString => walk_loop rec walk_options has_component NUL EmptyString EmptyString (fst sp)
      | String current rest =>
          walk_loop rec walk_options has_component current rest EmptyString (fst sp)
      end
  end.

Definition __vfs_walk (start : ptr) (path : string) (has_component : bool)
    (walk_options : Z) (depth : Z) : M walk_result :=
  walk_at (Z.to_nat (VFS_SYMLINK_DEPTH - depth)) start path has_component walk_options.

(** [vfs_walk]: the name buffer is local to the walk. *)
Definition vfs_walk (start : ptr) (path : string) (has_component : bool)
    (options : Z) : M walk_result :=
  __vfs_walk start path has_component options 0.

(** ** System calls and their support *)

(** How a system call hands its status back.  The macros [DO_STATUS]
    and [DO_STATUS_OR_RETURN] belong to the syscall glue; a result
    records which one the call ends in and on which value.  [RETURN] is
    a plain [return]. *)
Inductive sysret :=
| DO_STATUS (errno : Z)
| DO_STATUS_OR_RETURN (errno : Z)
| RETURN (v : Z).

Definition FLOCATE_CREATE_EMPTY : Z := 1.

(** Modelled from the spec: the macro [TEST_FD] of <lunaix/fs.h>, the
    range check of a descriptor against the [VFS_MAX_FD] slots of the
    table. *)
Definition TEST_FD (fd : Z) : bool := (0 <=? fd) && (fd <? VFS_MAX_FD).

(** [__vfs_getfd]: the status and the slot written through [fd_s]. *)
Definition __vfs_getfd (h : heap) (fd : Z) : Z * option v_fd :=
  if TEST_FD fd then
    match fds h !! fd with
    | Some fd_s => (0, Some fd_s)
    | None => (EBADF, None)
    end
  else (EBADF, None).

(** [__vfs_try_locate_file]: the status, [*fdir] and [*file].
    [name_str] is the content the local array happens to hold. *)
Definition __vfs_try_locate_file (name_str : string) (path : string) (options : Z)
    : M (Z * option ptr * option ptr) :=
  h <- get_heap ;;
  r <- vfs_walk (cwd h) path true VFS_WALK_PARENT ;;
  if negb (wr_errno r =? 0) then ret (wr_errno r, wr_dentry r, None)
  else
    fdir <- of_option (wr_dentry r) ;;
    let name := default (mk_hstr 0 0 name_str) (wr_component r) in
    r2 <- vfs_walk fdir (value name) false 0 ;;
    if negb (wr_errno r2 =? ENOENT) || negb (has_flag options FLOCATE_CREATE_EMPTY)
    then ret (wr_errno r2, Some fdir, wr_dentry r2)
    else
      let parent := fdir in
      file_new <- vfs_d_alloc parent name ;;
      if file_new =? 0 then ret (ENOMEM, Some fdir, wr_dentry r2)
      else
        pd <- deref_dnode parent ;;
        pi <- deref_inode (d_inode pd) ;;
        errno <- call_driver (EvCreate (d_inode pd) file_new)
                   (f ← ops_create (i_ops pi); Some (f (d_inode pd) file_new)) ;;
        if errno =? 0
        then vfs_dcache_add parent file_new ;; ret (errno, Some fdir, Some file_new)
        else vfs_d_free file_new ;; ret (errno, Some fdir, wr_dentry r2).

(** [vfs_close].  The mount busy counter and the page cache are kept by
    collaborators and are not part of the store. *)
Definition vfs_close (file : ptr) : M Z :=
  f <- deref_file file ;;
  errno <- call_driver (EvClose file) (g ← fops_close (f_ops f); Some (g file)) ;;
  if errno =? 0 then
    f <- deref_file file ;;
    update_dnode (f_dnode f) (λ d, dnode_with_ref_count (d_ref_count d - 1) d) ;;
    update_inode (f_inode f) (λ i, inode_with_open_count (i_open_count i - 1) i) ;;
    modify_heap (set_files (delete file)) ;;
    ret errno
  else ret errno.

(** [__vfs_readdir_callback]; [strncpy] pads the copy with NUL bytes. *)
Fixpoint strncpy (src : string) (n : nat) : string :=
  match n with
  | O => EmptyString
  | S n' =>
      match src with
      | EmptyString => String NUL (strncpy EmptyString n')
      | String c src' =>
          if Ascii.eqb c NUL then String NUL (strncpy EmptyString n')
          else String c (strncpy src' n')
      end
  end.

Definition __vfs_readdir_callback (dent : dirent) (name : string) (len dtype : Z) : dirent :=
  mk_dirent dtype (d_offset dent) len (strncpy name (Z.to_nat DIRENT_NAME_MAX_LEN)).

(** [readdir].  The user buffer [dent] is passed in and handed back.  A
    driver reports entries through [read_complete_callback] only.
    [struct dirent] and [struct dir_context] are declared outside the
    sources: [d_offset] is taken as an [unsigned int] and [index] as an
    [int], 32 bits each on the target.  So [.index = dent->d_offset]
    reads the offset as a signed word, [dctx.index -= 2] is signed
    arithmetic, and [dent->d_offset++] wraps. *)
Definition sys_readdir (fd : Z) (dent : dirent) : M (sysret * dirent) :=
  h <- get_heap ;;
  let g := __vfs_getfd h fd in
  if negb (fst g =? 0) then ret (DO_STATUS_OR_RETURN (fst g), dent)
  else
    fd_s <- of_option (snd g) ;;
    file <- deref_file (fd_file fd_s) ;;
    inode <- deref_inode (f_inode file) ;;
    if negb (has_flag (i_itype inode) VFS_IFDIR)
    then ret (DO_STATUS_OR_RETURN ENOTDIR, dent)
    else
      let index := to_int (d_offset dent) in
      if d_offset dent =? 0 then
        let dent := __vfs_readdir_callback dent (value vfs_dot) (len vfs_dot) 0 in
        ret (DO_STATUS_OR_RETURN 1, dirent_with_offset (wrap32 (d_offset dent + 1)) dent)
      else if d_offset dent =? 1 then
        let dent := __vfs_readdir_callback dent (value vfs_ddot) (len vfs_ddot) 0 in
        ret (DO_STATUS_OR_RETURN 1, dirent_with_offset (wrap32 (d_offset dent + 1)) dent)
      else
        let index := to_int (index - 2) in
        r <- call_driver (EvReaddir (fd_file fd_s) index)
               (f ← fops_readdir (f_ops file); Some (f (fd_file fd_s) index)) ;;
        let dent := fold_left (λ dent e, __vfs_readdir_callback dent (de_name e) (de_len e) (de_dtype e))
                      (snd r) dent in
        if negb (fst r =? 1) then ret (DO_STATUS_OR_RETURN (fst r), dent)
        else ret (DO_STATUS_OR_RETURN (fst r),
                  dirent_with_offset (wrap32 (d_offset dent + 1)) dent).

(** [lseek] *)
Definition sys_lseek (fd offset options : Z) : M sysret :=
  h <- get_heap ;;
  let g := __vfs_getfd h fd in
  if negb (fst g =? 0) then ret (DO_STATUS (fst g))
  else
    fd_s <- of_option (snd g) ;;
    file <- deref_file (fd_file fd_s) ;;
    inode <- deref_inode (f_inode file) ;;
    let fpos :=
      if options =? FSEEK_CUR then wrap32 (to_int (f_pos file) + offset)
      else if options =? FSEEK_END then wrap32 (to_int (i_fsize inode) + offset)
      else if options =? FSEEK_SET then wrap32 offset
      else f_pos file in
    errno <- call_driver (EvSeek (f_inode file) fpos)
               (f ← fops_seek (f_ops file); Some (f (f_inode file) fpos)) ;;
    (if errno =? 0 then update_file (fd_file fd_s) (file_with_pos fpos) else ret tt) ;;
    ret (DO_STATUS errno).

(** [rmdir] *)
Definition sys_rmdir (pathname : string) : M sysret :=
  h <- get_heap ;;
  r <- vfs_walk (cwd h) pathname false 0 ;;
  if negb (wr_errno r =? 0) then ret (DO_STATUS (wr_errno r))
  else
    dnode <- of_option (wr_dentry r) ;;
    d <- deref_dnode dnode ;;
    sb <- deref_sb (d_super_block d) ;;
    fs <- deref_fs (sb_fs sb) ;;
    if has_flag (fs_types fs) FSTYPE_ROFS then ret (DO_STATUS EROFS)
    else
      busy <- (if d_ref_count d >? 1 then ret true
               else i <- deref_inode (d_inode d) ;; ret (negb (i_open_count i =? 0))) ;;
      if busy then ret (DO_STATUS EBUSY)
      else
        match d_children d with
        | _ :: _ => ret (DO_STATUS ENOTEMPTY)
        | [] =>
            let parent := d_parent d in
            if parent =? 0 then ret (DO_STATUS EINVAL)
            else
              pd <- deref_dnode parent ;;
              pi <- deref_inode (d_inode pd) ;;
              i <- deref_inode (d_inode d) ;;
              if has_flag (i_itype i) VFS_IFDIR then
                errno <- call_driver (EvRmdir (d_inode pd) dnode)
                           (f ← ops_rmdir (i_ops pi); Some (f (d_inode pd) dnode)) ;;
                (if errno =? 0 then vfs_dcache_remove dnode else ret tt) ;;
                ret (DO_STATUS errno)
              else ret (DO_STATUS ENOTDIR)
        end.

(** [mkdir].  The source tests the local [dir] before assigning it;
    [dir] is the value the local happens to hold, [name_value] the
    content of the local array. *)
Definition sys_mkdir (dir : ptr) (name_value : string) (path : string) : M sysret :=
  if dir =? 0 then ret (DO_STATUS ENOMEM)
  else
    h <- get_heap ;;
    r <- vfs_walk (cwd h) path true VFS_WALK_PARENT ;;
    if negb (wr_errno r =? 0) then ret (DO_STATUS (wr_errno r))
    else
      parent <- of_option (wr_dentry r) ;;
      let name := default (mk_hstr 0 0 name_value) (wr_component r) in
      dir <- vfs_d_alloc parent name ;;
      pd <- deref_dnode parent ;;
      pi <- deref_inode (d_inode pd) ;;
      sb <- deref_sb (d_super_block pd) ;;
      fs <- deref_fs (sb_fs sb) ;;
      if has_flag (fs_types fs) FSTYPE_ROFS
      then vfs_d_free dir ;; ret (DO_STATUS ENOTSUP)
      else
        match ops_mkdir (i_ops pi) with
        | None => vfs_d_free dir ;; ret (DO_STATUS ENOTSUP)
        | Some f =>
            if negb (has_flag (i_itype pi) VFS_IFDIR)
            then vfs_d_free dir ;; ret (DO_STATUS ENOTDIR)
            else
              errno <- call_driver (EvMkdir (d_inode pd) dir) (Some (f (d_inode pd) dir)) ;;
              if errno =? 0
              then vfs_dcache_add parent dir ;; ret (DO_STATUS errno)
              else vfs_d_free dir ;; ret (DO_STATUS errno)
        end.

(** [__vfs_do_unlink] *)
Definition __vfs_do_unlink (dnode : ptr) : M Z :=
  d <- deref_dnode dnode ;;
  let inode := d_inode d in
  if d_ref_count d >? 1 then ret EBUSY
  else
    i <- deref_inode inode ;;
    if negb (i_open_count i =? 0) then ret EBUSY
    else if negb (has_flag (i_itype i) VFS_IFDIR) then
      errno <- call_driver (EvUnlink inode) (f ← ops_unlink (i_ops i); Some (f inode)) ;;
      (if errno =? 0 then vfs_d_free dnode else ret tt) ;;
      ret errno
    else ret EISDIR.

(** [unlink] *)
Definition sys_unlink (pathname : string) : M sysret :=
  h <- get_heap ;;
  r <- vfs_walk (cwd h) pathname false 0 ;;
  if negb (wr_errno r =? 0) then ret (DO_STATUS (wr_errno r))
  else
    dnode <- of_option (wr_dentry r) ;;
    d <- deref_dnode dnode ;;
    sb <- deref_sb (d_super_block d) ;;
    fs <- deref_fs (sb_fs sb) ;;
    if has_flag (fs_types fs) FSTYPE_ROFS then ret (DO_STATUS EROFS)
    else errno <- __vfs_do_unlink dnode ;; ret (DO_STATUS errno).

(** [symlink] *)
Definition sys_symlink (pathname link_target : string) : M sysret :=
  h <- get_heap ;;
  r <- vfs_walk (cwd h) pathname false 0 ;;
  if negb (wr_errno r =? 0) then ret (DO_STATUS (wr_errno r))
  else
    dnode <- of_option (wr_dentry r) ;;
    d <- deref_dnode dnode ;;
    sb <- deref_sb (d_super_block d) ;;
    fs <- deref_fs (sb_fs sb) ;;
    if has_flag (fs_types fs) FSTYPE_ROFS then ret (DO_STATUS EROFS)
    else
      i <- deref_inode (d_inode d) ;;
      match ops_set_symlink (i_ops i) with
      | None => ret (DO_STATUS ENOTSUP)
      | Some f =>
          errno <- call_driver (EvSetSymlink (d_inode d) link_target)
                     (Some (f (d_inode d) link_target)) ;;
          ret (DO_STATUS errno)
      end.

(** [vfs_do_rename] *)
Definition vfs_do_rename (current target : ptr) : M Z :=
  c <- deref_dnode current ;;
  t <- deref_dnode target ;;
  ci <- deref_inode (d_inode c) ;;
  ti <- deref_inode (d_inode t) ;;
  if i_id ci =? i_id ti then ret 0
  else if (d_ref_count c >? 1) || (d_ref_count t >? 1) then ret EBUSY
  else if negb (d_super_block c =? d_super_block t) then ret EXDEV
  else
    let newparent := d_parent t in
    match d_children t with
    | _ :: _ => ret ENOTEMPTY
    | [] =>
        errno <- call_driver (EvRename (d_inode c) current target)
                   (f ← ops_rename (i_ops ci); Some (f (d_inode c) current target)) ;;
        if negb (errno =? 0) then ret errno
        else
          t <- deref_dnode target ;;
          update_dnode current (dnode_with_name (d_name t)) ;;
          vfs_dcache_rehash newparent current ;;
          vfs_d_free target ;;
          ret errno
    end.

(** [rename]; [name_value] is the content of the fresh name buffer. *)
Definition sys_rename (name_value : string) (oldpath newpath : string) : M sysret :=
  h <- get_heap ;;
  r <- vfs_walk (cwd h) oldpath false 0 ;;
  if negb (wr_errno r =? 0) then ret (DO_STATUS (wr_errno r))
  else
    cur <- of_option (wr_dentry r) ;;
    h <- get_heap ;;
    r <- vfs_walk (cwd h) newpath true VFS_WALK_PARENT ;;
    if negb (wr_errno r =? 0) then ret (DO_STATUS (wr_errno r))
    else
      target_parent <- of_option (wr_dentry r) ;;
      let name := default (mk_hstr 0 0 name_value) (wr_component r) in
      r <- vfs_walk target_parent (value name) false 0 ;;
      if wr_errno r =? ENOENT then
        target <- vfs_d_alloc target_parent name ;;
        vfs_dcache_add target_parent target ;;
        if target =? 0 then ret (DO_STATUS ENOMEM)
        else errno <- vfs_do_rename cur target ;; ret (DO_STATUS errno)
      else if negb (wr_errno r =? 0) then ret (DO_STATUS (wr_errno r))
      else
        target <- of_option (wr_dentry r) ;;
        if target =? 0 then ret (DO_STATUS ENOMEM)
        else errno <- vfs_do_rename cur target ;; ret (DO_STATUS errno).

(** [vfs_dup_fd]: the copy of the slot; the file gains a reference. *)
Definition vfs_dup_fd (old : v_fd) : M (Z * v_fd) :=
  update_file (fd_file old) (λ f, file_with_ref_count (f_ref_count f + 1) f) ;;
  ret (0, old).

(** [vfs_dup2] *)
Definition vfs_dup2 (oldfd newfd : Z) : M sysret :=
  if newfd =? oldfd then ret (RETURN newfd)
  else
    h <- get_heap ;;
    let g := __vfs_getfd h oldfd in
    if negb (fst g =? 0) then ret (DO_STATUS (fst g))
    else
      oldfd_s <- of_option (snd g) ;;
      if negb (TEST_FD newfd) then ret (DO_STATUS EBADF)
      else
        errno <- match fds h !! newfd with
                 | Some newfd_s => vfs_close (fd_file newfd_s)
                 | None => ret 0
                 end ;;
        if negb (errno =? 0) then ret (DO_STATUS errno)
        else
          c <- vfs_dup_fd oldfd_s ;;
          if fst c =? 0
          then modify_heap (set_fds <[newfd := snd c]>) ;; ret (RETURN newfd)
          else ret (DO_STATUS (fst c)).

(** [dup2] *)
Definition sys_dup2 (oldfd newfd : Z) : M sysret := vfs_dup2 oldfd newfd.

End VFS.

(** ** Nested symlink resolution

    [walk_nests opts k start path w]: in the world [w], the walk of
    [path] from [start] comes to a component whose directory is a
    symlink that the driver reads without error, and the resolution of
    the link target nests in the same way [k - 1] more times.  The
    relation describes the file system, not the depth counter. *)
Section Nesting.
Context {cfg : vfs_config} {env : vfs_env}.

Inductive loop_nests : Z → nat → ascii → string → string → ptr → world → Prop :=
| nests_zero opts current rest buf current_level w :
    loop_nests opts 0 current rest buf current_level w
| nests_cont opts k current lookahead rest buf buf' current_level w :
    Ascii.eqb current NUL || (current_level =? 0) = false →
    walk_scan current lookahead buf = ScanCont buf' →
    loop_nests opts k lookahead rest buf' current_level w →
    loop_nests opts k current (String lookahead rest) buf current_level w
| nests_next opts k current lookahead rest buf buf' current_level w d i dnode w' :
    Ascii.eqb current NUL || (current_level =? 0) = false →
    walk_scan current lookahead buf = ScanComplete buf' →
    Ascii.eqb lookahead NUL && has_flag opts VFS_WALK_PARENT = false →
    dnodes (w_heap w) !! current_level = Some d →
    inodes (w_heap w) !! d_inode d = Some i →
    has_flag (i_itype i) VFS_IFSYMLINK = false →
    walk_lookup opts current_level (d_inode d) (component_name buf') w = Some (inr dnode, w') →
    loop_nests opts k lookahead rest EmptyString dnode w' →
    loop_nests opts k current (String lookahead rest) buf current_level w
| nests_symlink opts k current rest buf buf' current_level w d i read_symlink link h' d' :
    let lookahead := match rest with EmptyString => NUL | String c _ => c end in
    Ascii.eqb current NUL || (current_level =? 0) = false →
    walk_scan current lookahead buf = ScanComplete buf' →
    Ascii.eqb lookahead NUL && has_flag opts VFS_WALK_PARENT = false →
    dnodes (w_heap w) !! current_level = Some d →
    inodes (w_heap w) !! d_inode d = Some i →
    has_flag (i_itype i) VFS_IFSYMLINK = true →
    ops_read_symlink (i_ops i) = Some read_symlink →
    read_symlink (d_inode d) (w_heap w) = ((0, link), h') →
    dnodes h' !! current_level = Some d' →
    walk_nests 0 k (d_parent d') link
      (mk_world h' (w_trace w ++ [EvReadSymlink (d_inode d)])) →
    loop_nests opts (S k) current rest buf current_level w
with walk_nests : Z → nat → ptr → string → world → Prop :=
| walk_nests_zero opts start path w :
    walk_nests opts 0 start path w
| walk_nests_start opts k start path w start' current rest w' :
    walk_start start path opts w = Some ((start', String current rest), w') →
    loop_nests opts k current rest EmptyString start' w' →
    walk_nests opts k start path w.

End Nesting.

(** ** A configuration and a driver to run the model on

    The values below are one admissible choice for what the sources
    leave open; they serve to evaluate the model on concrete stores. *)
Module Sample.

Definition valid_char (c : ascii) : bool :=
  let n := Z.of_N (N_of_ascii c) in
  ((65 <=? n) && (n <=? 90)) || ((97 <=? n) && (n <=? 122)) ||
  ((48 <=? n) && (n <=? 57)) || (n =? 46) || (n =? 95) || (n =? 45).

(** The string hash [h * 33 + c] from 5381, on 32 bits. *)
Fixpoint djb2 (s : string) (h : Z) : Z :=
  match s with
  | EmptyString => h
  | String c s' => djb2 s' (wrap32 (h * 33 + Z.of_N (N_of_ascii c)))
  end.

#[export] Instance config : vfs_config := {|
  VFS_NAME_MAXLEN := 128;
  VFS_HASHBITS := 22;
  VFS_HASH_MASK := 1023;
  VFS_MAX_FD := 32;
  VFS_IFDIR := 1;
  VFS_IFSYMLINK := 16;
  VFS_WALK_MKPARENT := 1;
  VFS_WALK_FSRELATIVE := 2;
  VFS_WALK_PARENT := 4;
  FSTYPE_ROFS := 1;
  FSEEK_CUR := 2;
  FSEEK_END := 3;
  FSEEK_SET := 1;
  DIRENT_NAME_MAX_LEN := 8;
  ENAMETOOLONG := -10;
  EINVAL := -6;
  ENOMEM := -3;
  ENOENT := -5;
  ENOTSUP := -8;
  ENOTDIR := -11;
  ENOTEMPTY := -17;
  EISDIR := -19;
  EBUSY := -20;
  EROFS := -18;
  EBADF := -13;
  EXDEV := -21;
  VFS_VALID_CHAR := valid_char;
  HSTR_EQ := λ a b, hash a =? hash b;
  strhash_32 := λ s, djb2 s 5381
|}.

(** Symlink inodes live at addresses 32, 33, ...; the inode at
    [32 + n] links to [link_of n]. *)
Definition letter (n : Z) : string :=
  String (ascii_of_N (Z.to_N (97 + n))) EmptyString.
Definition name_of (n : Z) : string := String.append "s" (letter n).
Definition link_of (n : Z) : string := String.append (name_of (n + 1)) "/x".

(** A driver whose directories hold nothing beyond what is cached, whose
    mutating methods succeed without touching the store, and whose
    [seek] accepts positions up to 4096. *)
#[export] Instance driver : vfs_env := {|
  ops_dir_lookup := λ _, Some (λ _ _ h, (ENOENT, h));
  ops_mkdir := λ _, Some (λ _ _ h, (0, h));
  ops_rmdir := λ _, Some (λ _ _ h, (0, h));
  ops_create := λ _, Some (λ _ _ h, (0, h));
  ops_unlink := λ _, Some (λ _ h, (0, h));
  ops_rename := λ _, Some (λ _ _ _ h, (0, h));
  ops_read_symlink := λ _, Some (λ inode h, ((0, link_of (inode - 32)), h));
  ops_set_symlink := λ _, Some (λ _ _ h, (0, h));
  fops_seek := λ _, Some (λ _ pos h, (if pos <=? 4096 then 0 else EINVAL, h));
  fops_readdir := λ _, Some (λ _ index h,
    if index <? 2 then ((1, [mk_dir_entry "f" 1 0]), h) else ((0, []), h));
  fops_close := λ _, Some (λ _ h, (0, h));
  cake_grab_dnode := λ h, (1048576 + 256 * Z.of_nat (size (dnodes h)), h);
  lru_evict_half_dnode := λ h, h
|}.

Definition run {A} (m : M A) (w : world) : world :=
  match m w with Some (_, w') => w' | None => w end.

Definition dir_inode : v_inode := mk_inode 1 VFS_IFDIR 0 1 0 7.
Definition file_inode (id : Z) : v_inode := mk_inode id 0 100 1 0 7.
Definition symlink_inode (id : Z) : v_inode := mk_inode id VFS_IFSYMLINK 0 1 0 7.

Definition fresh_dnode (name : string) (inode : ptr) : v_dnode :=
  mk_dnode (component_name name) inode NULL [] 9 5 0.

(** Addresses of the dnodes. *)
Definition root : ptr := 1.
Definition dnode_d : ptr := 4096.
Definition dnode_f : ptr := 8192.
Definition dnode_g : ptr := 12288.
Definition dnode_s (k : Z) : ptr := 64 + k.

(** The root directory on the file system 8, which is writable or
    read-only according to [types]. *)
Definition base_heap (types : Z) : heap :=
  mk_heap {[ root := mk_dnode vfs_empty 31 NULL [] 9 5 1 ]}
          {[ 31 := dir_inode ]}
          ∅
          {[ 9 := mk_sb root 8 ]}
          {[ 8 := mk_fs types ]}
          ∅ ∅ root root.

Definition add_object (p : ptr) (d : v_dnode) (ip : ptr) (i : v_inode) (h : heap) : heap :=
  set_inodes <[ip := i]> (set_dnodes <[p := d]> h).

(** A chain of [n] symlinks [sa], [sb], ... under the root, each cached;
    the inode of the [k]-th lives at [32 + k]. *)
Fixpoint chain_world (n : nat) (w : world) : world :=
  match n with
  | O => w
  | S n' =>
      let k := Z.of_nat n' in
      let w1 := chain_world n' w in
      let h := add_object (dnode_s k) (fresh_dnode (name_of k) (32 + k))
                 (32 + k) (symlink_inode (32 + k)) (w_heap w1) in
      run (vfs_dcache_add root (dnode_s k)) (mk_world h (w_trace w1))
  end.

Definition symlinks_heap (n : nat) : heap :=
  w_heap (chain_world n (mk_world (base_heap 0) [])).
Definition symlinks (n : nat) : world := mk_world (symlinks_heap n) [].

(** A directory [d] (inode 52) holding a file [f] (inode 53), and a
    file [g] (inode 54), under the root. *)
Definition tree_heap (types : Z) : heap :=
  let h := add_object dnode_d (fresh_dnode "d" 52) 52 (mk_inode 2 VFS_IFDIR 0 1 0 7) (base_heap types) in
  let h := add_object dnode_f (fresh_dnode "f" 53) 53 (file_inode 3) h in
  let h := add_object dnode_g (fresh_dnode "g" 54) 54 (file_inode 4) h in
  w_heap (run (vfs_dcache_add root dnode_g)
            (run (vfs_dcache_add dnode_d dnode_f)
               (run (vfs_dcache_add root dnode_d) (mk_world h [])))).

Definition tree (types : Z) : world := mk_world (tree_heap types) [].

(** The writable tree with one more file under the root, named [az]
    (inode 55). *)
Definition dnode_az : ptr := 16384.
Definition tree_az_heap : heap :=
  let h := add_object dnode_az (fresh_dnode "az" 55) 55 (file_inode 5) (tree_heap 0) in
  w_heap (run (vfs_dcache_add root dnode_az) (mk_world h [])).

(** The tree with the file [g] open on descriptor 3 at position 10. *)
Definition opened : world :=
  mk_world (set_fds <[3 := mk_fd 600 0]>
              (set_files <[600 := mk_file dnode_g 54 10 1 6]> (tree_heap 0)))
           [].

(** The tree with the directory [d] open on descriptor 4. *)
Definition opened_dir : world :=
  mk_world (set_fds <[4 := mk_fd 601 0]>
              (set_files <[601 := mk_file dnode_d 52 0 1 6]> (tree_heap 0)))
           [].

(** What a run hands back, and the trace it leaves. *)
Definition result_of {A} (m : M A) (w : world) : option A := fst <$> m w.
Definition trace_of {A} (m : M A) (w : world) : option (list event) :=
  (λ x, w_trace (snd x)) <$> m w.

(** A name of 127 bytes, the longest the configuration admits, and its
    last 126 bytes. *)
Definition long_name_tail : string := string_of_list_ascii (repeat "a"%char 126).
Definition long_name : string := String "a" long_name_tail.

End Sample.

(** * The rest of vfs.c

    The functions below complete the embedding of the file.  Their
    driver methods and allocator come in a second pair of classes.  Calls
    to these methods are not recorded in the trace; that a call does not
    happen shows in a result that holds for every driver. *)

Class vfs_config_more := {
  EMFILE : Z;
  ELOOP : Z;
  EEXIST : Z;
  ERANGE : Z;
  VFS_IFSEQDEV : Z;
  VFS_IFFILE : Z;
  FO_DIRECT : Z;
  FO_CREATE : Z;
  FO_APPEND : Z
}.

(** The page caches.  The inode record does not carry [inode->pg_cache],
    so the field lives here: [pg_cache] by inode, where no entry and 0
    both stand for NULL, and [master] is [pcache->master] by page
    cache.  The functions that touch the field pass this store along. *)
Record pcaches := mk_pcaches {
  pg_cache : gmap ptr ptr;
  master : gmap ptr ptr
}.

(** [inode->ops->open], [inode->ops->link], the [read], [write] and
    [sync] of [file->ops], the page cache, [cake_grab(file_pile)] and
    [vzalloc(sizeof(struct pcache))], whose answer may depend on the page
    caches there are.  The user buffer of [read] and [write] is an address
    the VFS hands on. *)
Class vfs_env_more := {
  ops_open : ptr → option (ptr → ptr → heap → Z * heap);
  ops_link : ptr → option (ptr → ptr → heap → Z * heap);
  fops_read : ptr → option (ptr → ptr → Z → Z → heap → Z * heap);
  fops_write : ptr → option (ptr → ptr → Z → Z → heap → Z * heap);
  fops_sync : ptr → option (ptr → heap → Z * heap);
  pcache_read : ptr → ptr → Z → Z → heap → Z * heap;
  pcache_write : ptr → ptr → Z → Z → heap → Z * heap;
  cake_grab_file : heap → ptr * heap;
  vzalloc_pcache : pcaches → ptr;
  (** [inode->default_fops], a field the inode record does not carry *)
  default_fops : v_inode → ptr
}.

Definition dnode_with_inode (i : ptr) (d : v_dnode) : v_dnode :=
  mk_dnode (d_name d) i (d_parent d) (d_children d) (d_super_block d) (d_mnt d) (d_ref_count d).

Definition set_cwd (p : ptr) (h : heap) : heap :=
  mk_heap (dnodes h) (inodes h) (files h) (superblocks h) (filesystems h)
          (dnode_cache h) (fds h) p (vfs_sysroot h).

(** The macros [lock_dnode] and [unlock_dnode] on the list of the dnodes
    whose mutex the running call holds.  The recency list that
    [lock_dnode] touches is not represented. *)
Definition lock_dnode (dnode : ptr) (held : list ptr) : list ptr := dnode :: held.
Definition unlock_dnode (dnode : ptr) (held : list ptr) : list ptr :=
  List.filter (λ p, negb (p =? dnode)) held.

(** A call through a function pointer that leaves no event. *)
Definition call_plain {A} (f : option (heap → A * heap)) : M A :=
  λ w, match f with
       | Some g => let '(r, h') := g (w_heap w) in Some (r, mk_world h' (w_trace w))
       | None => None
       end.

(** [returns P m]: every result of [m] satisfies [P]. *)
Definition returns {A} (P : A → Prop) (m : M A) : Prop :=
  ∀ w a w', m w = Some (a, w') → P a.

(** Memory of a user buffer, by index. *)
Definition mem := Z → ascii.

Definition mem_write (m : mem) (off : Z) (data : string) : mem :=
  λ i, if (off <=? i) && (i <? off + Z.of_nat (String.length data))
       then default "000"%char (String.get (Z.to_nat (i - off)) data)
       else m i.

Section VFS_more.
Context {cfg : vfs_config} {env : vfs_env}.
Context {cfgm : vfs_config_more} {envm : vfs_env_more}.

(** ** Inodes and links *)

(** [vfs_assign_inode].  [link_count] is a 32-bit unsigned field and no
    test guards the decrement, which turns a count of 0 into [2^32 - 1].
    The increment is exact: [2^32 - 1] links to one inode are out of
    reach on the target. *)
Definition vfs_assign_inode (assign_to inode : ptr) : M unit :=
  d <- deref_dnode assign_to ;;
  (if negb (d_inode d =? 0)
   then update_inode (d_inode d)
          (λ i, inode_with_link_count (wrap32 (i_link_count i - 1)) i)
   else ret tt) ;;
  update_dnode assign_to (dnode_with_inode inode) ;;
  update_inode inode (λ i, inode_with_link_count (i_link_count i + 1) i).

(** [vfs_link] *)
Definition vfs_link (to_link name : ptr) : M Z :=
  t <- deref_dnode to_link ;;
  ti <- deref_inode (d_inode t) ;;
  tsb <- deref_sb (d_super_block t) ;;
  n <- deref_dnode name ;;
  nsb <- deref_sb (d_super_block n) ;;
  if negb (sb_root tsb =? sb_root nsb) then ret EXDEV
  else
    match ops_link (i_ops ti) with
    | None => ret ENOTSUP
    | Some f =>
        errno <- call_plain (Some (f (d_inode t) name)) ;;
        if errno =? 0 then
          t <- deref_dnode to_link ;;
          vfs_assign_inode name (d_inode t) ;; ret errno
        else ret errno
    end.

(** [__vfs_try_evict_dnode], on the dnode that embeds the LRU node. *)
Definition __vfs_try_evict_dnode (dnode : ptr) : M Z :=
  d <- deref_dnode dnode ;;
  if d_ref_count d =? 0 then vfs_d_free dnode ;; ret 1
  else ret 0.

(** The inode cache of one superblock: [i_cache] is the table
    [sb->i_cache], a map from the bucket index to the chain, head first. *)
Fixpoint icache_find (h : heap) (id : Z) (chain : list ptr) : option ptr :=
  match chain with
  | [] => Some NULL
  | pos :: n =>
      i ← inodes h !! pos;
      if i_id i =? id then Some pos else icache_find h id n
  end.

(** [vfs_i_find], on the table of the superblock. *)
Definition vfs_i_find (h : heap) (i_cache : gmap Z (list ptr)) (id : Z) : option ptr :=
  icache_find h id (default [] (i_cache !! Z.land id VFS_HASH_MASK)).

(** [vfs_i_addhash], on the table of [inode->sb]: [hlist_delete] takes
    the inode out of the chain that holds it, [hlist_add] puts it at the
    head of the chain of its id. *)
Definition vfs_i_addhash (h : heap) (i_cache : gmap Z (list ptr)) (inode : ptr)
    : option (gmap Z (list ptr)) :=
  i ← inodes h !! inode;
  let slot := Z.land (i_id i) VFS_HASH_MASK in
  let unlinked := filter (λ p, p ≠ inode) <$> i_cache in
  Some (<[slot := inode :: default [] (unlinked !! slot)]> unlinked).

(** ** Descriptors and open files *)

(** The [for] loop of [vfs_alloc_fdslot], from slot [i] with [n] slots
    to go. *)
Fixpoint alloc_fdslot_from (h : heap) (i : Z) (n : nat) : Z * option Z :=
  match n with
  | O => (EMFILE, None)
  | S n' =>
      match fds h !! i with
      | None => (0, Some i)
      | Some _ => alloc_fdslot_from h (i + 1) n'
      end
  end.

(** [vfs_alloc_fdslot]: the status and the slot written through [fd]. *)
Definition vfs_alloc_fdslot (h : heap) : Z * option Z :=
  alloc_fdslot_from h 0 (Z.to_nat VFS_MAX_FD).

(** The block of [vfs_open] that gives a regular file its page cache:
    [i] is the inode at [inode].  [pcache_init] sets up the fresh object
    only; a NULL from [vzalloc] is written through, which faults. *)
Definition attach_pg_cache (i : v_inode) (inode : ptr) (pc : pcaches) : option pcaches :=
  if has_flag (i_itype i) VFS_IFFILE && (default 0 (pg_cache pc !! inode) =? 0) then
    let pcache := vzalloc_pcache pc in
    if pcache =? 0 then None
    else Some (mk_pcaches (<[inode := pcache]> (pg_cache pc))
                          (<[pcache := inode]> (master pc)))
  else Some pc.

(** [vfs_open]: the status, the file written through [file] and the page
    caches.  The [memset] on what [cake_grab] returns faults on NULL.
    The busy counter of the mount is kept by a collaborator. *)
Definition vfs_open (dnode : ptr) (pc : pcaches) : M (Z * option ptr * pcaches) :=
  d <- deref_dnode dnode ;;
  if d_inode d =? 0 then ret (ENOTSUP, None, pc)
  else
    i <- deref_inode (d_inode d) ;;
    match ops_open (i_ops i) with
    | None => ret (ENOTSUP, None, pc)
    | Some f =>
        let inode := d_inode d in
        vfile <- call_plain (Some cake_grab_file) ;;
        if vfile =? 0 then fault
        else
          modify_heap (set_files <[vfile := mk_file dnode inode 0 1 (default_fops i)]>) ;;
          pc <- of_option (attach_pg_cache i inode pc) ;;
          errno <- call_plain (Some (f inode vfile)) ;;
          if negb (errno =? 0) then
            modify_heap (set_files (delete vfile)) ;; ret (errno, None, pc)
          else
            update_dnode dnode (λ d, dnode_with_ref_count (d_ref_count d + 1) d) ;;
            update_inode inode (λ i, inode_with_open_count (i_open_count i + 1) i) ;;
            ret (errno, Some vfile, pc)
    end.

(** [vfs_fsync] *)
Definition vfs_fsync (file : ptr) : M Z :=
  f <- deref_file file ;;
  deref_inode (f_inode f) ;;
  match fops_sync (f_ops f) with
  | None => ret ENOTSUP
  | Some g => call_plain (Some (g file))
  end.

(** [close] *)
Definition sys_close (fd : Z) : M sysret :=
  h <- get_heap ;;
  let g := __vfs_getfd h fd in
  if negb (fst g =? 0) then ret (DO_STATUS (fst g))
  else
    fd_s <- of_option (snd g) ;;
    file <- deref_file (fd_file fd_s) ;;
    if f_ref_count file >? 1 then
      update_file (fd_file fd_s) (λ f, file_with_ref_count (f_ref_count f - 1) f) ;;
      modify_heap (set_fds (delete fd)) ;;
      ret (DO_STATUS 0)
    else
      errno <- vfs_close (fd_file fd_s) ;;
      if negb (errno =? 0) then ret (DO_STATUS errno)
      else modify_heap (set_fds (delete fd)) ;; ret (DO_STATUS errno).

(** [dup] *)
Definition sys_dup (oldfd : Z) : M sysret :=
  h <- get_heap ;;
  let g := __vfs_getfd h oldfd in
  if negb (fst g =? 0) then ret (DO_STATUS (fst g))
  else
    oldfd_s <- of_option (snd g) ;;
    let a := vfs_alloc_fdslot h in
    if fst a =? 0 then
      newfd <- of_option (snd a) ;;
      c <- vfs_dup_fd oldfd_s ;;
      if fst c =? 0
      then modify_heap (set_fds <[newfd := snd c]>) ;; ret (RETURN newfd)
      else ret (DO_STATUS (fst c))
    else ret (DO_STATUS (fst a)).

(** [fsync] *)
Definition sys_fsync (fildes : Z) : M sysret :=
  h <- get_heap ;;
  let g := __vfs_getfd h fildes in
  if fst g =? 0 then
    fd_s <- of_option (snd g) ;;
    errno <- vfs_fsync (fd_file fd_s) ;;
    ret (DO_STATUS errno)
  else ret (DO_STATUS (fst g)).

(** The body shared by [read] and [write]: [io] is the method of
    [file->ops], [pcache_io] the page cache call.  Timestamps are not
    part of the store. *)
Definition sys_rw (io : ptr → option (ptr → ptr → Z → Z → heap → Z * heap))
    (pcache_io : ptr → ptr → Z → Z → heap → Z * heap)
    (fd : Z) (buf : ptr) (count : Z) : M sysret :=
  h <- get_heap ;;
  let g := __vfs_getfd h fd in
  if negb (fst g =? 0) then ret (DO_STATUS (fst g))
  else
    fd_s <- of_option (snd g) ;;
    file <- deref_file (fd_file fd_s) ;;
    inode <- deref_inode (f_inode file) ;;
    if has_flag (i_itype inode) VFS_IFDIR then ret (DO_STATUS EISDIR)
    else
      errno <- (if has_flag (i_itype inode) VFS_IFSEQDEV || has_flag (fd_flags fd_s) FO_DIRECT
                then call_plain (f ← io (f_ops file);
                                 Some (f (f_inode file) buf count (f_pos file)))
                else call_plain (Some (pcache_io (f_inode file) buf count (f_pos file)))) ;;
      if errno >? 0 then
        update_file (fd_file fd_s) (λ f, file_with_pos (wrap32 (f_pos f + errno)) f) ;;
        ret (RETURN errno)
      else ret (DO_STATUS errno).

(** [read] *)
Definition sys_read (fd : Z) (buf : ptr) (count : Z) : M sysret :=
  sys_rw fops_read pcache_read fd buf count.

(** [write] *)
Definition sys_write (fd : Z) (buf : ptr) (count : Z) : M sysret :=
  sys_rw fops_write pcache_write fd buf count.

(** [vfs_do_open]: the value that [open] hands to
    [DO_STATUS_OR_RETURN], and the page caches. *)
Definition vfs_do_open (name_str : string) (path : string) (options : Z) (pc : pcaches)
    : M (Z * pcaches) :=
  l <- __vfs_try_locate_file name_str path
         (if has_flag options FO_CREATE then FLOCATE_CREATE_EMPTY else 0) ;;
  let errno := fst (fst l) in
  if negb (errno =? 0) then ret (errno, pc)
  else
    file <- of_option (snd l) ;;
    o <- vfs_open file pc ;;
    let pc := snd o in
    let o := fst o in
    if negb (fst o =? 0) then ret (fst o, pc)
    else
      ofile <- of_option (snd o) ;;
      h <- get_heap ;;
      let a := vfs_alloc_fdslot h in
      if fst a =? 0 then
        fd <- of_option (snd a) ;;
        f <- deref_file ofile ;;
        i <- deref_inode (f_inode f) ;;
        let mask := wrap32 (- (if has_flag options FO_APPEND then 1 else 0)) in
        update_file ofile (file_with_pos (Z.land (i_fsize i) mask)) ;;
        modify_heap (set_fds <[fd := mk_fd ofile options]>) ;;
        ret (fd, pc)
      else ret (fst a, pc).

(** [open] *)
Definition sys_open (name_str : string) (path : string) (options : Z) (pc : pcaches)
    : M (sysret * pcaches) :=
  r <- vfs_do_open name_str path options pc ;;
  ret (DO_STATUS_OR_RETURN (fst r), snd r).

(** ** The working directory *)

(** [__vfs_do_chdir]: the status and the dnode mutexes that are held
    at the return.  The [ENOTDIR] exit is the label [done], which lies
    behind [unlock_dnode].  [ref_count] is a 32-bit counter.  The busy
    counters of the mounts are kept by a collaborator. *)
Definition __vfs_do_chdir (dnode : ptr) : M (Z * list ptr) :=
  let held := lock_dnode dnode [] in
  d <- deref_dnode dnode ;;
  i <- deref_inode (d_inode d) ;;
  if negb (has_flag (i_itype i) VFS_IFDIR) then ret (ENOTDIR, held)
  else
    h <- get_heap ;;
    (if negb (cwd h =? 0)
     then update_dnode (cwd h) (λ d, dnode_with_ref_count (wrap32 (d_ref_count d - 1)) d)
     else ret tt) ;;
    update_dnode dnode (λ d, dnode_with_ref_count (wrap32 (d_ref_count d + 1)) d) ;;
    modify_heap (set_cwd dnode) ;;
    ret (0, unlock_dnode dnode held).

(** [chdir]: what the call returns and the dnode mutexes it leaves
    held. *)
Definition sys_chdir (path : string) : M (sysret * list ptr) :=
  h <- get_heap ;;
  r <- vfs_walk (cwd h) path false 0 ;;
  if negb (wr_errno r =? 0) then ret (DO_STATUS (wr_errno r), [])
  else
    dnode <- of_option (wr_dentry r) ;;
    r <- __vfs_do_chdir dnode ;;
    ret (DO_STATUS (fst r), snd r).

(** [fchdir]: what the call returns and the dnode mutexes it leaves
    held. *)
Definition sys_fchdir (fd : Z) : M (sysret * list ptr) :=
  h <- get_heap ;;
  let g := __vfs_getfd h fd in
  if negb (fst g =? 0) then ret (DO_STATUS (fst g), [])
  else
    fd_s <- of_option (snd g) ;;
    file <- deref_file (fd_file fd_s) ;;
    r <- __vfs_do_chdir (f_dnode file) ;;
    ret (DO_STATUS (fst r), snd r).

(** ** Paths from dnodes *)

(** [vfs_get_path] with [n] levels left before [depth] exceeds 64: the
    status and the buffer.  [len] is a [size_t], the name length a
    32-bit word. *)
Fixpoint get_path_at (n : nat) (h : heap) (dnode : ptr) (buf : mem) (size : Z)
    : option (Z * mem) :=
  if dnode =? 0 then Some (0, buf)
  else
    match n with
    | O => Some (ELOOP, buf)
    | S n' =>
        d ← dnodes h !! dnode;
        r ← get_path_at n' h (d_parent d) buf size;
        let l := wrap32 (fst r) in
        if l >=? size then Some (to_int l, snd r)
        else
          let cpy_size := Z.min (wrap32 (len (d_name d))) (size - l) in
          let buf := mem_write (snd r) l (strncpy (value (d_name d)) (Z.to_nat cpy_size)) in
          let l := l + cpy_size in
          if l <? size
          then Some (to_int (wrap32 (l + 1)), mem_write buf l (String PATH_DELIM EmptyString))
          else Some (to_int l, buf)
    end.

Definition vfs_get_path (h : heap) (dnode : ptr) (buf : mem) (size : Z) (depth : Z)
    : option (Z * mem) :=
  get_path_at (Z.to_nat (65 - depth)) h dnode buf size.

(** The dnode reached from [dnode] by [k] parent links, NULL once the
    links end. *)
Fixpoint ancestor (h : heap) (k : nat) (dnode : ptr) : option ptr :=
  match k with
  | O => Some dnode
  | S k' =>
      if dnode =? 0 then Some NULL
      else d ← dnodes h !! dnode; ancestor h k' (d_parent d)
  end.

(** The names of the dnodes from the root down to [dnode], over at most
    [n] levels. *)
Fixpoint chain_to (n : nat) (h : heap) (dnode : ptr) : option (list hstr) :=
  if dnode =? 0 then Some []
  else
    match n with
    | O => None
    | S n' =>
        d ← dnodes h !! dnode;
        up ← chain_to n' h (d_parent d);
        Some (app up [d_name d])
    end.

Fixpoint no_nul (s : string) : bool :=
  match s with
  | EmptyString => true
  | String c s' => negb (Ascii.eqb c NUL) && no_nul s'
  end.

(** A name whose length field counts its bytes, none of them the
    terminator. *)
Definition hstr_wf (s : hstr) : bool :=
  (len s =? str_len (value s)) && no_nul (value s).

(** Each name followed by the delimiter. *)
Fixpoint path_of (names : list string) : string :=
  match names with
  | [] => EmptyString
  | s :: names' => String.append s (String PATH_DELIM (path_of names'))
  end.

(** [getcwd]: the status left in [k_status], whether [buf] is returned
    (and not NULL), and the buffer.  [len] is a [size_t]; the index of
    the terminator is computed in 32-bit arithmetic. *)
Definition sys_getcwd (h : heap) (buf : mem) (size : Z) : option (Z * bool * mem) :=
  if size <? 2 then Some (ERANGE, false, buf)
  else if cwd h =? 0 then
    let buf := mem_write buf 0 (String PATH_DELIM EmptyString) in
    Some (0, true, mem_write buf (wrap32 (1 + 1)) (String NUL EmptyString))
  else
    r ← vfs_get_path h (cwd h) buf size 0;
    let l := wrap32 (fst r) in
    if l =? size then Some (ERANGE, false, snd r)
    else Some (0, true, mem_write (snd r) (wrap32 (l + 1)) (String NUL EmptyString)).

(** [link].  [name_file] is the value the local happens to hold where
    [__vfs_try_locate_file] returns without writing [*file]; [name_str]
    is the content of the name buffer of [__vfs_try_locate_file]. *)
Definition sys_link (name_file : ptr) (name_str : string) (oldpath newpath : string)
    : M sysret :=
  l <- __vfs_try_locate_file name_str oldpath 0 ;;
  let errno := fst (fst l) in
  if errno =? 0 then
    l2 <- __vfs_try_locate_file name_str newpath FLOCATE_CREATE_EMPTY ;;
    let errno := fst (fst l2) in
    if errno =? 0 then ret (DO_STATUS EEXIST)
    else
      let name_file := default name_file (snd l2) in
      if negb (name_file =? 0) then
        to_link <- of_option (snd l) ;;
        errno <- vfs_link to_link name_file ;;
        ret (DO_STATUS errno)
      else ret (DO_STATUS errno)
  else ret (DO_STATUS errno).

(** The shape of a walk result: a status other than 0 comes with no
    dnode, status 0 with a written [*dentry], and a component is handed
    back only on status 0 of a walk with [VFS_WALK_PARENT] whose caller
    gave a [component]. *)
Definition walk_result_ok (opts : Z) (hc : bool) (r : walk_result) : Prop :=
  (wr_errno r = 0 → is_Some (wr_dentry r))
  ∧ (wr_errno r ≠ 0 → wr_dentry r = None ∨ wr_dentry r = Some NULL)
  ∧ (is_Some (wr_component r) →
     hc = true ∧ wr_errno r = 0 ∧ has_flag opts VFS_WALK_PARENT = true).

End VFS_more.

(** ** A configuration and a driver for the rest *)
Module SampleMore.
#[local] Existing Instance Sample.config.
#[local] Existing Instance Sample.driver.

#[export] Instance config : vfs_config_more := {|
  EMFILE := -24;
  ELOOP := -22;
  EEXIST := -4;
  ERANGE := -7;
  VFS_IFSEQDEV := 4;
  VFS_IFFILE := 2;
  FO_DIRECT := 4;
  FO_CREATE := 1;
  FO_APPEND := 2
|}.

(** A driver that opens, links and syncs without touching the store, and
    whose [read] and [write] transfer up to eight bytes; the page cache
    transfers up to four. *)
#[export] Instance driver : vfs_env_more := {|
  ops_open := λ _, Some (λ _ _ h, (0, h));
  ops_link := λ _, Some (λ _ _ h, (0, h));
  fops_read := λ _, Some (λ _ _ count _ h, (Z.min count 8, h));
  fops_write := λ _, Some (λ _ _ count _ h, (Z.min count 8, h));
  fops_sync := λ _, Some (λ _ h, (0, h));
  pcache_read := λ _ _ count _ h, (Z.min count 4, h);
  pcache_write := λ _ _ count _ h, (Z.min count 4, h);
  cake_grab_file := λ h, (2097152 + 256 * Z.of_nat (size (files h)), h);
  vzalloc_pcache := λ pc, 3145728 + 256 * Z.of_nat (size (master pc));
  default_fops := λ _, 6
|}.

(** A buffer of blanks. *)
Definition blank : mem := λ _, " "%char.

(** The bytes of a buffer from index 0. *)
Fixpoint mem_read (m : mem) (off : Z) (n : nat) : string :=
  match n with
  | O => EmptyString
  | S n' => String (m off) (mem_read m (off + 1) n')
  end.

(** A dnode that is its own parent. *)
Definition loop_heap : heap :=
  set_dnodes <[77 := mk_dnode (component_name "l") 52 77 [] 9 5 1]> (Sample.tree_heap 0).

(** The sample tree with every slot of the descriptor table taken by
    the file 600. *)
Definition full_table : heap :=
  set_fds (λ _, list_to_map ((λ i, (Z.of_nat i, mk_fd 600 0)) <$> seq 0 32))
    (w_heap Sample.opened).

(** The sample tree with the file [az] (inode 55) allocated but not yet
    entered in the name cache. *)
Definition az_uncached : heap :=
  Sample.add_object Sample.dnode_az (Sample.fresh_dnode "az" 55) 55 (Sample.file_inode 5)
    (Sample.tree_heap 0).

(** The sample tree with a name [h] under the root that has no inode
    yet. *)
Definition dnode_h : ptr := 20480.
Definition unlinked_heap : heap :=
  set_dnodes <[dnode_h := mk_dnode (component_name "h") NULL Sample.root [] 9 5 1]>
    (Sample.tree_heap 0).

(** The sample tree with an empty directory [e] (inode 56) under the
    root. *)
Definition dnode_e : ptr := 24576.
Definition empty_dir_heap : heap :=
  let h := Sample.add_object dnode_e (Sample.fresh_dnode "e" 56) 56
             (mk_inode 6 VFS_IFDIR 0 1 0 7) (Sample.tree_heap 0) in
  w_heap (Sample.run (vfs_dcache_add Sample.root dnode_e) (mk_world h [])).

(** The sample tree with [d] as the working directory. *)
Definition in_d_heap : heap := set_cwd Sample.dnode_d (Sample.tree_heap 0).

(** The sample tree with [g] as a regular file, and with [g] as a file
    that has lost its last link. *)
Definition regular_heap : heap :=
  set_inodes <[54 := mk_inode 4 VFS_IFFILE 100 1 0 7]> (Sample.tree_heap 0).

Definition regular : world := mk_world regular_heap [].

(** No page cache at all, and the page cache of [g] alone. *)
Definition no_pcaches : pcaches := mk_pcaches ∅ ∅.
Definition g_pcaches : pcaches := mk_pcaches (<[54 := 3145728]> ∅) (<[3145728 := 54]> ∅).

End SampleMore.

(** * Properties *)

Section Properties.
Context {cfg : vfs_config} {env : vfs_env}.

(** A name that [vfs_dcache_lookup] answers without the hash table. *)
Definition hstr_special (s : hstr) : bool :=
  (len s =? 0) || HSTR_EQ s vfs_dot || HSTR_EQ s vfs_ddot.

(** A byte that can stand inside a component: neither the terminator
    nor the delimiter, and accepted by [VFS_VALID_CHAR]. *)
Definition name_char (c : ascii) : bool :=
  negb (Ascii.eqb c NUL) && negb (Ascii.eqb c PATH_DELIM) && VFS_VALID_CHAR c.

Fixpoint string_forallb (P : ascii → bool) (s : string) : bool :=
  match s with
  | EmptyString => true
  | String c s' => P c && string_forallb P s'
  end.

(** ** The monad *)

Lemma bind_Some {A B} (m : M A) (k : A → M B) w a w' :
  m w = Some (a, w') → bind m k w = k a w'.
Proof. intros H. unfold bind. now rewrite H. Qed.

Lemma deref_dnode_Some p d w :
  dnodes (w_heap w) !! p = Some d → deref_dnode p w = Some (d, w).
Proof. intros H. unfold deref_dnode, bind, get_heap, of_option. now rewrite H. Qed.

Lemma deref_inode_Some p i w :
  inodes (w_heap w) !! p = Some i → deref_inode p w = Some (i, w).
Proof. intros H. unfold deref_inode, bind, get_heap, of_option. now rewrite H. Qed.

Lemma deref_file_Some p f w :
  files (w_heap w) !! p = Some f → deref_file p w = Some (f, w).
Proof. intros H. unfold deref_file, bind, get_heap, of_option. now rewrite H. Qed.

Lemma deref_sb_Some p s w :
  superblocks (w_heap w) !! p = Some s → deref_sb p w = Some (s, w).
Proof. intros H. unfold deref_sb, bind, get_heap, of_option. now rewrite H. Qed.

Lemma deref_fs_Some p s w :
  filesystems (w_heap w) !! p = Some s → deref_fs p w = Some (s, w).
Proof. intros H. unfold deref_fs, bind, get_heap, of_option. now rewrite H. Qed.

Lemma get_heap_eq w : get_heap w = Some (w_heap w, w).
Proof. reflexivity. Qed.

(** Unfolding of the monadic plumbing. *)
Ltac mrun :=
  unfold bind, ret, fault, get_heap, of_option, deref_dnode, deref_inode,
    deref_file, deref_sb, deref_fs in *; cbn.

(** ** 32-bit arithmetic *)

Lemma wrap32_to_int_add a b : wrap32 (to_int a + b) = wrap32 (a + b).
Proof.
  unfold to_int, wrap32.
  destruct (a mod 2 ^ 32 <? 2 ^ 31).
  - now rewrite Zplus_mod_idemp_l.
  - replace (a mod 2 ^ 32 - 2 ^ 32 + b) with (a mod 2 ^ 32 + b + (-1) * 2 ^ 32) by ring.
    rewrite Z_mod_plus_full. now rewrite Zplus_mod_idemp_l.
Qed.

(** ** The name cache *)

Lemma bucket_find_hit h hv chain p :
  bucket_find h hv chain = Some p →
  (p ∈ chain ∧ ∃ d, dnodes h !! p = Some d ∧ hash (d_name d) = hv)
  ∨ (p = NULL ∧ ∀ q d, q ∈ chain → dnodes h !! q = Some d → hash (d_name d) ≠ hv).
Proof.
  induction chain as [|pos n IH]; simpl.
  - intros [= <-]. right. split; [reflexivity|]. intros q d Hq. inversion Hq.
  - destruct (dnodes h !! pos) as [d|] eqn:Hd; simpl; [|discriminate].
    destruct (hash (d_name d) =? hv) eqn:Hh.
    + intros [= <-]. left. split; [left|]. exists d. split; [assumption|]. lia.
    + intros Hf. destruct (IH Hf) as [[Hin Hex]|[-> Hno]].
      * left. split; [now right|assumption].
      * right. split; [reflexivity|]. intros q d' Hq Hd'.
        apply elem_of_cons in Hq as [->|Hq].
        -- rewrite Hd in Hd'. injection Hd' as <-. lia.
        -- now apply (Hno q d').
Qed.

Lemma vfs_dcache_lookup_plain h parent str :
  hstr_special str = false →
  vfs_dcache_lookup h parent str =
  bucket_find h (snd (__dcache_hash parent (hash str)))
    (bucket h (fst (__dcache_hash parent (hash str)))).
Proof.
  unfold hstr_special, vfs_dcache_lookup. intros H.
  apply orb_false_iff in H as [H1 H2]. rewrite H1, H2. reflexivity.
Qed.

(** C3.  For a name that is neither empty nor matched by [HSTR_EQ]
    against "." or "..", [vfs_dcache_lookup] depends on the name through
    its 32-bit hash only: two such names with equal hashes get the same
    answer under one parent, whatever their bytes.  A dnode it returns
    sits in the bucket selected by the parent-mixed hash and its stored
    hash equals that mixed hash; a miss means that no dnode of the
    bucket stores the mixed hash. *)
Theorem vfs_dcache_lookup_by_hash (h : heap) (parent : ptr) (str str' : hstr) :
  hstr_special str = false →
  hstr_special str' = false →
  hash str' = hash str →
  vfs_dcache_lookup h parent str' = vfs_dcache_lookup h parent str
  ∧ ∀ p, vfs_dcache_lookup h parent str = Some p →
      let slot := fst (__dcache_hash parent (hash str)) in
      let mixed := snd (__dcache_hash parent (hash str)) in
      (p ∈ bucket h slot ∧ ∃ d, dnodes h !! p = Some d ∧ hash (d_name d) = mixed)
      ∨ (p = NULL ∧ ∀ q d, q ∈ bucket h slot → dnodes h !! q = Some d →
                     hash (d_name d) ≠ mixed).
Proof.
  intros Hs Hs' Hh. split.
  - rewrite !vfs_dcache_lookup_plain by assumption. now rewrite Hh.
  - intros p. rewrite vfs_dcache_lookup_plain by assumption.
    intros Hp. cbv zeta. now apply bucket_find_hit.
Qed.

(** The names "." and ".." as the walker builds them are the global
    [vfs_dot] and [vfs_ddot]. *)
Lemma component_name_dots :
  component_name "." = vfs_dot ∧ component_name ".." = vfs_ddot.
Proof. split; reflexivity. Qed.

(** C4.  Whatever the hash table holds, [vfs_dcache_lookup] answers "."
    and the empty name with the parent itself, and ".." with the
    parent's parent, or with the parent itself when that is NULL.
    [HSTR_EQ] is required to recognise "." and ".." and to tell them
    apart. *)
Theorem vfs_dcache_lookup_dots (h : heap) (parent : ptr) (d : v_dnode)
    (table : gmap Z (list ptr)) (str : hstr) :
  HSTR_EQ vfs_dot vfs_dot = true →
  HSTR_EQ vfs_ddot vfs_ddot = true →
  HSTR_EQ vfs_ddot vfs_dot = false →
  dnodes h !! parent = Some d →
  len str = 0 →
  let h' := set_dnode_cache (λ _, table) h in
  vfs_dcache_lookup h' parent vfs_dot = Some parent
  ∧ vfs_dcache_lookup h' parent vfs_ddot
    = Some (if d_parent d =? 0 then parent else d_parent d)
  ∧ vfs_dcache_lookup h' parent str = Some parent.
Proof.
  intros Hdot Hddot Hne Hd Hlen h'. unfold vfs_dcache_lookup.
  rewrite Hdot, Hddot, Hne, Hlen. cbn.
  split; [reflexivity|]. split; [|reflexivity].
  replace (dnodes h') with (dnodes h) by reflexivity.
  rewrite Hd. reflexivity.
Qed.

(** ** Descriptors *)

(** C9.  [dup2(x, x)] returns [x] and leaves the whole store, the
    descriptor table and every file object included, as it was; no
    driver is called.  This holds for every [x], open descriptor or
    not. *)
Theorem vfs_dup2_same (x : Z) (w : world) :
  vfs_dup2 x x w = Some (RETURN x, w) ∧ sys_dup2 x x w = Some (RETURN x, w).
Proof.
  unfold sys_dup2, vfs_dup2. rewrite Z.eqb_refl. split; reflexivity.
Qed.

(** C10.  On a valid descriptor whose inode is not a directory,
    [readdir] ends in [ENOTDIR]; the store and the trace are unchanged,
    so the driver's [readdir] is not called, and the dirent is handed
    back as it came. *)
Theorem sys_readdir_not_dir (w : world) (fd : Z) (dent : dirent)
    (fd_s : v_fd) (file : v_file) (inode : v_inode) :
  __vfs_getfd (w_heap w) fd = (0, Some fd_s) →
  files (w_heap w) !! fd_file fd_s = Some file →
  inodes (w_heap w) !! f_inode file = Some inode →
  has_flag (i_itype inode) VFS_IFDIR = false →
  sys_readdir fd dent w = Some ((DO_STATUS_OR_RETURN ENOTDIR, dent), w).
Proof.
  intros Hfd Hfile Hinode Hdir. unfold sys_readdir. mrun.
  rewrite Hfd. cbn. rewrite Hfile. cbn. rewrite Hinode. cbn.
  rewrite Hdir. reflexivity.
Qed.

Lemma readdir_callbacks_offset (entries : list dir_entry) (dent : dirent) :
  d_offset (fold_left (λ dent e, __vfs_readdir_callback dent (de_name e) (de_len e) (de_dtype e))
              entries dent) = d_offset dent.
Proof.
  revert dent. induction entries as [|e l IH]; intros dent; simpl.
  - reflexivity.
  - now rewrite IH.
Qed.

(** C8, as amended.  On a directory descriptor, [readdir] at stored
    offset 0 fills the dirent with "." and at stored offset 1 with "..",
    in both cases without calling the driver.  At any other stored
    offset [k >= 2] it calls the driver's [readdir] with the index that
    32-bit signed arithmetic gives for [(int) k - 2]: this is [k - 2] up
    to [k = 2^31 + 1] and the negative [k - 2 - 2^32] from there to
    [2^32 - 1].  The dirent handed back is the one the driver's
    callbacks filled; its offset is [k + 1] modulo [2^32] when the call
    reports an entry (status 1), which is [k + 1] below [2^32 - 1], and
    [k] when the driver reports anything else. *)
Theorem sys_readdir_offsets (w : world) (fd : Z) (dent : dirent)
    (fd_s : v_fd) (file : v_file) (inode : v_inode) :
  __vfs_getfd (w_heap w) fd = (0, Some fd_s) →
  files (w_heap w) !! fd_file fd_s = Some file →
  inodes (w_heap w) !! f_inode file = Some inode →
  has_flag (i_itype inode) VFS_IFDIR = true →
  (d_offset dent = 0 →
     sys_readdir fd dent w =
     Some ((DO_STATUS_OR_RETURN 1,
            mk_dirent 0 1 1 (strncpy "." (Z.to_nat DIRENT_NAME_MAX_LEN))), w))
  ∧ (d_offset dent = 1 →
     sys_readdir fd dent w =
     Some ((DO_STATUS_OR_RETURN 1,
            mk_dirent 0 2 2 (strncpy ".." (Z.to_nat DIRENT_NAME_MAX_LEN))), w))
  ∧ ∃ index,
      index = to_int (to_int (d_offset dent) - 2)
      ∧ (2 ≤ d_offset dent ≤ 2 ^ 31 + 1 → index = d_offset dent - 2)
      ∧ (2 ^ 31 + 2 ≤ d_offset dent < 2 ^ 32 → index = d_offset dent - 2 - 2 ^ 32)
      ∧ ∀ readdir errno entries h',
          2 ≤ d_offset dent →
          fops_readdir (f_ops file) = Some readdir →
          readdir (fd_file fd_s) index (w_heap w) = ((errno, entries), h') →
          let filled :=
            fold_left (λ dent e,
                         __vfs_readdir_callback dent (de_name e) (de_len e) (de_dtype e))
              entries dent in
          let dent' :=
            if errno =? 1 then dirent_with_offset (wrap32 (d_offset dent + 1)) filled
            else filled in
          sys_readdir fd dent w =
          Some ((DO_STATUS_OR_RETURN errno, dent'),
                mk_world h' (w_trace w ++ [EvReaddir (fd_file fd_s) index]))
          ∧ d_offset dent'
            = (if errno =? 1 then wrap32 (d_offset dent + 1) else d_offset dent)
          ∧ (errno = 1 → d_offset dent < 2 ^ 32 - 1 → d_offset dent' = d_offset dent + 1).
Proof.
  intros Hfd Hfile Hinode Hdir.
  set (index := to_int (to_int (d_offset dent) - 2)).
  assert (Hhead :
    sys_readdir fd dent w =
    (if d_offset dent =? 0 then
       ret (DO_STATUS_OR_RETURN 1,
            dirent_with_offset (wrap32 (d_offset dent + 1))
              (__vfs_readdir_callback dent (value vfs_dot) (len vfs_dot) 0))
     else if d_offset dent =? 1 then
       ret (DO_STATUS_OR_RETURN 1,
            dirent_with_offset (wrap32 (d_offset dent + 1))
              (__vfs_readdir_callback dent (value vfs_ddot) (len vfs_ddot) 0))
     else
       r <- call_driver (EvReaddir (fd_file fd_s) index)
              (f ← fops_readdir (f_ops file); Some (f (fd_file fd_s) index)) ;;
       let dent' := fold_left (λ dent e, __vfs_readdir_callback dent (de_name e) (de_len e) (de_dtype e))
                      (snd r) dent in
       if negb (fst r =? 1) then ret (DO_STATUS_OR_RETURN (fst r), dent')
       else ret (DO_STATUS_OR_RETURN (fst r),
                 dirent_with_offset (wrap32 (d_offset dent' + 1)) dent')) w).
  { unfold sys_readdir. mrun.
    rewrite Hfd. cbn. rewrite Hfile. cbn. rewrite Hinode. cbn.
    rewrite Hdir. cbn. reflexivity. }
  split; [|split].
  - intros H0. rewrite Hhead, H0. reflexivity.
  - intros H1. rewrite Hhead, H1. reflexivity.
  - exists index. split; [reflexivity|]. split.
    + intros Hk. subst index. unfold to_int, wrap32.
      destruct (decide (d_offset dent < 2 ^ 31)) as [Hlt|Hge].
      * rewrite (Z.mod_small (d_offset dent)) by lia.
        replace (d_offset dent <? 2 ^ 31) with true by lia.
        rewrite Z.mod_small by lia.
        replace (d_offset dent - 2 <? 2 ^ 31) with true by lia. reflexivity.
      * rewrite (Z.mod_small (d_offset dent)) by lia.
        replace (d_offset dent <? 2 ^ 31) with false by lia.
        replace ((d_offset dent - 2 ^ 32 - 2) mod 2 ^ 32) with (d_offset dent - 2)
          by (apply Z.mod_unique_pos with (q := -1); lia).
        replace (d_offset dent - 2 <? 2 ^ 31) with true by lia. reflexivity.
    + split.
      { intros Hk. subst index. unfold to_int, wrap32.
        rewrite (Z.mod_small (d_offset dent)) by lia.
        replace (d_offset dent <? 2 ^ 31) with false by lia.
        replace ((d_offset dent - 2 ^ 32 - 2) mod 2 ^ 32) with (d_offset dent - 2)
          by (apply Z.mod_unique_pos with (q := -1); lia).
        replace (d_offset dent - 2 <? 2 ^ 31) with false by lia. lia. }
      intros readdir errno entries h' Hk Hops Hcall filled dent'. rewrite Hhead.
      destruct (d_offset dent =? 0) eqn:E0; [lia|].
      destruct (d_offset dent =? 1) eqn:E1; [lia|].
      unfold bind, call_driver. rewrite Hops. cbn. rewrite Hcall. cbn.
      fold filled. subst dent'.
      assert (Hfilled : d_offset filled = d_offset dent)
        by apply readdir_callbacks_offset.
      destruct (errno =? 1) eqn:Ee; cbn [negb].
      * rewrite Hfilled. split; [reflexivity|]. split; [reflexivity|].
        intros _ Hsmall. cbn. unfold wrap32. apply Z.mod_small. lia.
      * split; [reflexivity|]. split; [exact Hfilled|]. intros He. lia.
Qed.

(** C7.  On a valid descriptor [lseek] computes the target in 32-bit
    arithmetic: the current position plus the offset for [FSEEK_CUR],
    the size of the inode plus the offset for [FSEEK_END], the offset
    for [FSEEK_SET].  It calls the driver's [seek] on the inode with
    that target and hands the driver's status back.  The file takes the
    target as its position exactly when the status is 0; otherwise the
    store is the one the driver left. *)
Theorem sys_lseek_target (w : world) (fd offset options : Z)
    (fd_s : v_fd) (file : v_file) (inode : v_inode) (seek : ptr → Z → heap → Z * heap) :
  FSEEK_CUR ≠ FSEEK_END → FSEEK_CUR ≠ FSEEK_SET → FSEEK_END ≠ FSEEK_SET →
  __vfs_getfd (w_heap w) fd = (0, Some fd_s) →
  files (w_heap w) !! fd_file fd_s = Some file →
  inodes (w_heap w) !! f_inode file = Some inode →
  fops_seek (f_ops file) = Some seek →
  options = FSEEK_CUR ∨ options = FSEEK_END ∨ options = FSEEK_SET →
  ∃ target,
    (options = FSEEK_CUR → target = wrap32 (f_pos file + offset))
    ∧ (options = FSEEK_END → target = wrap32 (i_fsize inode + offset))
    ∧ (options = FSEEK_SET → target = wrap32 offset)
    ∧ ∀ errno h',
        seek (f_inode file) target (w_heap w) = (errno, h') →
        (errno = 0 → is_Some (files h' !! fd_file fd_s)) →
        sys_lseek fd offset options w =
        Some (DO_STATUS errno,
              mk_world (if errno =? 0
                        then set_files (alter (file_with_pos target) (fd_file fd_s)) h'
                        else h')
                       (w_trace w ++ [EvSeek (f_inode file) target])).
Proof.
  intros Hce Hcs Hes Hfd Hfile Hinode Hops Hopt.
  set (target := if options =? FSEEK_CUR then wrap32 (to_int (f_pos file) + offset)
                 else if options =? FSEEK_END then wrap32 (to_int (i_fsize inode) + offset)
                 else if options =? FSEEK_SET then wrap32 offset
                 else f_pos file).
  exists target. repeat split.
  - intros ->. subst target. rewrite Z.eqb_refl. apply wrap32_to_int_add.
  - intros ->. subst target.
    destruct (FSEEK_END =? FSEEK_CUR) eqn:E; [lia|].
    rewrite Z.eqb_refl. apply wrap32_to_int_add.
  - intros ->. subst target.
    destruct (FSEEK_SET =? FSEEK_CUR) eqn:E1; [lia|].
    destruct (FSEEK_SET =? FSEEK_END) eqn:E2; [lia|].
    now rewrite Z.eqb_refl.
  - intros errno h' Hcall Hkeep. unfold sys_lseek. mrun.
    rewrite Hfd. cbn. rewrite Hfile. cbn. rewrite Hinode. cbn.
    fold target. unfold call_driver. rewrite Hops. cbn. rewrite Hcall. cbn.
    destruct (errno =? 0) eqn:Ee; [|reflexivity].
    unfold update_file. mrun.
    destruct (Hkeep ltac:(lia)) as [f' Hf']. rewrite Hf'. reflexivity.
Qed.

(** C6.  Let the walk of [rmdir] resolve the path to a dnode of a
    writable file system.  If the dnode has reference count 1, its inode
    is not open and it has children, [rmdir] ends in [ENOTEMPTY]; if its
    reference count exceeds 1 or its inode is open, [rmdir] ends in
    [EBUSY].  In each case the world is the one the path resolution
    left: no driver is called and the dnode keeps its place in the
    cache, its parent and its children. *)
Theorem sys_rmdir_refuses (w w1 : world) (pathname : string) (r : walk_result)
    (dnode : ptr) (d : v_dnode) (sb : v_superblock) (fs : filesystem) :
  vfs_walk (cwd (w_heap w)) pathname false 0 w = Some (r, w1) →
  wr_errno r = 0 →
  wr_dentry r = Some dnode →
  dnodes (w_heap w1) !! dnode = Some d →
  superblocks (w_heap w1) !! d_super_block d = Some sb →
  filesystems (w_heap w1) !! sb_fs sb = Some fs →
  has_flag (fs_types fs) FSTYPE_ROFS = false →
  (∀ i, d_ref_count d = 1 →
        inodes (w_heap w1) !! d_inode d = Some i →
        i_open_count i = 0 →
        d_children d ≠ [] →
        sys_rmdir pathname w = Some (DO_STATUS ENOTEMPTY, w1))
  ∧ (1 < d_ref_count d →
     sys_rmdir pathname w = Some (DO_STATUS EBUSY, w1))
  ∧ (∀ i, inodes (w_heap w1) !! d_inode d = Some i →
          0 < i_open_count i →
          sys_rmdir pathname w = Some (DO_STATUS EBUSY, w1)).
Proof.
  intros Hwalk Herr Hdentry Hd Hsb Hfs Hrw.
  assert (Hhead : sys_rmdir pathname w =
    (busy <- (if d_ref_count d >? 1 then ret true
              else i <- deref_inode (d_inode d) ;; ret (negb (i_open_count i =? 0))) ;;
     if busy then ret (DO_STATUS EBUSY)
     else
       match d_children d with
       | _ :: _ => ret (DO_STATUS ENOTEMPTY)
       | [] =>
           let parent := d_parent d in
           if parent =? 0 then ret (DO_STATUS EINVAL)
           else
             pd <- deref_dnode parent ;;
             pi <- deref_inode (d_inode pd) ;;
             i <- deref_inode (d_inode d) ;;
             if has_flag (i_itype i) VFS_IFDIR then
               errno <- call_driver (EvRmdir (d_inode pd) dnode)
                          (f ← ops_rmdir (i_ops pi); Some (f (d_inode pd) dnode)) ;;
               (if errno =? 0 then vfs_dcache_remove dnode else ret tt) ;;
               ret (DO_STATUS errno)
             else ret (DO_STATUS ENOTDIR)
       end) w1).
  { unfold sys_rmdir.
    rewrite (bind_Some _ _ _ _ _ (get_heap_eq w)).
    rewrite (bind_Some _ _ _ _ _ Hwalk).
    rewrite Herr, Hdentry. cbn [Z.eqb negb of_option].
    rewrite (bind_Some _ _ w1 dnode w1) by reflexivity.
    rewrite (bind_Some _ _ _ _ _ (deref_dnode_Some _ _ _ Hd)).
    rewrite (bind_Some _ _ _ _ _ (deref_sb_Some _ _ _ Hsb)).
    rewrite (bind_Some _ _ _ _ _ (deref_fs_Some _ _ _ Hfs)).
    rewrite Hrw. reflexivity. }
  rewrite Hhead. repeat split.
  - intros i Href Hi Hopen Hchildren.
    rewrite Href. cbn [Z.gtb Z.compare Pos.compare Pos.compare_cont].
    mrun. rewrite Hi. cbn. rewrite Hopen. cbn.
    destruct (d_children d); [contradiction|reflexivity].
  - intros Href. destruct (d_ref_count d >? 1) eqn:E; [reflexivity|lia].
  - intros i Hi Hopen. destruct (d_ref_count d >? 1) eqn:E; [reflexivity|].
    mrun. rewrite Hi. cbn.
    destruct (i_open_count i =? 0) eqn:E0; [lia|reflexivity].
Qed.

(** ** The path walker: gathering a component *)

Lemma walk_loop_unfold rec opts hc current rest buf cl :
  walk_loop rec opts hc current rest buf cl =
  if Ascii.eqb current NUL || (cl =? 0) then ret (walk_done cl)
  else
    let lookahead := match rest with EmptyString => NUL | String c _ => c end in
    let cont := λ buf' cl',
      match rest with
      | EmptyString => ret (walk_done cl')
      | String c rest' => walk_loop rec opts hc c rest' buf' cl'
      end in
    match walk_scan current lookahead buf with
    | ScanReturn errno => ret (mk_walk_result errno None None)
    | ScanCont buf' => cont buf' cl
    | ScanComplete buf' => walk_component rec opts hc lookahead cl buf' (cont EmptyString)
    end.
Proof. destruct rest; reflexivity. Qed.

Lemma str_len_snoc buf c : str_len (String.append buf (String c EmptyString)) = str_len buf + 1.
Proof.
  unfold str_len. induction buf as [|b buf IH]; simpl String.length.
  - reflexivity.
  - rewrite !Nat2Z.inj_succ. lia.
Qed.

Lemma str_len_nonneg s : 0 ≤ str_len s.
Proof. unfold str_len. lia. Qed.

Lemma append_nil_l s : String.append EmptyString s = s.
Proof. reflexivity. Qed.

Lemma append_cons c s t : String.append (String c s) t = String c (String.append s t).
Proof. reflexivity. Qed.

Lemma append_snoc buf c s :
  String.append (String.append buf (String c EmptyString)) s = String.append buf (String c s).
Proof.
  induction buf as [|b buf IH]; [reflexivity|].
  change (String b (String.append (String.append buf (String c EmptyString)) s)
          = String b (String.append buf (String c s))).
  now f_equal.
Qed.

Lemma name_char_inv c :
  name_char c = true →
  Ascii.eqb c NUL = false ∧ Ascii.eqb c PATH_DELIM = false ∧ VFS_VALID_CHAR c = true.
Proof.
  unfold name_char. intros H.
  apply andb_true_iff in H as [H Hv]. apply andb_true_iff in H as [Hn Hd].
  apply negb_true_iff in Hn, Hd. auto.
Qed.

(** One byte of a component, with more of the path behind it. *)
Lemma walk_loop_gather rec opts hc c lookahead rest buf cl :
  cl ≠ 0 →
  name_char c = true →
  Ascii.eqb lookahead NUL = false →
  str_len buf < VFS_NAME_MAXLEN - 1 →
  walk_loop rec opts hc c (String lookahead rest) buf cl =
  walk_loop rec opts hc lookahead rest (String.append buf (String c EmptyString)) cl.
Proof.
  intros Hcl Hc Hla Hlen. rewrite walk_loop_unfold.
  apply name_char_inv in Hc as (Hn & Hd & Hv).
  rewrite Hn. replace (cl =? 0) with false by lia. cbn [orb].
  cbv zeta. unfold walk_scan. rewrite Hd, Hv, Hla.
  replace (str_len buf >=? VFS_NAME_MAXLEN - 1) with false by lia.
  reflexivity.
Qed.

(** The last byte of a component that ends the path. *)
Lemma walk_loop_last rec opts hc c buf cl :
  cl ≠ 0 →
  name_char c = true →
  str_len buf < VFS_NAME_MAXLEN - 1 →
  walk_loop rec opts hc c EmptyString buf cl =
  walk_component rec opts hc NUL cl (String.append buf (String c EmptyString))
    (λ dnode, ret (walk_done dnode)).
Proof.
  intros Hcl Hc Hlen. rewrite walk_loop_unfold.
  apply name_char_inv in Hc as (Hn & Hd & Hv).
  rewrite Hn. replace (cl =? 0) with false by lia. cbn [orb].
  cbv zeta. unfold walk_scan. rewrite Hd, Hv.
  replace (str_len buf >=? VFS_NAME_MAXLEN - 1) with false by lia.
  reflexivity.
Qed.

(** The delimiter that closes a component, before the first byte of the
    next. *)
Lemma walk_loop_delim rec opts hc lookahead rest buf cl :
  cl ≠ 0 →
  Ascii.eqb lookahead PATH_DELIM = false →
  walk_loop rec opts hc PATH_DELIM (String lookahead rest) buf cl =
  walk_component rec opts hc lookahead cl buf
    (λ dnode, walk_loop rec opts hc lookahead rest EmptyString dnode).
Proof.
  intros Hcl Hla. rewrite walk_loop_unfold.
  replace (cl =? 0) with false by lia.
  cbn [Ascii.eqb PATH_DELIM NUL Bool.eqb orb andb].
  cbv zeta. unfold walk_scan. rewrite Hla. reflexivity.
Qed.

(** An overlong component: the byte behind [VFS_NAME_MAXLEN - 1]
    gathered ones stops the walk. *)
Lemma walk_loop_overlong rec opts hc (pre : string) :
  ∀ c post current rest buf cl w,
    cl ≠ 0 →
    String current rest = String.append pre (String c post) →
    string_forallb name_char pre = true →
    Ascii.eqb c NUL = false →
    Ascii.eqb c PATH_DELIM = false →
    str_len buf + str_len pre = VFS_NAME_MAXLEN - 1 →
    walk_loop rec opts hc current rest buf cl w =
    Some (mk_walk_result ENAMETOOLONG None None, w).
Proof.
  induction pre as [|p pre IH]; intros c post current rest buf cl w Hcl Hpath Hpre Hn Hd Hlen.
  - rewrite ?append_cons, ?append_nil_l in Hpath. injection Hpath as -> ->.
    rewrite walk_loop_unfold. rewrite Hn.
    replace (cl =? 0) with false by lia. cbn [orb]. cbv zeta.
    unfold walk_scan. rewrite Hd.
    change (str_len EmptyString) with 0 in Hlen.
    replace (str_len buf >=? VFS_NAME_MAXLEN - 1) with true by lia.
    reflexivity.
  - rewrite ?append_cons, ?append_nil_l in Hpath. injection Hpath as -> ->.
    simpl in Hpre. apply andb_true_iff in Hpre as [Hp Hpre].
    assert (Hlen' : str_len (String p pre) = str_len pre + 1).
    { unfold str_len. simpl String.length. lia. }
    pose proof (str_len_nonneg pre).
    destruct pre as [|p' pre'].
    + rewrite ?append_cons, ?append_nil_l. rewrite walk_loop_gather; try assumption; [|lia].
      eapply (IH c post); try eassumption; try reflexivity.
      rewrite str_len_snoc. lia.
    + rewrite ?append_cons, ?append_nil_l.
      assert (Hp' : name_char p' = true).
      { simpl in Hpre. now apply andb_true_iff in Hpre as [? _]. }
      rewrite walk_loop_gather; try assumption;
        [|now apply name_char_inv in Hp' as (? & _)|lia].
      eapply (IH c post); try eassumption; try reflexivity.
      rewrite str_len_snoc. lia.
Qed.

(** A component that fits, at the end of the path. *)
Lemma walk_loop_fits_end rec opts hc (comp : string) :
  ∀ current rest buf cl,
    cl ≠ 0 →
    String current rest = comp →
    string_forallb name_char comp = true →
    str_len buf + str_len comp ≤ VFS_NAME_MAXLEN - 1 →
    walk_loop rec opts hc current rest buf cl =
    walk_component rec opts hc NUL cl (String.append buf comp)
      (λ dnode, ret (walk_done dnode)).
Proof.
  induction comp as [|p comp IH]; intros current rest buf cl Hcl Hpath Hcomp Hlen.
  - discriminate.
  - injection Hpath as -> ->.
    simpl in Hcomp. apply andb_true_iff in Hcomp as [Hp Hcomp].
    assert (Hlen' : str_len (String p comp) = str_len comp + 1).
    { unfold str_len. simpl String.length. lia. }
    pose proof (str_len_nonneg comp).
    destruct comp as [|p' comp'].
    + apply walk_loop_last; try assumption. lia.
    + assert (Hp' : name_char p' = true).
      { simpl in Hcomp. now apply andb_true_iff in Hcomp as [? _]. }
      rewrite walk_loop_gather; try assumption;
        [|now apply name_char_inv in Hp' as (? & _)|lia].
      rewrite (IH p' comp'); try assumption; try reflexivity.
      * now rewrite append_snoc.
      * rewrite str_len_snoc. lia.
Qed.

(** A component that fits, closed by a delimiter. *)
Lemma walk_loop_fits_delim rec opts hc (comp : string) :
  ∀ tail current rest buf cl,
    cl ≠ 0 →
    String current rest = String.append comp (String PATH_DELIM tail) →
    comp ≠ EmptyString →
    string_forallb name_char comp = true →
    str_len buf + str_len comp ≤ VFS_NAME_MAXLEN - 1 →
    walk_loop rec opts hc current rest buf cl =
    walk_loop rec opts hc PATH_DELIM tail (String.append buf comp) cl.
Proof.
  induction comp as [|p comp IH]; intros tail current rest buf cl Hcl Hpath Hne Hcomp Hlen.
  - contradiction.
  - rewrite ?append_cons, ?append_nil_l in Hpath. injection Hpath as -> ->.
    simpl in Hcomp. apply andb_true_iff in Hcomp as [Hp Hcomp].
    assert (Hlen' : str_len (String p comp) = str_len comp + 1).
    { unfold str_len. simpl String.length. lia. }
    pose proof (str_len_nonneg comp).
    destruct comp as [|p' comp'].
    + rewrite ?append_cons, ?append_nil_l. rewrite walk_loop_gather; try assumption; [reflexivity|reflexivity|lia].
    + assert (Hp' : name_char p' = true).
      { simpl in Hcomp. now apply andb_true_iff in Hcomp as [? _]. }
      rewrite ?append_cons, ?append_nil_l.
      rewrite walk_loop_gather; try assumption;
        [|now apply name_char_inv in Hp' as (? & _)|lia].
      rewrite (IH tail p' (String.append comp' (String PATH_DELIM tail)));
        try assumption; try reflexivity; try discriminate.
      * now rewrite append_snoc.
      * rewrite str_len_snoc. lia.
Qed.

(** C2, as amended.  Where a component starts ([j = 0]) under a
    non-null current level:
    - a component of exactly [VFS_NAME_MAXLEN - 1] legal bytes is taken
      whole: at the end of the path, or before a delimiter and the next
      component, the walker goes on to resolve precisely this name;
    - a component that has a further byte behind [VFS_NAME_MAXLEN - 1]
      legal ones ends the walk in [ENAMETOOLONG] with the store and the
      trace as they were, so before any lookup or driver call for it. *)
Theorem walk_component_length (rec : ptr → string → M walk_result)
    (opts : Z) (hc : bool) (cl : ptr) (comp : string) (current : ascii) (rest : string) :
  cl ≠ 0 →
  string_forallb name_char comp = true →
  str_len comp = VFS_NAME_MAXLEN - 1 →
  (String current rest = comp →
     walk_loop rec opts hc current rest EmptyString cl =
     walk_component rec opts hc NUL cl comp (λ dnode, ret (walk_done dnode)))
  ∧ (∀ lookahead tail,
       String current rest = String.append comp (String PATH_DELIM (String lookahead tail)) →
       Ascii.eqb lookahead PATH_DELIM = false →
       walk_loop rec opts hc current rest EmptyString cl =
       walk_component rec opts hc lookahead cl comp
         (λ dnode, walk_loop rec opts hc lookahead tail EmptyString dnode))
  ∧ (∀ c post w,
       String current rest = String.append comp (String c post) →
       Ascii.eqb c NUL = false →
       Ascii.eqb c PATH_DELIM = false →
       walk_loop rec opts hc current rest EmptyString cl w =
       Some (mk_walk_result ENAMETOOLONG None None, w)).
Proof.
  intros Hcl Hcomp Hlen. repeat split.
  - intros Hpath.
    rewrite (walk_loop_fits_end rec opts hc comp current rest EmptyString cl);
      try assumption; [reflexivity|].
    change (str_len EmptyString) with 0. lia.
  - intros lookahead tail Hpath Hla.
    assert (Hc : comp = EmptyString ∨ comp ≠ EmptyString)
      by (destruct comp; [left|right]; congruence).
    destruct Hc as [-> | Hne].
    { rewrite append_nil_l in Hpath. injection Hpath as -> ->.
      now apply walk_loop_delim. }
    rewrite (walk_loop_fits_delim rec opts hc comp (String lookahead tail) current rest EmptyString cl);
      try assumption;
      try (change (str_len EmptyString) with 0; lia).
    rewrite append_nil_l. now apply walk_loop_delim.
  - intros c post w Hpath Hn Hd.
    eapply (walk_loop_overlong rec opts hc comp c post); eassumption.
Qed.

(** ** The path walker: the depth of symlink resolution *)

(** The source's shape of [__vfs_walk] below the limit: the prologue,
    then the loop, whose symlink block calls [__vfs_walk] at
    [depth + 1]. *)
Lemma __vfs_walk_below (start : ptr) (path : string) (hc : bool) (opts depth : Z) :
  0 ≤ depth < VFS_SYMLINK_DEPTH →
  __vfs_walk start path hc opts depth =
  (sp <- walk_start start path opts ;;
   let rec := λ s p, __vfs_walk s p false 0 (depth + 1) in
   match snd sp with
   | EmptyString => walk_loop rec opts hc NUL EmptyString EmptyString (fst sp)
   | String current rest => walk_loop rec opts hc current rest EmptyString (fst sp)
   end).
Proof.
  intros Hd. unfold __vfs_walk.
  replace (Z.to_nat (VFS_SYMLINK_DEPTH - depth))
    with (S (Z.to_nat (VFS_SYMLINK_DEPTH - (depth + 1)))) by lia.
  reflexivity.
Qed.

Lemma __vfs_walk_limit (start : ptr) (path : string) (hc : bool) (opts depth : Z) (w : world) :
  VFS_SYMLINK_DEPTH ≤ depth →
  __vfs_walk start path hc opts depth w = Some (mk_walk_result ENAMETOOLONG None None, w).
Proof.
  intros Hd. unfold __vfs_walk.
  replace (Z.to_nat (VFS_SYMLINK_DEPTH - depth)) with O by lia.
  reflexivity.
Qed.

(** A relative path under a start that is not NULL needs no prologue. *)
Lemma walk_start_relative (start : ptr) (c : ascii) (rest : string) (opts : Z) (w : world) :
  (start =? 0) = false →
  Ascii.eqb c PATH_DELIM = false →
  walk_start start (String c rest) opts w = Some ((start, String c rest), w).
Proof. intros Hs Hc. unfold walk_start. now rewrite Hc, Hs. Qed.

(** A hit in the name cache: the lookup is recorded, the store is not
    touched. *)
Lemma walk_lookup_hit (opts : Z) (cl inode : ptr) (name : hstr) (w : world) (dnode : ptr) :
  vfs_dcache_lookup (w_heap w) cl name = Some dnode →
  (dnode =? 0) = false →
  walk_lookup opts cl inode name w =
  Some (inr dnode, mk_world (w_heap w) (w_trace w ++ [EvDcacheLookup cl name])).
Proof.
  intros Hl Hd. unfold walk_lookup, log. mrun. rewrite Hl. cbn. now rewrite Hd.
Qed.

(** The failure of a nested resolution is the failure of the loop that
    started it. *)
Lemma loop_nests_limit (n : nat) :
  ENAMETOOLONG ≠ 0 →
  (∀ k start path w, (n ≤ k)%nat → walk_nests 0 k start path w →
     ∃ r w', walk_at n start path false 0 w = Some (r, w') ∧ wr_errno r = ENAMETOOLONG) →
  ∀ opts k current rest buf cl w,
    loop_nests opts k current rest buf cl w →
    (S n ≤ k)%nat →
    ∀ hc, ∃ r w',
      walk_loop (λ s p, walk_at n s p false 0) opts hc current rest buf cl w = Some (r, w')
      ∧ wr_errno r = ENAMETOOLONG.
Proof.
  intros Hne IHn opts k current rest buf cl w Hnests.
  induction Hnests as
    [ opts current rest buf cl w
    | opts k current lookahead rest buf buf' cl w Hrun Hscan Hnests IH
    | opts k current lookahead rest buf buf' cl w d i dnode w' Hrun Hscan Hpar Hd Hi Hsym Hlook Hnests IH
    | opts k current rest buf buf' cl w d i read_symlink link h' d' lookahead
        Hrun Hscan Hpar Hd Hi Hsym Hops Hread Hd' Hnested ];
    intros Hk hc.
  - lia.
  - rewrite walk_loop_unfold, Hrun. cbv zeta. rewrite Hscan. now apply IH.
  - rewrite walk_loop_unfold, Hrun. cbv zeta. rewrite Hscan.
    unfold walk_component. rewrite Hpar.
    rewrite (bind_Some _ _ _ _ _ (deref_dnode_Some _ _ _ Hd)).
    unfold walk_symlink.
    rewrite (bind_Some _ _ w (inr (cl, d_inode d)) w).
    2:{ rewrite (bind_Some _ _ _ _ _ (deref_inode_Some _ _ _ Hi)). now rewrite Hsym. }
    rewrite (bind_Some _ _ _ _ _ Hlook). now apply IH.
  - rewrite walk_loop_unfold, Hrun. cbv zeta. fold lookahead. rewrite Hscan.
    unfold walk_component. rewrite Hpar.
    rewrite (bind_Some _ _ _ _ _ (deref_dnode_Some _ _ _ Hd)).
    destruct (IHn k (d_parent d') link
                (mk_world h' (w_trace w ++ [EvReadSymlink (d_inode d)]))
                ltac:(lia) Hnested) as (r & w' & Hrec & Herr).
    exists (walk_error ENAMETOOLONG), w'. split; [|reflexivity].
    rewrite (bind_Some _ _ w (inl (walk_error ENAMETOOLONG)) w'); [reflexivity|].
    unfold walk_symlink.
    rewrite (bind_Some _ _ _ _ _ (deref_inode_Some _ _ _ Hi)). rewrite Hsym.
    rewrite (bind_Some _ _ w (0, link)
               (mk_world h' (w_trace w ++ [EvReadSymlink (d_inode d)]))).
    2:{ unfold call_driver. rewrite Hops. cbn. now rewrite Hread. }
    cbn [fst snd Z.eqb negb].
    rewrite (bind_Some _ _ _ d' _
               (deref_dnode_Some cl d' (mk_world h' (w_trace w ++ [EvReadSymlink (d_inode d)])) Hd')).
    rewrite (bind_Some _ _ _ _ _ Hrec). rewrite Herr.
    destruct (ENAMETOOLONG =? 0) eqn:E; [lia|]. reflexivity.
Qed.

Lemma walk_nests_limit (n : nat) :
  ENAMETOOLONG ≠ 0 →
  ∀ opts hc k start path w,
    (n ≤ k)%nat →
    walk_nests opts k start path w →
    ∃ r w', walk_at n start path hc opts w = Some (r, w') ∧ wr_errno r = ENAMETOOLONG.
Proof.
  intros Hne. induction n as [|n IHn]; intros opts hc k start path w Hk Hnests.
  - eexists _, _. split; reflexivity.
  - destruct Hnests as [opts start path w | opts k start path w start' current rest w' Hstart Hloop];
      [lia|].
    cbn [walk_at]. rewrite (bind_Some _ _ _ _ _ Hstart). cbn [fst snd].
    eapply loop_nests_limit; try eassumption.
    intros k' s p w0 Hk' Hn'. now apply (IHn 0 false k').
Qed.

(** C1.  A walk entered with the depth counter at [VFS_SYMLINK_DEPTH]
    or beyond returns [ENAMETOOLONG] at once.  Hence a walk at depth
    [d] whose resolution nests through at least [VFS_SYMLINK_DEPTH - d]
    symlinks returns [ENAMETOOLONG]; in particular [vfs_walk] does so on
    a path whose resolution nests through 17 symlinks. *)
Theorem vfs_walk_symlink_depth :
  ENAMETOOLONG ≠ 0 →
  (∀ start path hc opts depth w,
     VFS_SYMLINK_DEPTH ≤ depth →
     __vfs_walk start path hc opts depth w =
     Some (mk_walk_result ENAMETOOLONG None None, w))
  ∧ (∀ start path hc opts depth k w,
       VFS_SYMLINK_DEPTH - depth ≤ Z.of_nat k →
       walk_nests opts k start path w →
       ∃ r w', __vfs_walk start path hc opts depth w = Some (r, w')
               ∧ wr_errno r = ENAMETOOLONG)
  ∧ (∀ start path hc opts w,
       walk_nests opts 17 start path w →
       ∃ r w', vfs_walk start path hc opts w = Some (r, w')
               ∧ wr_errno r = ENAMETOOLONG).
Proof.
  intros Hne. repeat split.
  - intros. now apply __vfs_walk_limit.
  - intros start path hc opts depth k w Hk Hnests.
    unfold __vfs_walk. eapply walk_nests_limit; try eassumption. lia.
  - intros start path hc opts w Hnests.
    unfold vfs_walk, __vfs_walk. eapply walk_nests_limit; try eassumption.
    unfold VFS_SYMLINK_DEPTH. lia.
Qed.

(** ** Read-only file systems *)

(** The head shared by [rmdir], [unlink] and [symlink]: the walk, then
    the test of [FSTYPE_ROFS] on the file system of the resolved dnode. *)
Lemma sys_unlink_rofs (w w1 : world) (pathname : string) (r : walk_result)
    (dnode : ptr) (d : v_dnode) (sb : v_superblock) (fs : filesystem) :
  vfs_walk (cwd (w_heap w)) pathname false 0 w = Some (r, w1) →
  wr_errno r = 0 →
  wr_dentry r = Some dnode →
  dnodes (w_heap w1) !! dnode = Some d →
  superblocks (w_heap w1) !! d_super_block d = Some sb →
  filesystems (w_heap w1) !! sb_fs sb = Some fs →
  has_flag (fs_types fs) FSTYPE_ROFS = true →
  sys_unlink pathname w = Some (DO_STATUS EROFS, w1).
Proof.
  intros Hwalk Herr Hdentry Hd Hsb Hfs Hro. unfold sys_unlink.
  rewrite (bind_Some _ _ _ _ _ (get_heap_eq w)).
  rewrite (bind_Some _ _ _ _ _ Hwalk).
  rewrite Herr, Hdentry. cbn [Z.eqb negb of_option].
  rewrite (bind_Some _ _ w1 dnode w1) by reflexivity.
  rewrite (bind_Some _ _ _ _ _ (deref_dnode_Some _ _ _ Hd)).
  rewrite (bind_Some _ _ _ _ _ (deref_sb_Some _ _ _ Hsb)).
  rewrite (bind_Some _ _ _ _ _ (deref_fs_Some _ _ _ Hfs)).
  now rewrite Hro.
Qed.

Lemma sys_symlink_rofs (w w1 : world) (pathname link_target : string) (r : walk_result)
    (dnode : ptr) (d : v_dnode) (sb : v_superblock) (fs : filesystem) :
  vfs_walk (cwd (w_heap w)) pathname false 0 w = Some (r, w1) →
  wr_errno r = 0 →
  wr_dentry r = Some dnode →
  dnodes (w_heap w1) !! dnode = Some d →
  superblocks (w_heap w1) !! d_super_block d = Some sb →
  filesystems (w_heap w1) !! sb_fs sb = Some fs →
  has_flag (fs_types fs) FSTYPE_ROFS = true →
  sys_symlink pathname link_target w = Some (DO_STATUS EROFS, w1).
Proof.
  intros Hwalk Herr Hdentry Hd Hsb Hfs Hro. unfold sys_symlink.
  rewrite (bind_Some _ _ _ _ _ (get_heap_eq w)).
  rewrite (bind_Some _ _ _ _ _ Hwalk).
  rewrite Herr, Hdentry. cbn [Z.eqb negb of_option].
  rewrite (bind_Some _ _ w1 dnode w1) by reflexivity.
  rewrite (bind_Some _ _ _ _ _ (deref_dnode_Some _ _ _ Hd)).
  rewrite (bind_Some _ _ _ _ _ (deref_sb_Some _ _ _ Hsb)).
  rewrite (bind_Some _ _ _ _ _ (deref_fs_Some _ _ _ Hfs)).
  now rewrite Hro.
Qed.

Lemma sys_rmdir_rofs (w w1 : world) (pathname : string) (r : walk_result)
    (dnode : ptr) (d : v_dnode) (sb : v_superblock) (fs : filesystem) :
  vfs_walk (cwd (w_heap w)) pathname false 0 w = Some (r, w1) →
  wr_errno r = 0 →
  wr_dentry r = Some dnode →
  dnodes (w_heap w1) !! dnode = Some d →
  superblocks (w_heap w1) !! d_super_block d = Some sb →
  filesystems (w_heap w1) !! sb_fs sb = Some fs →
  has_flag (fs_types fs) FSTYPE_ROFS = true →
  sys_rmdir pathname w = Some (DO_STATUS EROFS, w1).
Proof.
  intros Hwalk Herr Hdentry Hd Hsb Hfs Hro. unfold sys_rmdir.
  rewrite (bind_Some _ _ _ _ _ (get_heap_eq w)).
  rewrite (bind_Some _ _ _ _ _ Hwalk).
  rewrite Herr, Hdentry. cbn [Z.eqb negb of_option].
  rewrite (bind_Some _ _ w1 dnode w1) by reflexivity.
  rewrite (bind_Some _ _ _ _ _ (deref_dnode_Some _ _ _ Hd)).
  rewrite (bind_Some _ _ _ _ _ (deref_sb_Some _ _ _ Hsb)).
  rewrite (bind_Some _ _ _ _ _ (deref_fs_Some _ _ _ Hfs)).
  now rewrite Hro.
Qed.

(** A dnode that the cache does not hold cannot be freed: [vfs_d_free]
    stops at its assertion. *)
Lemma vfs_d_free_uncached (dnode : ptr) (d : v_dnode) (w : world) :
  dnodes (w_heap w) !! dnode = Some d →
  d_ref_count d ≠ 1 →
  vfs_d_free dnode w = None.
Proof.
  intros Hd Href. unfold vfs_d_free.
  rewrite (bind_Some _ _ _ _ _ (deref_dnode_Some _ _ _ Hd)).
  destruct (d_ref_count d =? 1) eqn:E; [lia|]. reflexivity.
Qed.

End Properties.

(** * The model on the sample configuration *)

Section Evaluation.
#[local] Existing Instance Sample.config.
#[local] Existing Instance Sample.driver.

(** ** Read-only file systems: the operations that do not ask *)

(** C5.  Destructive operations on a read-only file system, evaluated
    on the sample tree mounted read-only with the sample driver.
    [rename] of [g] onto [d/f] calls the driver's [rename] and ends in
    status 0; locating [h] with [FLOCATE_CREATE_EMPTY] calls the
    driver's [create] and ends in status 0; [mkdir] of [n] stops in the
    assertion of [vfs_d_free], its new dnode never having entered the
    cache.  [unlink] of [g], for comparison, ends in [EROFS] after the
    lookup alone. *)
Theorem readonly_fs_operations :
  let w := Sample.tree FSTYPE_ROFS in
  Sample.result_of (sys_rename "" "g" "d/f") w = Some (DO_STATUS 0)
  ∧ Sample.trace_of (sys_rename "" "g" "d/f") w =
    Some [EvDcacheLookup Sample.root (component_name "g");
          EvDcacheLookup Sample.root (component_name "d");
          EvDcacheLookup Sample.dnode_d (component_name "f");
          EvRename 54 Sample.dnode_g Sample.dnode_f]
  ∧ Sample.result_of (__vfs_try_locate_file "" "h" FLOCATE_CREATE_EMPTY) w =
    Some (0, Some Sample.root, Some 1049600)
  ∧ Sample.trace_of (__vfs_try_locate_file "" "h" FLOCATE_CREATE_EMPTY) w =
    Some [EvDcacheLookup Sample.root (component_name "h");
          EvDirLookup 31 1049600;
          EvCreate 31 1049600]
  ∧ sys_mkdir 1 "" "n" w = None
  ∧ sys_unlink "g" w =
    Some (DO_STATUS EROFS,
          mk_world (w_heap w) [EvDcacheLookup Sample.root (component_name "g")]).
Proof.
  cbv zeta. repeat apply conj; vm_compute; reflexivity.
Qed.

(** ** Instances on the sample stores *)

Ltac ev := vm_compute; reflexivity.

(** One level of the chain of symlinks: the walk of a two-byte name
    followed by [/x] looks the name up under the root and finds a
    symlink there. *)
Lemma sample_symlink_level (h : heap) (trace : list event) (k : nat) (c1 c2 : ascii)
    (p : ptr) (dr d : v_dnode) (ir i : v_inode) :
  name_char c1 = true →
  name_char c2 = true →
  dnodes h !! Sample.root = Some dr →
  inodes h !! d_inode dr = Some ir →
  has_flag (i_itype ir) VFS_IFSYMLINK = false →
  vfs_dcache_lookup h Sample.root (component_name (String c1 (String c2 EmptyString))) = Some p →
  (p =? 0) = false →
  dnodes h !! p = Some d →
  inodes h !! d_inode d = Some i →
  has_flag (i_itype i) VFS_IFSYMLINK = true →
  (∀ trace', walk_nests 0 k (d_parent d) (Sample.link_of (d_inode d - 32)) (mk_world h trace')) →
  walk_nests 0 (S k) Sample.root (String c1 (String c2 "/x")) (mk_world h trace).
Proof.
  intros Hc1 Hc2 Hdr Hir Hnsym Hlook Hp Hd Hi Hsym Hrest.
  apply name_char_inv in Hc1 as (Hn1 & Hd1 & Hv1).
  apply name_char_inv in Hc2 as (Hn2 & Hd2 & Hv2).
  eapply walk_nests_start.
  { apply walk_start_relative; [reflexivity|assumption]. }
  eapply nests_cont.
  { now rewrite Hn1. }
  { unfold walk_scan. rewrite Hd1, Hv1, Hn2. reflexivity. }
  eapply nests_cont.
  { now rewrite Hn2. }
  { unfold walk_scan. rewrite Hd2, Hv2. reflexivity. }
  eapply nests_next.
  { reflexivity. }
  { reflexivity. }
  { reflexivity. }
  { exact Hdr. }
  { exact Hir. }
  { exact Hnsym. }
  { apply walk_lookup_hit; [exact Hlook|exact Hp]. }
  eapply nests_symlink.
  { cbn. now rewrite Hp. }
  { reflexivity. }
  { reflexivity. }
  { exact Hd. }
  { exact Hi. }
  { exact Hsym. }
  { reflexivity. }
  { reflexivity. }
  { exact Hd. }
  apply Hrest.
Qed.

Ltac level :=
  eapply sample_symlink_level; [ev | ev | ev | ev | ev | ev | ev | ev | ev | ev | intros ?].

(** The resolution of [sa/x] nests through the 17 symlinks of the
    sample chain. *)
Lemma sample_chain_nests : walk_nests 0 17 Sample.root "sa/x" (Sample.symlinks 17).
Proof. do 17 level. apply walk_nests_zero. Qed.

(** C1 on the chain of 17 symlinks. *)
Lemma vfs_walk_symlink_depth_witness :
  ENAMETOOLONG ≠ 0
  ∧ ∃ r w', vfs_walk Sample.root "sa/x" false 0 (Sample.symlinks 17) = Some (r, w')
            ∧ wr_errno r = ENAMETOOLONG.
Proof.
  assert (Hne : ENAMETOOLONG ≠ 0) by (vm_compute; discriminate).
  split; [exact Hne|].
  apply (proj2 (proj2 (vfs_walk_symlink_depth Hne))).
  exact sample_chain_nests.
Defined.

(** The two lengths at the boundary, through [vfs_walk] on the sample
    tree: the name of 127 bytes is looked up and asked of the driver,
    the name of 128 bytes ends the walk with nothing recorded. *)
Lemma sample_walk_long_names :
  Sample.result_of (vfs_walk Sample.root Sample.long_name false 0) (Sample.tree 0)
  = Some (walk_error ENOENT)
  ∧ Sample.trace_of (vfs_walk Sample.root Sample.long_name false 0) (Sample.tree 0)
    = Some [EvDcacheLookup Sample.root (component_name Sample.long_name);
            EvDirLookup 31 1049600]
  ∧ vfs_walk Sample.root (String "a" Sample.long_name) false 0 (Sample.tree 0)
    = Some (mk_walk_result ENAMETOOLONG None None, Sample.tree 0).
Proof. repeat apply conj; ev. Qed.

(** C2 on a name of 127 bytes and on one of 128. *)
Lemma walk_component_length_witness :
  Sample.root ≠ 0
  ∧ string_forallb name_char Sample.long_name = true
  ∧ str_len Sample.long_name = VFS_NAME_MAXLEN - 1
  ∧ walk_loop (λ _ _, fault) 0 false "a" Sample.long_name_tail EmptyString Sample.root
    = walk_component (λ _ _, fault) 0 false NUL Sample.root Sample.long_name
        (λ dnode, ret (walk_done dnode))
  ∧ walk_loop (λ _ _, fault) 0 false "a" Sample.long_name EmptyString Sample.root (Sample.tree 0)
    = Some (mk_walk_result ENAMETOOLONG None None, Sample.tree 0).
Proof.
  assert (H1 : Sample.root ≠ 0) by (vm_compute; discriminate).
  assert (H2 : string_forallb name_char Sample.long_name = true) by ev.
  assert (H3 : str_len Sample.long_name = VFS_NAME_MAXLEN - 1) by ev.
  split; [exact H1|]. split; [exact H2|]. split; [exact H3|]. split.
  - apply (proj1 (walk_component_length (λ _ _, fault) 0 false Sample.root
                    Sample.long_name "a" Sample.long_name_tail H1 H2 H3)).
    reflexivity.
  - apply (proj2 (proj2 (walk_component_length (λ _ _, fault) 0 false Sample.root
                           Sample.long_name "a" Sample.long_name H1 H2 H3))
             "a"%char EmptyString (Sample.tree 0)); ev.
Defined.

(** C2 as stated fails on names with a byte that [VFS_VALID_CHAR]
    rejects: a name of 127 bytes that starts with [*] is not accepted,
    and a name of 128 bytes that starts with [*] ends the walk in
    [EINVAL], not in [ENAMETOOLONG]. *)
Lemma walk_component_length_counterexample :
  str_len (String "*" Sample.long_name_tail) = VFS_NAME_MAXLEN - 1
  ∧ vfs_walk Sample.root (String "*" Sample.long_name_tail) false 0 (Sample.tree 0)
    = Some (mk_walk_result EINVAL None None, Sample.tree 0)
  ∧ str_len (String "*" Sample.long_name) = VFS_NAME_MAXLEN
  ∧ vfs_walk Sample.root (String "*" Sample.long_name) false 0 (Sample.tree 0)
    = Some (mk_walk_result EINVAL None None, Sample.tree 0)
  ∧ EINVAL ≠ ENAMETOOLONG
  ∧ EINVAL ≠ 0.
Proof.
  repeat apply conj; try (vm_compute; reflexivity); vm_compute; discriminate.
Qed.

(** C3 on the colliding names [az] and [bY]: the tree holds [az] only,
    and the lookup of [bY] returns its dnode. *)
Lemma vfs_dcache_lookup_by_hash_witness :
  hstr_special (component_name "az") = false
  ∧ hstr_special (component_name "bY") = false
  ∧ hash (component_name "bY") = hash (component_name "az")
  ∧ vfs_dcache_lookup Sample.tree_az_heap Sample.root (component_name "bY")
    = Some Sample.dnode_az.
Proof.
  assert (H1 : hstr_special (component_name "az") = false) by ev.
  assert (H2 : hstr_special (component_name "bY") = false) by ev.
  assert (H3 : hash (component_name "bY") = hash (component_name "az")) by ev.
  split; [exact H1|]. split; [exact H2|]. split; [exact H3|].
  etransitivity.
  - exact (proj1 (vfs_dcache_lookup_by_hash Sample.tree_az_heap Sample.root
                    (component_name "az") (component_name "bY") H1 H2 H3)).
  - ev.
Defined.

(** C4 under the directory [d] of the sample tree, with an empty table. *)
Lemma vfs_dcache_lookup_dots_witness :
  let h := set_dnode_cache (λ _, ∅) (Sample.tree_heap 0) in
  vfs_dcache_lookup h Sample.dnode_d vfs_dot = Some Sample.dnode_d
  ∧ vfs_dcache_lookup h Sample.dnode_d vfs_ddot = Some Sample.root
  ∧ vfs_dcache_lookup h Sample.dnode_d vfs_empty = Some Sample.dnode_d.
Proof.
  cbv zeta.
  lazymatch eval vm_compute in (dnodes (Sample.tree_heap 0) !! Sample.dnode_d) with
  | Some ?d =>
      pose proof (vfs_dcache_lookup_dots (cfg := Sample.config)
                    (Sample.tree_heap 0) Sample.dnode_d d ∅ vfs_empty
                    ltac:(ev) ltac:(ev) ltac:(ev) ltac:(ev) ltac:(ev)) as H
  end.
  cbv zeta in H. destruct H as (Hdot & Hddot & Hempty).
  split; [exact Hdot|]. split; [|exact Hempty].
  etransitivity; [exact Hddot|ev].
Defined.

(** C6 on the directory [d] of the writable sample tree, which holds
    [f]. *)
Lemma sys_rmdir_refuses_witness :
  sys_rmdir "d" (Sample.tree 0)
  = Some (DO_STATUS ENOTEMPTY,
          mk_world (Sample.tree_heap 0) [EvDcacheLookup Sample.root (component_name "d")]).
Proof.
  pose proof (sys_rmdir_refuses (Sample.tree 0)
                (mk_world (Sample.tree_heap 0) [EvDcacheLookup Sample.root (component_name "d")])
                "d" (mk_walk_result 0 (Some Sample.dnode_d) None) Sample.dnode_d) as H.
  edestruct H as (Hnotempty & _ & _); [ev | ev | ev | ev | ev | ev | ev |].
  eapply Hnotempty; [ev | ev | ev | vm_compute; discriminate].
Defined.

(** C7 on the open file of the sample store: a seek by 5 from position
    10. *)
Lemma sys_lseek_target_witness :
  ∃ w', sys_lseek 3 5 FSEEK_CUR Sample.opened = Some (DO_STATUS 0, w')
        ∧ f_pos <$> files (w_heap w') !! 600 = Some 15
        ∧ w_trace w' = [EvSeek 54 15].
Proof.
  destruct (sys_lseek_target Sample.opened 3 5 FSEEK_CUR
              (mk_fd 600 0) (mk_file Sample.dnode_g 54 10 1 6) (Sample.file_inode 4)
              (λ _ pos h, (if pos <=? 4096 then 0 else EINVAL, h)))
    as (target & Hcur & _ & _ & Hrun);
    [vm_compute; discriminate | vm_compute; discriminate | vm_compute; discriminate
    | ev | ev | ev | ev | left; reflexivity |].
  specialize (Hcur eq_refl). subst target.
  eexists. split.
  - apply (Hrun 0 (w_heap Sample.opened)); [ev|].
    intros _. eexists. ev.
  - split; ev.
Defined.

(** C8 on the open directory of the sample store, at the offsets 0
    and 2. *)
Lemma sys_readdir_offsets_witness :
  sys_readdir 4 (mk_dirent 0 0 0 EmptyString) Sample.opened_dir
  = Some ((DO_STATUS_OR_RETURN 1,
           mk_dirent 0 1 1 (string_of_list_ascii ("."%char :: repeat NUL 7))),
          Sample.opened_dir)
  ∧ ∃ dent',
      sys_readdir 4 (mk_dirent 0 2 0 EmptyString) Sample.opened_dir
      = Some ((DO_STATUS_OR_RETURN 1, dent'),
              mk_world (w_heap Sample.opened_dir)
                (w_trace Sample.opened_dir ++ [EvReaddir 601 0]))
      ∧ d_offset dent' = 3
      ∧ d_dname dent' = string_of_list_ascii ("f"%char :: repeat NUL 7).
Proof.
  split.
  - destruct (sys_readdir_offsets Sample.opened_dir 4 (mk_dirent 0 0 0 EmptyString)
                (mk_fd 601 0) (mk_file Sample.dnode_d 52 0 1 6) (mk_inode 2 VFS_IFDIR 0 1 0 7))
      as (Hdot & _); [ev | ev | ev | ev |].
    etransitivity; [apply Hdot; reflexivity | ev].
  - destruct (sys_readdir_offsets Sample.opened_dir 4 (mk_dirent 0 2 0 EmptyString)
                (mk_fd 601 0) (mk_file Sample.dnode_d 52 0 1 6) (mk_inode 2 VFS_IFDIR 0 1 0 7))
      as (_ & _ & index & Hindex & _ & _ & Hk); [ev | ev | ev | ev |].
    vm_compute in Hindex. subst index.
    destruct (Hk (λ _ index h,
                    if index <? 2 then ((1, [mk_dir_entry "f" 1 0]), h) else ((0, []), h))
                 1 [mk_dir_entry "f" 1 0] (w_heap Sample.opened_dir))
      as (Hrun & _ & _).
    + vm_compute. discriminate.
    + ev.
    + ev.
    + eexists. split; [exact Hrun|]. split; ev.
Defined.

(** C8 as stated fails where the 32-bit fields turn over.  At the
    stored offset [2^32 - 1] the driver of the sample store is called
    with index [-3], not with [2^32 - 3]; it reports an entry, and the
    stored offset becomes 0, not [2^32]. *)
Lemma sys_readdir_offsets_counterexample :
  let dent := mk_dirent 0 4294967295 0 EmptyString in
  Sample.trace_of (sys_readdir 4 dent) Sample.opened_dir = Some [EvReaddir 601 (-3)]
  ∧ -3 ≠ d_offset dent - 2
  ∧ (λ r, (fst r, d_offset (snd r))) <$> Sample.result_of (sys_readdir 4 dent) Sample.opened_dir
    = Some (DO_STATUS_OR_RETURN 1, 0)
  ∧ 0 ≠ d_offset dent + 1.
Proof.
  cbv zeta. repeat apply conj; try (vm_compute; reflexivity); vm_compute; discriminate.
Qed.

(** C10 on the open file of the sample store. *)
Lemma sys_readdir_not_dir_witness :
  sys_readdir 3 (mk_dirent 0 5 0 EmptyString) Sample.opened
  = Some ((DO_STATUS_OR_RETURN ENOTDIR, mk_dirent 0 5 0 EmptyString), Sample.opened).
Proof.
  apply (sys_readdir_not_dir Sample.opened 3 (mk_dirent 0 5 0 EmptyString)
           (mk_fd 600 0) (mk_file Sample.dnode_g 54 10 1 6) (Sample.file_inode 4)); ev.
Defined.

End Evaluation.

(** * Further properties of vfs.c *)

Section MoreProperties.
Context {cfg : vfs_config} {env : vfs_env}.
Context {cfgm : vfs_config_more} {envm : vfs_env_more}.

(** ** Running the store updates *)

Ltac mrun :=
  unfold bind, ret, fault, get_heap, of_option, deref_dnode, deref_inode,
    deref_file, deref_sb, deref_fs in *; cbn; unfold ptr in *.

Lemma update_dnode_run p f w :
  is_Some (dnodes (w_heap w) !! p) →
  update_dnode p f w = Some (tt, mk_world (set_dnodes (alter f p) (w_heap w)) (w_trace w)).
Proof.
  intros [d Hd]. unfold update_dnode, modify_heap. mrun. now rewrite Hd.
Qed.

Lemma update_inode_run p f w :
  is_Some (inodes (w_heap w) !! p) →
  update_inode p f w = Some (tt, mk_world (set_inodes (alter f p) (w_heap w)) (w_trace w)).
Proof.
  intros [d Hd]. unfold update_inode, modify_heap. mrun. now rewrite Hd.
Qed.

Lemma update_file_run p f w :
  is_Some (files (w_heap w) !! p) →
  update_file p f w = Some (tt, mk_world (set_files (alter f p) (w_heap w)) (w_trace w)).
Proof.
  intros [d Hd]. unfold update_file, modify_heap. mrun. now rewrite Hd.
Qed.

Lemma is_Some_alter {A} (f : A → A) (m : gmap Z A) i j :
  is_Some (alter f i m !! j) ↔ is_Some (m !! j).
Proof.
  rewrite lookup_alter. case_decide; [subst|reflexivity].
  rewrite fmap_is_Some. reflexivity.
Qed.

(** ** The name cache: insertion, removal, rehashing *)

(** The store that [vfs_dcache_add] leaves. *)
Lemma vfs_dcache_add_spec (parent dnode : ptr) (w : world) (d pd : v_dnode) :
  parent ≠ 0 →
  dnodes (w_heap w) !! dnode = Some d →
  dnodes (w_heap w) !! parent = Some pd →
  let slot := fst (__dcache_hash parent (hash (d_name d))) in
  let mixed := snd (__dcache_hash parent (hash (d_name d))) in
  ∃ h',
    vfs_dcache_add parent dnode w = Some (tt, mk_world h' (w_trace w))
    ∧ (∃ d', dnodes h' !! dnode = Some d'
             ∧ hash (d_name d') = mixed
             ∧ len (d_name d') = len (d_name d)
             ∧ value (d_name d') = value (d_name d)
             ∧ d_parent d' = parent
             ∧ d_ref_count d' = d_ref_count d + 1
             ∧ d_inode d' = d_inode d)
    ∧ (∃ pd', dnodes h' !! parent = Some pd'
              ∧ d_children pd' = (d_children pd ++ [dnode])%list)
    ∧ (∀ p x, p ≠ dnode → dnodes (w_heap w) !! p = Some x →
              ∃ x', dnodes h' !! p = Some x' ∧ d_name x' = d_name x
                    ∧ d_parent x' = d_parent x ∧ d_ref_count x' = d_ref_count x
                    ∧ d_inode x' = d_inode x)
    ∧ (∀ p : ptr, dnodes (w_heap w) !! p = None → dnodes h' !! p = None)
    ∧ bucket h' slot = dnode :: bucket (w_heap w) slot
    ∧ (∀ s, s ≠ slot → bucket h' s = bucket (w_heap w) s)
    ∧ inodes h' = inodes (w_heap w)
    ∧ files h' = files (w_heap w)
    ∧ fds h' = fds (w_heap w)
    ∧ cwd h' = cwd (w_heap w).
Proof.
  intros Hp Hd Hpd slot mixed.
  set (f1 := λ d : v_dnode, dnode_with_ref_count (d_ref_count d + 1) d).
  set (f3 := λ p : v_dnode, dnode_with_children ((d_children p ++ [dnode])%list) p).
  set (m3 := alter f3 parent (alter (dnode_with_parent parent) dnode
                                (alter f1 dnode (dnodes (w_heap w))))).
  assert (Hname : ∀ p x, dnodes (w_heap w) !! p = Some x →
            ∃ x', m3 !! p = Some x' ∧ d_name x' = d_name x ∧ d_inode x' = d_inode x
                  ∧ (p ≠ dnode → d_parent x' = d_parent x ∧ d_ref_count x' = d_ref_count x)
                  ∧ (p = dnode → d_parent x' = parent ∧ d_ref_count x' = d_ref_count x + 1)
                  ∧ (p = parent → d_children x' = (d_children x ++ [dnode])%list)).
  { intros p x Hx. subst m3. rewrite !lookup_alter.
    repeat case_decide; subst; rewrite ?lookup_alter_eq, ?Hx in *; simplify_eq; cbn;
      rewrite ?Hx; cbn; eexists; (split; [reflexivity|]);
      cbn; repeat split; intros; try congruence; try reflexivity. }
  destruct (Hname dnode d Hd) as (d3 & Hd3 & Hn3 & Hi3 & _ & Hpr3 & _).
  set (h' := set_dnode_cache
               <[slot := dnode :: bucket (w_heap w) slot]>
               (set_dnodes (λ _, alter (dnode_with_hash mixed) dnode m3) (w_heap w))).
  exists h'. split.
  { set (w1 := mk_world (set_dnodes (alter f1 dnode) (w_heap w)) (w_trace w)).
    assert (E1 : update_dnode dnode f1 w = Some (tt, w1))
      by (apply update_dnode_run; eauto).
    set (w2 := mk_world (set_dnodes (alter (dnode_with_parent parent) dnode) (w_heap w1))
                 (w_trace w1)).
    assert (E2 : update_dnode dnode (dnode_with_parent parent) w1 = Some (tt, w2)).
    { apply update_dnode_run. cbn [w1 w_heap set_dnodes dnodes].
      rewrite is_Some_alter. eauto. }
    set (w3 := mk_world (set_dnodes (alter f3 parent) (w_heap w2)) (w_trace w2)).
    assert (E3 : update_dnode parent f3 w2 = Some (tt, w3)).
    { apply update_dnode_run. cbn [w2 w1 w_heap set_dnodes dnodes].
      rewrite !is_Some_alter. eauto. }
    assert (Hd3' : dnodes (w_heap w3) !! dnode = Some d3) by exact Hd3.
    set (w4 := mk_world (set_dnodes (alter (dnode_with_hash mixed) dnode) (w_heap w3))
                 (w_trace w3)).
    assert (E4 : update_dnode dnode (dnode_with_hash mixed) w3 = Some (tt, w4))
      by (apply update_dnode_run; eauto).
    unfold vfs_dcache_add, assert. replace (parent =? 0) with false by lia. cbn [negb].
    rewrite (bind_Some _ _ w tt w) by reflexivity.
    rewrite (bind_Some _ _ _ _ _ E1).
    rewrite (bind_Some _ _ _ _ _ E2).
    rewrite (bind_Some _ _ _ _ _ E3).
    rewrite (bind_Some _ _ _ d3 _ (deref_dnode_Some _ _ _ Hd3')).
    rewrite Hn3. fold slot mixed.
    rewrite (bind_Some _ _ _ _ _ E4).
    reflexivity. }
  split.
  { exists (dnode_with_hash mixed d3). split.
    - cbn. rewrite lookup_alter_eq, Hd3. reflexivity.
    - destruct (Hpr3 eq_refl) as [Hpar Href]. unfold dnode_with_hash, dnode_with_name. cbn.
      rewrite ?Hn3, ?Hi3, ?Hpar, ?Href. repeat split; reflexivity. }
  split.
  { destruct (Hname parent pd Hpd) as (pd3 & Hpd3 & _ & _ & _ & _ & Hc).
    cbn. rewrite lookup_alter. case_decide.
    - subst. rewrite Hpd3. cbn. eexists. split; [reflexivity|]. cbn. now apply Hc.
    - eexists. split; [exact Hpd3|]. now apply Hc. }
  split.
  { intros p x Hne Hx. destruct (Hname p x Hx) as (x' & Hx' & Hn & Hi & Ho & _).
    exists x'. cbn. rewrite lookup_alter_ne by congruence.
    destruct (Ho Hne) as [? ?]. repeat split; assumption. }
  split.
  { intros p Hnone.
    assert (p ≠ dnode) by congruence.
    assert (p ≠ parent) by congruence.
    cbn. subst m3. now rewrite !lookup_alter_ne by congruence. }
  split.
  { unfold bucket. cbn. now rewrite lookup_insert_eq. }
  split.
  { intros s Hs. unfold bucket. cbn.
    now rewrite lookup_insert_ne by (intros E; apply Hs; symmetry; exact E). }
  repeat split; reflexivity.
Qed.


(** The store that [vfs_dcache_remove] leaves. *)
Lemma vfs_dcache_remove_spec (dnode : ptr) (w : world) (d : v_dnode) :
  dnode ≠ 0 →
  dnodes (w_heap w) !! dnode = Some d →
  d_ref_count d = 1 →
  ∃ h',
    vfs_dcache_remove dnode w = Some (tt, mk_world h' (w_trace w))
    ∧ (∃ d', dnodes h' !! dnode = Some d'
             ∧ d_name d' = d_name d
             ∧ d_inode d' = d_inode d
             ∧ d_parent d' = NULL
             ∧ d_ref_count d' = 0)
    ∧ (∀ (p : ptr) x, dnodes (w_heap w) !! p = Some x →
         ∃ x', dnodes h' !! p = Some x' ∧ d_name x' = d_name x
               ∧ d_inode x' = d_inode x
               ∧ d_children x' = filter (λ c, c ≠ dnode) (d_children x)
               ∧ (p ≠ dnode → d_parent x' = d_parent x ∧ d_ref_count x' = d_ref_count x))
    ∧ (∀ p : ptr, dnodes (w_heap w) !! p = None → dnodes h' !! p = None)
    ∧ (∀ s : Z, bucket h' s = filter (λ c, c ≠ dnode) (bucket (w_heap w) s))
    ∧ inodes h' = inodes (w_heap w)
    ∧ files h' = files (w_heap w)
    ∧ fds h' = fds (w_heap w)
    ∧ cwd h' = cwd (w_heap w).
Proof.
  intros Hp Hd Href. unfold ptr in *.
  set (g := λ x : v_dnode,
         dnode_with_children (filter (λ c, c ≠ dnode) (d_children x)) x).
  set (f2 := λ x : v_dnode, dnode_with_ref_count (d_ref_count x - 1) x).
  set (m2 := alter f2 dnode (alter (dnode_with_parent NULL) dnode (g <$> dnodes (w_heap w)))).
  set (h' := set_dnodes (λ _, m2) (hlist_delete_hash_list dnode (w_heap w))).
  assert (Hall : ∀ (p : ptr) x, dnodes (w_heap w) !! p = Some x →
            ∃ x', m2 !! p = Some x' ∧ d_name x' = d_name x ∧ d_inode x' = d_inode x
                  ∧ d_children x' = filter (λ c, c ≠ dnode) (d_children x)
                  ∧ (p ≠ dnode → d_parent x' = d_parent x ∧ d_ref_count x' = d_ref_count x)
                  ∧ (p = dnode → d_parent x' = NULL ∧ d_ref_count x' = d_ref_count x - 1)).
  { intros p x Hx. subst m2. destruct (decide (p = dnode)) as [E|E].
    - rewrite E in *. rewrite !lookup_alter_eq, lookup_fmap, Hx. cbn.
      eexists. split; [reflexivity|]. cbn.
      repeat split; intros; try congruence; reflexivity.
    - rewrite !lookup_alter_ne, lookup_fmap, Hx by congruence. cbn.
      eexists. split; [reflexivity|]. cbn.
      repeat split; intros; try congruence; reflexivity. }
  exists h'. split.
  { set (w1 := mk_world (llist_delete_siblings dnode (w_heap w)) (w_trace w)).
    set (w2 := mk_world (hlist_delete_hash_list dnode (w_heap w1)) (w_trace w1)).
    set (w3 := mk_world (set_dnodes (alter (dnode_with_parent NULL) dnode) (w_heap w2))
                 (w_trace w2)).
    assert (E3 : update_dnode dnode (dnode_with_parent NULL) w2 = Some (tt, w3)).
    { apply update_dnode_run.
      change (is_Some ((g <$> dnodes (w_heap w)) !! dnode)).
      rewrite lookup_fmap, Hd. cbn. eauto. }
    set (w4 := mk_world (set_dnodes (alter f2 dnode) (w_heap w3)) (w_trace w3)).
    assert (E4 : update_dnode dnode f2 w3 = Some (tt, w4)).
    { apply update_dnode_run.
      change (is_Some (alter (dnode_with_parent NULL) dnode (g <$> dnodes (w_heap w))
                         !! dnode)).
      rewrite is_Some_alter, lookup_fmap, Hd. cbn. eauto. }
    unfold vfs_dcache_remove, assert. replace (dnode =? 0) with false by lia. cbn [negb].
    rewrite (bind_Some _ _ w tt w) by reflexivity.
    rewrite (bind_Some _ _ _ _ _ (deref_dnode_Some _ _ _ Hd)).
    rewrite Href. cbn [Z.eqb Pos.eqb].
    rewrite (bind_Some _ _ w tt w) by reflexivity.
    rewrite (bind_Some _ _ w tt w1) by reflexivity.
    rewrite (bind_Some _ _ w1 tt w2) by reflexivity.
    rewrite (bind_Some _ _ _ _ _ E3).
    exact E4. }
  split.
  { destruct (Hall dnode d Hd) as (d' & Hd' & Hn & Hi & _ & _ & Hself).
    destruct (Hself eq_refl) as [Hpar Hrc].
    exists d'. repeat split; try assumption. rewrite Hrc, Href. reflexivity. }
  split.
  { intros p x Hx. destruct (Hall p x Hx) as (x' & Hx' & Hn & Hi & Hc & Ho & _).
    exists x'. repeat split; try assumption; now apply Ho. }
  split.
  { intros p Hnone.
    assert (p ≠ dnode) by congruence.
    cbn. subst m2. rewrite !lookup_alter_ne by congruence.
    now rewrite lookup_fmap, Hnone. }
  split.
  { intros s. unfold bucket. cbn. rewrite lookup_fmap.
    now destruct (dnode_cache (w_heap w) !! s). }
  repeat split; reflexivity.
Qed.

(** The chain walk of [vfs_dcache_lookup] reads the stored hashes of
    the chain only. *)
Lemma bucket_find_ext (h h' : heap) (hv : Z) (chain : list ptr) :
  (∀ q, q ∈ chain →
        (λ x, hash (d_name x)) <$> dnodes h' !! q = (λ x, hash (d_name x)) <$> dnodes h !! q) →
  bucket_find h' hv chain = bucket_find h hv chain.
Proof.
  induction chain as [|pos n IH]; intros Hsame; [reflexivity|].
  simpl. pose proof (Hsame pos ltac:(left)) as Hpos.
  destruct (dnodes h' !! pos) as [x'|], (dnodes h !! pos) as [x|]; simpl in *;
    try discriminate; [|reflexivity].
  injection Hpos as ->.
  destruct (hash (d_name x) =? hv); [reflexivity|].
  apply IH. intros q Hq. apply Hsame. now right.
Qed.

(** X1.  What [vfs_dcache_add] enters is what [vfs_dcache_lookup] finds:
    after the insertion of a dnode under a parent, the lookup under that
    parent of any name with the hash that the dnode carried answers with
    this dnode.  The hash stored in the dnode is no longer the hash of
    its name but the one mixed with the parent. *)
Theorem vfs_dcache_add_lookup (parent dnode : ptr) (w : world) (d pd : v_dnode) (str : hstr) :
  parent ≠ 0 →
  dnodes (w_heap w) !! dnode = Some d →
  dnodes (w_heap w) !! parent = Some pd →
  hstr_special str = false →
  hash str = hash (d_name d) →
  ∃ w' d',
    vfs_dcache_add parent dnode w = Some (tt, w')
    ∧ w_trace w' = w_trace w
    ∧ vfs_dcache_lookup (w_heap w') parent str = Some dnode
    ∧ dnodes (w_heap w') !! dnode = Some d'
    ∧ hash (d_name d') = snd (__dcache_hash parent (hash str))
    ∧ d_parent d' = parent
    ∧ d_ref_count d' = d_ref_count d + 1.
Proof.
  intros Hp Hd Hpd Hs Hh.
  destruct (vfs_dcache_add_spec parent dnode w d pd Hp Hd Hpd)
    as (h' & Hrun & (d' & Hd' & Hmix & _ & _ & Hpar & Hrc & _) & _ & _ & _ & Hb & _).
  exists (mk_world h' (w_trace w)), d'.
  split; [exact Hrun|]. split; [reflexivity|].
  rewrite Hh. repeat split; try assumption.
  rewrite vfs_dcache_lookup_plain by assumption.
  cbn [w_heap]. rewrite Hh, Hb. simpl. rewrite Hd'. simpl.
  rewrite Hmix, Z.eqb_refl. reflexivity.
Qed.

(** X2.  An insertion does not disturb the other entries: the lookup of
    a name whose mixed hash differs from the one just entered gives what
    it gave before, provided the new dnode was not already chained in
    the bucket of that name. *)
Theorem vfs_dcache_add_other (parent dnode : ptr) (w : world) (d pd : v_dnode)
    (parent' : ptr) (str : hstr) :
  parent ≠ 0 →
  dnodes (w_heap w) !! dnode = Some d →
  dnodes (w_heap w) !! parent = Some pd →
  hstr_special str = false →
  snd (__dcache_hash parent' (hash str)) ≠ snd (__dcache_hash parent (hash (d_name d))) →
  dnode ∉ bucket (w_heap w) (fst (__dcache_hash parent' (hash str))) →
  ∃ w',
    vfs_dcache_add parent dnode w = Some (tt, w')
    ∧ vfs_dcache_lookup (w_heap w') parent' str = vfs_dcache_lookup (w_heap w) parent' str.
Proof.
  intros Hp Hd Hpd Hs Hne Hnotin.
  destruct (vfs_dcache_add_spec parent dnode w d pd Hp Hd Hpd)
    as (h' & Hrun & (d' & Hd' & Hmix & _) & _ & Hothers & Hnone & Hb & Hbo & _).
  exists (mk_world h' (w_trace w)). split; [exact Hrun|].
  rewrite !vfs_dcache_lookup_plain by assumption. cbn [w_heap].
  set (slot' := fst (__dcache_hash parent' (hash str))) in *.
  set (mixed' := snd (__dcache_hash parent' (hash str))) in *.
  assert (Hchain : bucket_find h' mixed' (bucket (w_heap w) slot')
                   = bucket_find (w_heap w) mixed' (bucket (w_heap w) slot')).
  { apply bucket_find_ext. intros q Hq.
    assert (q ≠ dnode) by (intros ->; contradiction).
    destruct (dnodes (w_heap w) !! q) as [x|] eqn:Hx.
    - destruct (Hothers q x ltac:(assumption) Hx) as (x' & Hx' & Hn & _).
      rewrite Hx'. simpl. now rewrite Hn.
    - now rewrite (Hnone q Hx). }
  destruct (decide (slot' = fst (__dcache_hash parent (hash (d_name d))))) as [E|E].
  - rewrite E in *. rewrite Hb. simpl. rewrite Hd'. simpl. rewrite Hmix.
    destruct (snd (__dcache_hash parent (hash (d_name d))) =? mixed') eqn:Eq; [lia|].
    exact Hchain.
  - rewrite (Hbo slot' E). exact Hchain.
Qed.

(** X3.  After [vfs_dcache_remove] the dnode is detached, with no parent
    and no reference, and [vfs_dcache_lookup] does not answer with it
    for any name that goes through the hash table, under any parent. *)
Theorem vfs_dcache_remove_lookup (dnode : ptr) (w : world) (d : v_dnode) :
  dnode ≠ 0 →
  dnodes (w_heap w) !! dnode = Some d →
  d_ref_count d = 1 →
  ∃ w' d',
    vfs_dcache_remove dnode w = Some (tt, w')
    ∧ w_trace w' = w_trace w
    ∧ dnodes (w_heap w') !! dnode = Some d'
    ∧ d_parent d' = NULL
    ∧ d_ref_count d' = 0
    ∧ (∀ s : Z, dnode ∉ bucket (w_heap w') s)
    ∧ (∀ (p : ptr) x', dnodes (w_heap w') !! p = Some x' → dnode ∉ d_children x')
    ∧ (∀ (parent : ptr) (str : hstr),
         hstr_special str = false →
         vfs_dcache_lookup (w_heap w') parent str ≠ Some dnode).
Proof.
  intros Hp Hd Href.
  destruct (vfs_dcache_remove_spec dnode w d Hp Hd Href)
    as (h' & Hrun & (d' & Hd' & _ & _ & Hpar & Hrc) & Hall & Hnone & Hb & _).
  assert (Hbucket : ∀ s : Z, dnode ∉ bucket h' s).
  { intros s. rewrite Hb. rewrite list_elem_of_filter. intros [Hne _]. now apply Hne. }
  exists (mk_world h' (w_trace w)), d'. cbn [w_heap w_trace].
  repeat apply conj; try assumption; try reflexivity.
  - intros p x' Hx'.
    destruct (dnodes (w_heap w) !! p) as [x|] eqn:Hx.
    + destruct (Hall p x Hx) as (x'' & Hx'' & _ & _ & Hc & _).
      rewrite Hx' in Hx''. injection Hx'' as <-. rewrite Hc.
      rewrite list_elem_of_filter. intros [Hne _]. now apply Hne.
    + rewrite (Hnone p Hx) in Hx'. discriminate.
  - intros parent str Hs. rewrite vfs_dcache_lookup_plain by assumption. intros Hfind.
    apply bucket_find_hit in Hfind as [[Hin _]|[Hnull _]].
    + now apply (Hbucket _ Hin).
    + now apply Hp.
Qed.

(** X4.  [vfs_dcache_rehash] moves a cached dnode under a new parent:
    the hash of the name is computed afresh from its bytes, so whatever
    mixing the stored hash had gone through, the dnode is afterwards
    found under the new parent by any name with the full hash of its
    bytes, carries that parent, and holds one reference again. *)
Theorem vfs_dcache_rehash_lookup (new_parent dnode : ptr) (w : world) (d pd : v_dnode)
    (str : hstr) :
  new_parent ≠ 0 →
  dnode ≠ 0 →
  dnodes (w_heap w) !! dnode = Some d →
  dnodes (w_heap w) !! new_parent = Some pd →
  d_ref_count d = 1 →
  hstr_special str = false →
  hash str = strhash_32 (value (d_name d)) →
  ∃ w' d',
    vfs_dcache_rehash new_parent dnode w = Some (tt, w')
    ∧ w_trace w' = w_trace w
    ∧ vfs_dcache_lookup (w_heap w') new_parent str = Some dnode
    ∧ dnodes (w_heap w') !! dnode = Some d'
    ∧ d_parent d' = new_parent
    ∧ d_ref_count d' = 1
    ∧ value (d_name d') = value (d_name d).
Proof.
  intros Hnp Hp Hd Hpd Href Hs Hh.
  set (f0 := λ x : v_dnode, dnode_with_name (hstr_rehash (d_name x)) x).
  set (w0 := mk_world (set_dnodes (alter f0 dnode) (w_heap w)) (w_trace w)).
  assert (E0 : update_dnode dnode f0 w = Some (tt, w0))
    by (apply update_dnode_run; eauto).
  assert (Hd0 : dnodes (w_heap w0) !! dnode = Some (f0 d)).
  { cbn. now rewrite lookup_alter_eq, Hd. }
  assert (Hpd0 : ∃ pd0, dnodes (w_heap w0) !! new_parent = Some pd0).
  { cbn. apply (proj2 (is_Some_alter f0 _ dnode new_parent)). eauto. }
  destruct Hpd0 as [pd0 Hpd0].
  destruct (vfs_dcache_remove_spec dnode w0 (f0 d) Hp Hd0 Href)
    as (h1 & Hrun1 & (d1 & Hd1 & Hn1 & _ & _ & Hrc1) & Hall1 & _).
  destruct (Hall1 new_parent pd0 Hpd0) as (pd1 & Hpd1 & _).
  destruct (vfs_dcache_add_spec new_parent dnode (mk_world h1 (w_trace w0)) d1 pd1
              Hnp Hd1 Hpd1)
    as (h2 & Hrun2 & (d2 & Hd2 & Hmix & _ & Hv2 & Hpar & Hrc & _) & _ & _ & _ & Hb & _).
  exists (mk_world h2 (w_trace w)), d2. cbn [w_heap w_trace].
  split.
  { unfold vfs_dcache_rehash, assert. replace (new_parent =? 0) with false by lia.
    cbn [negb].
    rewrite (bind_Some _ _ w tt w) by reflexivity.
    rewrite (bind_Some _ _ _ _ _ E0).
    rewrite (bind_Some _ _ _ _ _ Hrun1).
    exact Hrun2. }
  repeat apply conj; try assumption; try reflexivity.
  - rewrite vfs_dcache_lookup_plain by assumption.
    rewrite Hn1 in Hmix, Hb. cbn [hstr_rehash hash f0 dnode_with_name d_name] in Hmix, Hb.
    rewrite Hh, Hb. simpl. rewrite Hd2. simpl. rewrite Hmix, Z.eqb_refl. reflexivity.
  - rewrite Hrc, Hrc1. reflexivity.
  - rewrite Hv2, Hn1. reflexivity.
Qed.


(** ** The path walker: delimiters, bytes and edge cases *)

(** The loop body reads its continuation at the resolved dnode only. *)
Lemma walk_component_ext rec opts hc la cl buf (k k' : ptr → M walk_result) :
  (∀ d w, k d w = k' d w) →
  ∀ w, walk_component rec opts hc la cl buf k w = walk_component rec opts hc la cl buf k' w.
Proof.
  intros Hk w. unfold walk_component.
  destruct (Ascii.eqb la NUL && has_flag opts VFS_WALK_PARENT); [reflexivity|].
  unfold bind. destruct (deref_dnode cl w) as [[d w1]|]; [|reflexivity].
  destruct (walk_symlink rec cl (d_inode d) w1) as [[[r|[cl' ci]] w2]|]; try reflexivity.
  destruct (walk_lookup opts cl' ci (component_name buf) w2) as [[[r|dn] w3]|];
    try reflexivity.
  apply Hk.
Qed.

(** A delimiter that follows a delimiter is skipped. *)
Lemma walk_loop_delim_delim rec opts hc rest buf cl w :
  walk_loop rec opts hc PATH_DELIM (String PATH_DELIM rest) buf cl w
  = walk_loop rec opts hc PATH_DELIM rest buf cl w.
Proof.
  rewrite (walk_loop_unfold _ _ _ _ (String PATH_DELIM rest)).
  rewrite (walk_loop_unfold _ _ _ _ rest).
  destruct (Ascii.eqb PATH_DELIM NUL || (cl =? 0)) eqn:E; [reflexivity|].
  cbv zeta. unfold walk_scan. cbn [Ascii.eqb PATH_DELIM Bool.eqb negb andb].
  rewrite (walk_loop_unfold _ _ _ _ rest), E. reflexivity.
Qed.

Lemma walk_loop_delim_run rec opts hc (a : string) :
  ∀ b c buf cl w,
    walk_loop rec opts hc c
      (String.append a (String PATH_DELIM (String PATH_DELIM b))) buf cl w
    = walk_loop rec opts hc c (String.append a (String PATH_DELIM b)) buf cl w.
Proof.
  induction a as [|c' a IH]; intros b c buf cl w; rewrite ?append_nil_l, ?append_cons.
  - rewrite (walk_loop_unfold _ _ _ c (String PATH_DELIM (String PATH_DELIM b))).
    rewrite (walk_loop_unfold _ _ _ c (String PATH_DELIM b)).
    destruct (Ascii.eqb c NUL || (cl =? 0)); [reflexivity|].
    cbv zeta. destruct (walk_scan c PATH_DELIM buf) as [e|buf'|buf'].
    + reflexivity.
    + apply walk_loop_delim_delim.
    + apply walk_component_ext. intros d w'. apply walk_loop_delim_delim.
  - rewrite (walk_loop_unfold _ _ _ c
               (String c' (String.append a (String PATH_DELIM (String PATH_DELIM b))))).
    rewrite (walk_loop_unfold _ _ _ c (String c' (String.append a (String PATH_DELIM b)))).
    destruct (Ascii.eqb c NUL || (cl =? 0)); [reflexivity|].
    cbv zeta. destruct (walk_scan c c' buf) as [e|buf'|buf'].
    + reflexivity.
    + apply IH.
    + apply walk_component_ext. intros d w'. apply IH.
Qed.

Lemma walk_loop_trailing_delim rec opts hc (rest : string) :
  ∀ c buf cl w,
    walk_loop rec opts hc c (String.append rest (String PATH_DELIM EmptyString)) buf cl w
    = walk_loop rec opts hc c rest buf cl w.
Proof.
  induction rest as [|c' rest IH]; intros c buf cl w; rewrite ?append_nil_l, ?append_cons.
  - rewrite (walk_loop_unfold _ _ _ c (String PATH_DELIM EmptyString)).
    rewrite (walk_loop_unfold _ _ _ c EmptyString).
    destruct (Ascii.eqb c NUL || (cl =? 0)) eqn:E; [reflexivity|].
    apply orb_false_iff in E as [_ Ecl].
    cbv zeta. unfold walk_scan.
    destruct (Ascii.eqb c PATH_DELIM); cbn [negb].
    + cbn [Ascii.eqb PATH_DELIM NUL Bool.eqb negb andb].
      rewrite walk_loop_unfold. cbn [Ascii.eqb PATH_DELIM NUL Bool.eqb andb orb].
      rewrite Ecl. reflexivity.
    + destruct (str_len buf >=? VFS_NAME_MAXLEN - 1); [reflexivity|].
      destruct (negb (VFS_VALID_CHAR c)); [reflexivity|].
      cbn [Ascii.eqb PATH_DELIM NUL Bool.eqb negb andb].
      rewrite walk_loop_unfold. cbn [Ascii.eqb PATH_DELIM NUL Bool.eqb andb orb].
      rewrite Ecl. reflexivity.
  - rewrite (walk_loop_unfold _ _ _ c
               (String c' (String.append rest (String PATH_DELIM EmptyString)))).
    rewrite (walk_loop_unfold _ _ _ c (String c' rest)).
    destruct (Ascii.eqb c NUL || (cl =? 0)); [reflexivity|].
    cbv zeta. destruct (walk_scan c c' buf) as [e|buf'|buf'].
    + reflexivity.
    + apply IH.
    + apply walk_component_ext. intros d w'. apply IH.
Qed.

(** [__vfs_walk] below the limit, on a path of at least one byte: the
    prologue picks the start and drops the first byte or not, the loop
    runs on what is left. *)
Lemma __vfs_walk_cons (n : nat) (start : ptr) (c : ascii) (path : string) (hc : bool)
    (opts : Z) (w : world) :
  walk_at (S n) start (String c path) hc opts w =
  match walk_start start (String c path) opts w with
  | Some ((start', String current rest), w1) =>
      walk_loop (λ s p, walk_at n s p false 0) opts hc current rest EmptyString start' w1
  | Some ((start', EmptyString), w1) =>
      walk_loop (λ s p, walk_at n s p false 0) opts hc NUL EmptyString EmptyString start' w1
  | None => None
  end.
Proof.
  cbn [walk_at]. unfold bind at 1.
  destruct (walk_start start (String c path) opts w) as [[[start' [|current rest]] w1]|];
    reflexivity.
Qed.

(** The prologue looks at the first byte only. *)
Lemma walk_start_cons (start : ptr) (c : ascii) (path : string) (opts : Z) (w : world) :
  ∃ start' w1 strip,
    (walk_start start (String c path) opts w = None ∧
     ∀ path', walk_start start (String c path') opts w = None)
    ∨ (∀ path', walk_start start (String c path') opts w
                = Some ((start', if strip : bool then path' else String c path'), w1)).
Proof.
  unfold walk_start. cbn [NUL].
  destruct (Ascii.eqb c PATH_DELIM || (start =? 0)).
  - unfold bind at 1.
    match goal with
    | |- context [match ?m w with _ => _ end] => destruct (m w) as [[s w1]|] eqn:E
    end.
    + exists s, w1, true. right. intros path'. unfold bind at 1. rewrite E. reflexivity.
    + exists start, w, true. left. split; [reflexivity|].
      intros path'. unfold bind at 1. rewrite E. reflexivity.
  - exists start, w, false. right. reflexivity.
Qed.

(** X5.  Delimiters that separate nothing make no difference to
    [__vfs_walk]: it gives the same result, the same store and the same
    trace with and without a [/] appended to a path of two bytes or
    more, and on [a//b] as on [a/b] for every non-empty [a] and every
    [b]. *)
Theorem __vfs_walk_delimiters (start : ptr) (c0 c1 : ascii) (rest a b : string) (hc : bool)
    (opts depth : Z) (w : world) :
  __vfs_walk start
    (String.append (String c0 (String c1 rest)) (String PATH_DELIM EmptyString))
    hc opts depth w
  = __vfs_walk start (String c0 (String c1 rest)) hc opts depth w
  ∧ __vfs_walk start
      (String c0 (String.append a (String PATH_DELIM (String PATH_DELIM b))))
      hc opts depth w
    = __vfs_walk start (String c0 (String.append a (String PATH_DELIM b))) hc opts depth w.
Proof.
  unfold __vfs_walk.
  destruct (Z.to_nat (VFS_SYMLINK_DEPTH - depth)) as [|n]; [split; reflexivity|].
  split.
  - rewrite !append_cons. rewrite !__vfs_walk_cons.
    destruct (walk_start_cons start c0 (String c1 rest) opts w)
      as (start' & w1 & strip & [[_ Hnone]|Hsome]).
    + now rewrite !Hnone.
    + rewrite !Hsome. destruct strip.
      * apply walk_loop_trailing_delim.
      * rewrite <- append_cons. apply walk_loop_trailing_delim.
  - rewrite !__vfs_walk_cons.
    destruct (walk_start_cons start c0
                (String.append a (String PATH_DELIM (String PATH_DELIM b))) opts w)
      as (start' & w1 & strip & [[_ Hnone]|Hsome]).
    + now rewrite !Hnone.
    + rewrite !Hsome. destruct strip.
      * destruct a as [|c a]; rewrite ?append_nil_l, ?append_cons.
        -- apply walk_loop_delim_delim.
        -- apply walk_loop_delim_run.
      * apply walk_loop_delim_run.
Qed.

(** A relative path under a start that is not NULL: the walk is the loop
    from its first byte. *)
Lemma vfs_walk_relative (start : ptr) (c : ascii) (rest : string) (hc : bool) (opts : Z)
    (w : world) :
  start ≠ 0 →
  Ascii.eqb c PATH_DELIM = false →
  vfs_walk start (String c rest) hc opts w
  = walk_loop (λ s p, __vfs_walk s p false 0 1) opts hc c rest EmptyString start w.
Proof.
  intros Hs Hc. unfold vfs_walk.
  rewrite __vfs_walk_below by (unfold VFS_SYMLINK_DEPTH; lia).
  rewrite (bind_Some _ _ _ _ _ (walk_start_relative start c rest opts w
                                  ltac:(lia) Hc)).
  reflexivity.
Qed.

(** X6.  With [VFS_WALK_PARENT], the walk of a single legal name stops
    before that name: it hands back the start itself and, where the
    caller asked for it, the name with its full hash.  Nothing is looked
    up and no driver is called, whether or not the name exists. *)
Theorem vfs_walk_parent_name (start : ptr) (c : ascii) (rest : string) (hc : bool)
    (w : world) :
  start ≠ 0 →
  VFS_WALK_PARENT ≠ 0 →
  string_forallb name_char (String c rest) = true →
  str_len (String c rest) ≤ VFS_NAME_MAXLEN - 1 →
  vfs_walk start (String c rest) hc VFS_WALK_PARENT w
  = Some (mk_walk_result 0 (Some start)
            (if hc then Some (component_name (String c rest)) else None), w).
Proof.
  intros Hs Hflag Hname Hlen.
  assert (Hc : name_char c = true).
  { simpl in Hname. now apply andb_true_iff in Hname as [? _]. }
  apply name_char_inv in Hc as (_ & Hd & _).
  rewrite vfs_walk_relative by assumption.
  rewrite (walk_loop_fits_end _ _ _ (String c rest) c rest EmptyString start);
    try assumption; try reflexivity.
  rewrite append_nil_l. unfold walk_component.
  assert (Hf : has_flag VFS_WALK_PARENT VFS_WALK_PARENT = true).
  { unfold has_flag. rewrite Z.land_diag. apply negb_true_iff. lia. }
  rewrite Hf. reflexivity.
Qed.

(** A byte that [VFS_VALID_CHAR] rejects, behind legal bytes that fit. *)
Lemma walk_loop_invalid rec opts hc (pre : string) :
  ∀ c post current rest buf cl w,
    cl ≠ 0 →
    String current rest = String.append pre (String c post) →
    string_forallb name_char pre = true →
    Ascii.eqb c NUL = false →
    Ascii.eqb c PATH_DELIM = false →
    VFS_VALID_CHAR c = false →
    str_len buf + str_len pre < VFS_NAME_MAXLEN - 1 →
    walk_loop rec opts hc current rest buf cl w =
    Some (mk_walk_result EINVAL None None, w).
Proof.
  induction pre as [|p pre IH];
    intros c post current rest buf cl w Hcl Hpath Hpre Hn Hd Hv Hlen.
  - rewrite ?append_cons, ?append_nil_l in Hpath. injection Hpath as -> ->.
    rewrite walk_loop_unfold. rewrite Hn.
    replace (cl =? 0) with false by lia. cbn [orb]. cbv zeta.
    unfold walk_scan. rewrite Hd, Hv.
    change (str_len EmptyString) with 0 in Hlen.
    replace (str_len buf >=? VFS_NAME_MAXLEN - 1) with false by lia.
    reflexivity.
  - rewrite ?append_cons, ?append_nil_l in Hpath. injection Hpath as -> ->.
    simpl in Hpre. apply andb_true_iff in Hpre as [Hp Hpre].
    assert (Hlen' : str_len (String p pre) = str_len pre + 1).
    { unfold str_len. simpl String.length. lia. }
    pose proof (str_len_nonneg pre).
    destruct pre as [|p' pre'].
    + rewrite ?append_cons, ?append_nil_l. rewrite walk_loop_gather; try assumption; [|lia].
      eapply (IH c post); try eassumption; try reflexivity.
      rewrite str_len_snoc. lia.
    + rewrite ?append_cons, ?append_nil_l.
      assert (Hp' : name_char p' = true).
      { simpl in Hpre. now apply andb_true_iff in Hpre as [? _]. }
      rewrite walk_loop_gather; try assumption;
        [|now apply name_char_inv in Hp' as (? & _)|lia].
      eapply (IH c post); try eassumption; try reflexivity.
      rewrite str_len_snoc. lia.
Qed.

(** X7.  A byte that [VFS_VALID_CHAR] rejects in the first component of
    a relative path ends the walk in [EINVAL] before anything is looked
    up: the store and the trace are as they were, and, unlike on the
    other failures of the walk, [*dentry] is not written. *)
Theorem vfs_walk_invalid_byte (start : ptr) (pre : string) (c : ascii) (post : string)
    (hc : bool) (opts : Z) (w : world) :
  start ≠ 0 →
  string_forallb name_char pre = true →
  Ascii.eqb c NUL = false →
  Ascii.eqb c PATH_DELIM = false →
  VFS_VALID_CHAR c = false →
  str_len pre < VFS_NAME_MAXLEN - 1 →
  vfs_walk start (String.append pre (String c post)) hc opts w
  = Some (mk_walk_result EINVAL None None, w).
Proof.
  intros Hs Hpre Hn Hd Hv Hlen.
  destruct (String.append pre (String c post)) as [|c0 rest0] eqn:Hpath.
  { destruct pre; rewrite ?append_nil_l, ?append_cons in Hpath; discriminate. }
  assert (Hc0 : Ascii.eqb c0 PATH_DELIM = false).
  { destruct pre as [|p pre]; rewrite ?append_nil_l, ?append_cons in Hpath;
      injection Hpath as <- <-; [assumption|].
    simpl in Hpre. apply andb_true_iff in Hpre as [Hp _].
    now apply name_char_inv in Hp as (_ & ? & _). }
  rewrite vfs_walk_relative by assumption.
  eapply (walk_loop_invalid _ _ _ pre c post); try eassumption.
  now symmetry.
Qed.

(** Where the current inode is no symlink the symlink block does
    nothing. *)
Lemma walk_symlink_plain rec (cl ci : ptr) (w : world) (i : v_inode) :
  inodes (w_heap w) !! ci = Some i →
  has_flag (i_itype i) VFS_IFSYMLINK = false →
  walk_symlink rec cl ci w = Some (inr (cl, ci), w).
Proof.
  intros Hi Hsym. unfold walk_symlink.
  rewrite (bind_Some _ _ _ _ _ (deref_inode_Some _ _ _ Hi)).
  now rewrite Hsym.
Qed.

(** X8.  The walk of one cached name is answered by the name cache: when
    the start is no symlink and the cache holds a dnode for the name, the
    walk hands that dnode back, its only trace being the lookup, and the
    store is as it was; no driver is called. *)
Theorem vfs_walk_cached (start : ptr) (c : ascii) (rest : string) (hc : bool) (opts : Z)
    (w : world) (d : v_dnode) (i : v_inode) (dnode : ptr) :
  start ≠ 0 →
  string_forallb name_char (String c rest) = true →
  str_len (String c rest) ≤ VFS_NAME_MAXLEN - 1 →
  has_flag opts VFS_WALK_PARENT = false →
  dnodes (w_heap w) !! start = Some d →
  inodes (w_heap w) !! d_inode d = Some i →
  has_flag (i_itype i) VFS_IFSYMLINK = false →
  vfs_dcache_lookup (w_heap w) start (component_name (String c rest)) = Some dnode →
  dnode ≠ 0 →
  vfs_walk start (String c rest) hc opts w
  = Some (walk_done dnode,
          mk_world (w_heap w)
            (w_trace w ++ [EvDcacheLookup start (component_name (String c rest))])).
Proof.
  intros Hs Hname Hlen Hopt Hd Hi Hsym Hlook Hdn.
  assert (Hc : name_char c = true).
  { simpl in Hname. now apply andb_true_iff in Hname as [? _]. }
  apply name_char_inv in Hc as (_ & Hdl & _).
  rewrite vfs_walk_relative by assumption.
  rewrite (walk_loop_fits_end _ _ _ (String c rest) c rest EmptyString start);
    try assumption; try reflexivity.
  rewrite append_nil_l. unfold walk_component. rewrite Hopt, andb_false_r.
  rewrite (bind_Some _ _ _ _ _ (deref_dnode_Some _ _ _ Hd)).
  rewrite (bind_Some _ _ _ _ _ (walk_symlink_plain _ _ _ _ _ Hi Hsym)).
  rewrite (bind_Some _ _ _ _ _ (walk_lookup_hit opts start (d_inode d) _ w dnode Hlook
                                  ltac:(lia))).
  reflexivity.
Qed.

(** X9.  The empty path names the start itself, and [/] the system
    root: both walks return before the loop is entered, with status 0,
    the store and the trace as they were. *)
Theorem vfs_walk_no_component (start : ptr) (hc : bool) (opts : Z) (w : world)
    (root : v_dnode) :
  start ≠ 0 →
  dnodes (w_heap w) !! vfs_sysroot (w_heap w) = Some root →
  d_mnt root ≠ 0 →
  has_flag opts VFS_WALK_FSRELATIVE = false →
  vfs_walk start "" hc opts w = Some (walk_done start, w)
  ∧ vfs_walk start "/" hc opts w = Some (walk_done (vfs_sysroot (w_heap w)), w)
  ∧ vfs_walk NULL "/" hc opts w = Some (walk_done (vfs_sysroot (w_heap w)), w).
Proof.
  intros Hs Hroot Hmnt Hopt.
  assert (Hstart : (start =? 0) = false) by lia.
  assert (Hm : (d_mnt root =? 0) = false) by lia.
  unfold vfs_walk.
  rewrite !__vfs_walk_below by (unfold VFS_SYMLINK_DEPTH; lia).
  unfold walk_start. cbn [Ascii.eqb PATH_DELIM NUL Bool.eqb andb orb].
  rewrite Hstart, Hopt. cbn [andb orb negb].
  repeat apply conj.
  - reflexivity.
  - unfold bind, get_heap, deref_dnode, of_option, ret. cbn.
    rewrite Hroot. cbn. rewrite Hm. reflexivity.
  - unfold bind, get_heap, deref_dnode, of_option, ret. cbn.
    rewrite Hroot. cbn. rewrite Hm. reflexivity.
Qed.


(** ** Descriptors *)

Lemma __vfs_getfd_bad (h : heap) (fd : Z) :
  TEST_FD fd = false ∨ fds h !! fd = None →
  __vfs_getfd h fd = (EBADF, None).
Proof.
  unfold __vfs_getfd. intros [H|H]; rewrite H; [reflexivity|].
  now destruct (TEST_FD fd).
Qed.

(** X10.  A descriptor outside the table, or one whose slot is empty, is
    refused with [EBADF] by every call that takes a descriptor, before
    anything else happens: the store and the trace are as they were. *)
Theorem bad_descriptor (fd : Z) (w : world) (offset options : Z) (dent : dirent)
    (buf : ptr) (count newfd : Z) :
  EBADF ≠ 0 →
  TEST_FD fd = false ∨ fds (w_heap w) !! fd = None →
  sys_lseek fd offset options w = Some (DO_STATUS EBADF, w)
  ∧ sys_readdir fd dent w = Some ((DO_STATUS_OR_RETURN EBADF, dent), w)
  ∧ sys_read fd buf count w = Some (DO_STATUS EBADF, w)
  ∧ sys_write fd buf count w = Some (DO_STATUS EBADF, w)
  ∧ sys_close fd w = Some (DO_STATUS EBADF, w)
  ∧ sys_fsync fd w = Some (DO_STATUS EBADF, w)
  ∧ sys_dup fd w = Some (DO_STATUS EBADF, w)
  ∧ sys_fchdir fd w = Some ((DO_STATUS EBADF, []), w)
  ∧ (newfd ≠ fd → sys_dup2 fd newfd w = Some (DO_STATUS EBADF, w)).
Proof.
  intros Hne Hbad. pose proof (__vfs_getfd_bad (w_heap w) fd Hbad) as Hg.
  assert (E : (EBADF =? 0) = false) by lia.
  repeat apply conj.
  - unfold sys_lseek. mrun. rewrite Hg. cbn. now rewrite E.
  - unfold sys_readdir. mrun. rewrite Hg. cbn. now rewrite E.
  - unfold sys_read, sys_rw. mrun. rewrite Hg. cbn. now rewrite E.
  - unfold sys_write, sys_rw. mrun. rewrite Hg. cbn. now rewrite E.
  - unfold sys_close. mrun. rewrite Hg. cbn. now rewrite E.
  - unfold sys_fsync. mrun. rewrite Hg. cbn. now rewrite E.
  - unfold sys_dup. mrun. rewrite Hg. cbn. now rewrite E.
  - unfold sys_fchdir. mrun. rewrite Hg. cbn. now rewrite E.
  - intros Hnew. unfold sys_dup2, vfs_dup2.
    replace (newfd =? fd) with false by lia. mrun. rewrite Hg. cbn. now rewrite E.
Qed.

Lemma alloc_fdslot_from_free (h : heap) (n : nat) :
  ∀ base i,
    base ≤ i < base + Z.of_nat n →
    fds h !! i = None →
    (∀ j, base ≤ j < i → is_Some (fds h !! j)) →
    alloc_fdslot_from h base n = (0, Some i).
Proof.
  induction n as [|n IH]; intros base i Hi Hfree Hused; [lia|].
  simpl. destruct (decide (base = i)) as [->|Hne].
  - now rewrite Hfree.
  - destruct (Hused base ltac:(lia)) as [x ->].
    apply IH; [lia|assumption|]. intros j Hj. apply Hused. lia.
Qed.

Lemma alloc_fdslot_from_full (h : heap) (n : nat) :
  ∀ base,
    (∀ j, base ≤ j < base + Z.of_nat n → is_Some (fds h !! j)) →
    alloc_fdslot_from h base n = (EMFILE, None).
Proof.
  induction n as [|n IH]; intros base Hused; [reflexivity|].
  simpl. destruct (Hused base ltac:(lia)) as [x ->].
  apply IH. intros j Hj. apply Hused. lia.
Qed.

Lemma alloc_fdslot_from_sound (h : heap) (n : nat) :
  ∀ base e i,
    alloc_fdslot_from h base n = (e, Some i) →
    e = 0 ∧ base ≤ i < base + Z.of_nat n ∧ fds h !! i = None.
Proof.
  induction n as [|n IH]; intros base e i; simpl; [discriminate|].
  destruct (fds h !! base) eqn:Hb.
  - intros H. apply IH in H as (? & ? & ?). repeat split; try assumption; lia.
  - intros [= <- <-]. repeat split; try assumption; lia.
Qed.

(** X11.  [vfs_alloc_fdslot] hands out the lowest empty slot of the
    table, and [EMFILE] when each of the [VFS_MAX_FD] slots is taken. *)
Theorem vfs_alloc_fdslot_lowest (h : heap) :
  (∀ i, 0 ≤ i < VFS_MAX_FD →
        fds h !! i = None →
        (∀ j, 0 ≤ j < i → is_Some (fds h !! j)) →
        vfs_alloc_fdslot h = (0, Some i))
  ∧ ((∀ j, 0 ≤ j < VFS_MAX_FD → is_Some (fds h !! j)) →
     vfs_alloc_fdslot h = (EMFILE, None)).
Proof.
  unfold vfs_alloc_fdslot. split.
  - intros i Hi Hfree Hused. apply alloc_fdslot_from_free; try assumption. lia.
  - intros Hused. apply alloc_fdslot_from_full. intros j Hj. apply Hused. lia.
Qed.

Lemma alter_alter_id {A} (f g : A → A) (m : gmap Z A) (i : Z) (x : A) :
  m !! i = Some x → g (f x) = x → alter g i (alter f i m) = m.
Proof.
  intros Hx Hgf. apply map_eq. intros k.
  destruct (decide (k = i)) as [->|Hne].
  - rewrite !lookup_alter_eq, Hx. cbn. now rewrite Hgf.
  - now rewrite !lookup_alter_ne by congruence.
Qed.

(** [close] on a file that other descriptors share: the reference is
    given back, the slot is emptied, and the driver is not called. *)
Lemma sys_close_shared (fd : Z) (w : world) (fd_s : v_fd) (f : v_file) :
  __vfs_getfd (w_heap w) fd = (0, Some fd_s) →
  files (w_heap w) !! fd_file fd_s = Some f →
  1 < f_ref_count f →
  sys_close fd w =
  Some (DO_STATUS 0,
        mk_world (set_fds (delete fd)
                    (set_files (alter (λ f, file_with_ref_count (f_ref_count f - 1) f)
                                  (fd_file fd_s)) (w_heap w)))
                 (w_trace w)).
Proof.
  intros Hfd Hf Href. unfold sys_close, update_file, modify_heap. mrun.
  rewrite Hfd. cbn. rewrite Hf. cbn.
  replace (f_ref_count f >? 1) with true by lia.
  rewrite Hf. reflexivity.
Qed.

Lemma sys_dup_run (fd newfd : Z) (w : world) (fd_s : v_fd) (f : v_file) :
  __vfs_getfd (w_heap w) fd = (0, Some fd_s) →
  files (w_heap w) !! fd_file fd_s = Some f →
  vfs_alloc_fdslot (w_heap w) = (0, Some newfd) →
  sys_dup fd w =
  Some (RETURN newfd,
        mk_world (set_fds <[newfd := fd_s]>
                    (set_files (alter (λ f, file_with_ref_count (f_ref_count f + 1) f)
                                  (fd_file fd_s)) (w_heap w)))
                 (w_trace w)).
Proof.
  intros Hfd Hf Halloc. unfold sys_dup, vfs_dup_fd, update_file, modify_heap. mrun.
  rewrite Hfd. cbn. rewrite Halloc. cbn. rewrite Hf. reflexivity.
Qed.

(** X12.  [dup] followed by [close] of the new descriptor is a round
    trip.  [dup] returns the slot that [vfs_alloc_fdslot] picks, enters
    the same file there and counts one more reference on it; [close] of
    that slot finds more than one reference, so it gives the reference
    back without calling the driver, and the store and the trace are
    again the ones from before the [dup]. *)
Theorem sys_dup_close (fd newfd : Z) (w : world) (fd_s : v_fd) (f : v_file) :
  __vfs_getfd (w_heap w) fd = (0, Some fd_s) →
  files (w_heap w) !! fd_file fd_s = Some f →
  1 ≤ f_ref_count f →
  vfs_alloc_fdslot (w_heap w) = (0, Some newfd) →
  ∃ w1,
    sys_dup fd w = Some (RETURN newfd, w1)
    ∧ fds (w_heap w1) !! newfd = Some fd_s
    ∧ f_ref_count <$> files (w_heap w1) !! fd_file fd_s = Some (f_ref_count f + 1)
    ∧ sys_close newfd w1 = Some (DO_STATUS 0, w).
Proof.
  intros Hfd Hf Href Halloc.
  destruct (alloc_fdslot_from_sound _ _ _ _ _ Halloc) as (_ & Hrange & Hfree).
  eexists. split; [apply (sys_dup_run fd newfd w fd_s f); assumption|].
  cbn [w_heap].
  match goal with
  | |- context [mk_world ?h _] => set (h1 := h)
  end.
  assert (Hslot : fds h1 !! newfd = Some fd_s) by apply lookup_insert_eq.
  assert (Hfile : files h1 !! fd_file fd_s
                  = Some (file_with_ref_count (f_ref_count f + 1) f)).
  { subst h1. cbn. unfold ptr in *. now rewrite lookup_alter_eq, Hf. }
  split; [exact Hslot|]. split; [now rewrite Hfile|].
  assert (Hg : __vfs_getfd h1 newfd = (0, Some fd_s)).
  { unfold __vfs_getfd, TEST_FD. rewrite Hslot.
    replace (0 <=? newfd) with true by lia.
    replace (newfd <? VFS_MAX_FD) with true by lia. reflexivity. }
  rewrite (sys_close_shared newfd (mk_world h1 (w_trace w)) fd_s _ Hg Hfile)
    by (cbn; lia).
  do 2 f_equal. destruct w as [h tr]. cbn [w_heap w_trace] in *. f_equal.
  subst h1. destruct h. unfold set_fds, set_files. cbn in *. unfold ptr in *. f_equal.
  - eapply alter_alter_id; [exact Hf|].
    destruct f. unfold file_with_ref_count. cbn. f_equal. lia.
  - now apply delete_insert_id.
Qed.

(** X13.  [read] and [write] on a descriptor of a directory end in
    [EISDIR]: neither the driver nor the page cache is asked, whatever
    they are, and the store and the trace are as they were. *)
Theorem sys_read_write_directory (fd : Z) (buf : ptr) (count : Z) (w : world)
    (fd_s : v_fd) (file : v_file) (inode : v_inode) :
  __vfs_getfd (w_heap w) fd = (0, Some fd_s) →
  files (w_heap w) !! fd_file fd_s = Some file →
  inodes (w_heap w) !! f_inode file = Some inode →
  has_flag (i_itype inode) VFS_IFDIR = true →
  sys_read fd buf count w = Some (DO_STATUS EISDIR, w)
  ∧ sys_write fd buf count w = Some (DO_STATUS EISDIR, w).
Proof.
  intros Hfd Hfile Hinode Hdir. unfold sys_read, sys_write, sys_rw. mrun.
  rewrite Hfd. cbn. rewrite Hfile. cbn. rewrite Hinode. cbn. rewrite Hdir.
  split; reflexivity.
Qed.

(** The body of [read] and [write] behind the directory test. *)
Lemma sys_rw_transfer io pcache_io (fd : Z) (buf : ptr) (count : Z) (w : world)
    (fd_s : v_fd) (file file1 : v_file) (inode : v_inode) (n : Z) (h1 : heap) :
  __vfs_getfd (w_heap w) fd = (0, Some fd_s) →
  files (w_heap w) !! fd_file fd_s = Some file →
  inodes (w_heap w) !! f_inode file = Some inode →
  has_flag (i_itype inode) VFS_IFDIR = false →
  (if has_flag (i_itype inode) VFS_IFSEQDEV || has_flag (fd_flags fd_s) FO_DIRECT
   then ∃ method, io (f_ops file) = Some method
                  ∧ method (f_inode file) buf count (f_pos file) (w_heap w) = (n, h1)
   else pcache_io (f_inode file) buf count (f_pos file) (w_heap w) = (n, h1)) →
  files h1 !! fd_file fd_s = Some file1 →
  sys_rw io pcache_io fd buf count w =
  Some (if n >? 0 then RETURN n else DO_STATUS n,
        mk_world (if n >? 0
                  then set_files (alter (file_with_pos (wrap32 (f_pos file1 + n)))
                                    (fd_file fd_s)) h1
                  else h1)
                 (w_trace w)).
Proof.
  intros Hfd Hfile Hinode Hdir Hio Hfile1. unfold sys_rw. mrun.
  rewrite Hfd. cbn. rewrite Hfile. cbn. rewrite Hinode. cbn. rewrite Hdir. cbn.
  destruct (has_flag (i_itype inode) VFS_IFSEQDEV || has_flag (fd_flags fd_s) FO_DIRECT).
  - destruct Hio as (method & Hm & Hcall). unfold call_plain. rewrite Hm. cbn.
    rewrite Hcall. cbn. destruct (n >? 0); [|reflexivity].
    unfold update_file, modify_heap. mrun. rewrite Hfile1. cbn.
    do 2 f_equal. unfold set_files. do 2 f_equal. apply alter_ext. intros x Hx. rewrite Hfile1 in Hx.
    now injection Hx as <-.
  - unfold call_plain. cbn. rewrite Hio. cbn. destruct (n >? 0); [|reflexivity].
    unfold update_file, modify_heap. mrun. rewrite Hfile1. cbn.
    do 2 f_equal. unfold set_files. do 2 f_equal. apply alter_ext. intros x Hx. rewrite Hfile1 in Hx.
    now injection Hx as <-.
Qed.

(** X14.  [read] and [write] on a descriptor that is no directory go to
    the driver's method for a sequential device or a descriptor opened
    with [FO_DIRECT], and to the page cache otherwise, with the position
    of the file as the offset.  A positive result is the number of
    bytes: it is returned as it is and the position moves on by it, in
    32-bit arithmetic.  Any other result is handed to [DO_STATUS] and
    leaves the position alone. *)
Theorem sys_read_write_position (fd : Z) (buf : ptr) (count : Z) (w : world)
    (fd_s : v_fd) (file : v_file) (inode : v_inode) :
  __vfs_getfd (w_heap w) fd = (0, Some fd_s) →
  files (w_heap w) !! fd_file fd_s = Some file →
  inodes (w_heap w) !! f_inode file = Some inode →
  has_flag (i_itype inode) VFS_IFDIR = false →
  let direct :=
    has_flag (i_itype inode) VFS_IFSEQDEV || has_flag (fd_flags fd_s) FO_DIRECT in
  let after (n : Z) (h1 : heap) (file1 : v_file) :=
    Some (if n >? 0 then RETURN n else DO_STATUS n,
          mk_world (if n >? 0
                    then set_files (alter (file_with_pos (wrap32 (f_pos file1 + n)))
                                      (fd_file fd_s)) h1
                    else h1)
                   (w_trace w)) in
  (∀ n h1 file1,
     (if direct
      then ∃ method, fops_read (f_ops file) = Some method
                     ∧ method (f_inode file) buf count (f_pos file) (w_heap w) = (n, h1)
      else pcache_read (f_inode file) buf count (f_pos file) (w_heap w) = (n, h1)) →
     files h1 !! fd_file fd_s = Some file1 →
     sys_read fd buf count w = after n h1 file1)
  ∧ (∀ n h1 file1,
       (if direct
        then ∃ method, fops_write (f_ops file) = Some method
                       ∧ method (f_inode file) buf count (f_pos file) (w_heap w) = (n, h1)
        else pcache_write (f_inode file) buf count (f_pos file) (w_heap w) = (n, h1)) →
       files h1 !! fd_file fd_s = Some file1 →
       sys_write fd buf count w = after n h1 file1).
Proof.
  intros Hfd Hfile Hinode Hdir direct after. split.
  - intros n h1 file1 Hio Hfile1.
    now apply (sys_rw_transfer fops_read pcache_read fd buf count w fd_s file file1 inode).
  - intros n h1 file1 Hio Hfile1.
    now apply (sys_rw_transfer fops_write pcache_write fd buf count w fd_s file file1 inode).
Qed.

(** ** The life of dnodes, inodes and links *)

(** X15.  The eviction callback of the dnode LRU never frees a dnode:
    on a dnode that is referenced it answers 0 and touches nothing, and
    on one that is not, it calls [vfs_d_free], whose first assertion asks
    for exactly one reference. *)
Theorem __vfs_try_evict_dnode_outcome (dnode : ptr) (w : world) :
  __vfs_try_evict_dnode dnode w =
  match dnodes (w_heap w) !! dnode with
  | Some d => if d_ref_count d =? 0 then None else Some (0, w)
  | None => None
  end.
Proof.
  unfold __vfs_try_evict_dnode.
  destruct (dnodes (w_heap w) !! dnode) as [d|] eqn:Hd.
  - rewrite (bind_Some _ _ _ _ _ (deref_dnode_Some _ _ _ Hd)).
    destruct (d_ref_count d =? 0) eqn:E; [|reflexivity].
    unfold bind at 1. rewrite (vfs_d_free_uncached dnode d w Hd) by lia. reflexivity.
  - unfold deref_dnode. mrun. now rewrite Hd.
Qed.

Lemma update_dnode_at p f h tr :
  is_Some (dnodes h !! p) →
  update_dnode p f (mk_world h tr) = Some (tt, mk_world (set_dnodes (alter f p) h) tr).
Proof. intros H. now rewrite update_dnode_run. Qed.

Lemma update_inode_at p f h tr :
  is_Some (inodes h !! p) →
  update_inode p f (mk_world h tr) = Some (tt, mk_world (set_inodes (alter f p) h) tr).
Proof. intros H. now rewrite update_inode_run. Qed.

Lemma update_file_at p f h tr :
  is_Some (files h !! p) →
  update_file p f (mk_world h tr) = Some (tt, mk_world (set_files (alter f p) h) tr).
Proof. intros H. now rewrite update_file_run. Qed.

Ltac some_lookup := cbn; unfold ptr in *; rewrite ?is_Some_alter; eauto.

(** One store update at the head of a computation. *)
Ltac step_update :=
  match goal with
  | |- context [bind (update_dnode ?p ?f) ?k (mk_world ?h ?tr)] =>
      rewrite (bind_Some (update_dnode p f) k (mk_world h tr) tt _
                 (update_dnode_at p f h tr ltac:(some_lookup)))
  | |- context [bind (update_inode ?p ?f) ?k (mk_world ?h ?tr)] =>
      rewrite (bind_Some (update_inode p f) k (mk_world h tr) tt _
                 (update_inode_at p f h tr ltac:(some_lookup)))
  | |- context [bind (update_file ?p ?f) ?k (mk_world ?h ?tr)] =>
      rewrite (bind_Some (update_file p f) k (mk_world h tr) tt _
                 (update_file_at p f h tr ltac:(some_lookup)))
  end.

(** The store that [vfs_assign_inode] leaves. *)
Lemma vfs_assign_inode_run (assign_to inode : ptr) (h : heap) (tr : list event)
    (d : v_dnode) :
  dnodes h !! assign_to = Some d →
  is_Some (inodes h !! inode) →
  (d_inode d ≠ 0 → is_Some (inodes h !! d_inode d)) →
  vfs_assign_inode assign_to inode (mk_world h tr) =
  Some (tt,
        mk_world
          (set_inodes (alter (λ i, inode_with_link_count (i_link_count i + 1) i) inode)
             (set_dnodes (alter (dnode_with_inode inode) assign_to)
                (if d_inode d =? 0 then h
                 else set_inodes
                        (alter (λ i, inode_with_link_count (wrap32 (i_link_count i - 1)) i)
                           (d_inode d)) h)))
          tr).
Proof.
  intros Hd Hi Hold. unfold vfs_assign_inode.
  rewrite (bind_Some _ _ _ _ _ (deref_dnode_Some _ _ (mk_world h tr) Hd)).
  destruct (d_inode d =? 0) eqn:E; cbn [negb].
  - rewrite (bind_Some _ _ (mk_world h tr) tt (mk_world h tr)) by reflexivity.
    step_update. now apply update_inode_at.
  - pose proof (Hold ltac:(lia)) as Hold'.
    step_update. step_update.
    apply update_inode_at. cbn. now rewrite is_Some_alter.
Qed.


(** X17.  [vfs_link] refuses to link across file systems and under an
    inode without a [link] method before any driver is called; it hands
    a failure of the driver back as it is; and after a success of the
    driver the name carries the inode of the linked dnode, which has
    gained a link. *)
Theorem vfs_link_outcome (to_link name : ptr) (w : world) (t n : v_dnode) (ti : v_inode)
    (tsb nsb : v_superblock) :
  dnodes (w_heap w) !! to_link = Some t →
  inodes (w_heap w) !! d_inode t = Some ti →
  superblocks (w_heap w) !! d_super_block t = Some tsb →
  dnodes (w_heap w) !! name = Some n →
  superblocks (w_heap w) !! d_super_block n = Some nsb →
  (sb_root tsb ≠ sb_root nsb → vfs_link to_link name w = Some (EXDEV, w))
  ∧ (sb_root tsb = sb_root nsb → ops_link (i_ops ti) = None →
     vfs_link to_link name w = Some (ENOTSUP, w))
  ∧ (∀ link errno h1,
       sb_root tsb = sb_root nsb →
       ops_link (i_ops ti) = Some link →
       link (d_inode t) name (w_heap w) = (errno, h1) →
       errno ≠ 0 →
       vfs_link to_link name w = Some (errno, mk_world h1 (w_trace w)))
  ∧ (∀ link h1 t1 n1 i1,
       sb_root tsb = sb_root nsb →
       ops_link (i_ops ti) = Some link →
       link (d_inode t) name (w_heap w) = (0, h1) →
       dnodes h1 !! to_link = Some t1 →
       dnodes h1 !! name = Some n1 →
       d_inode n1 = 0 →
       inodes h1 !! d_inode t1 = Some i1 →
       ∃ w',
         vfs_link to_link name w = Some (0, w')
         ∧ d_inode <$> dnodes (w_heap w') !! name = Some (d_inode t1)
         ∧ i_link_count <$> inodes (w_heap w') !! d_inode t1 = Some (i_link_count i1 + 1)).
Proof.
  intros Ht Hti Htsb Hn Hnsb.
  assert (Hhead : vfs_link to_link name w =
    (if negb (sb_root tsb =? sb_root nsb) then ret EXDEV
     else
       match ops_link (i_ops ti) with
       | None => ret ENOTSUP
       | Some f =>
           errno <- call_plain (Some (f (d_inode t) name)) ;;
           if errno =? 0 then
             t <- deref_dnode to_link ;;
             vfs_assign_inode name (d_inode t) ;; ret errno
           else ret errno
       end) w).
  { unfold vfs_link.
    rewrite (bind_Some _ _ _ _ _ (deref_dnode_Some _ _ _ Ht)).
    rewrite (bind_Some _ _ _ _ _ (deref_inode_Some _ _ _ Hti)).
    rewrite (bind_Some _ _ _ _ _ (deref_sb_Some _ _ _ Htsb)).
    rewrite (bind_Some _ _ _ _ _ (deref_dnode_Some _ _ _ Hn)).
    rewrite (bind_Some _ _ _ _ _ (deref_sb_Some _ _ _ Hnsb)).
    reflexivity. }
  rewrite Hhead. repeat apply conj.
  - intros Hroot. replace (sb_root tsb =? sb_root nsb) with false by lia. reflexivity.
  - intros Hroot Hops. replace (sb_root tsb =? sb_root nsb) with true by lia.
    now rewrite Hops.
  - intros link errno h1 Hroot Hops Hcall Herr.
    replace (sb_root tsb =? sb_root nsb) with true by lia. rewrite Hops. cbn [negb].
    unfold bind, call_plain. rewrite Hcall.
    now replace (errno =? 0) with false by lia.
  - intros link h1 t1 n1 i1 Hroot Hops Hcall Ht1 Hn1 Hfresh Hi1.
    replace (sb_root tsb =? sb_root nsb) with true by lia. rewrite Hops. cbn [negb].
    unfold bind at 1, call_plain. rewrite Hcall. cbn [Z.eqb].
    rewrite (bind_Some _ _ _ _ _ (deref_dnode_Some _ _ (mk_world h1 (w_trace w)) Ht1)).
    unfold bind at 1.
    rewrite (vfs_assign_inode_run name (d_inode t1) h1 (w_trace w) n1 Hn1);
      [|eauto|rewrite Hfresh; intros; lia].
    rewrite Hfresh. cbn [Z.eqb].
    eexists. split; [reflexivity|]. cbn. unfold ptr in *.
    rewrite !lookup_alter_eq, Hn1, Hi1. split; reflexivity.
Qed.

(** X18.  [__vfs_do_unlink] refuses a dnode that is referenced more than
    once or whose inode is open with [EBUSY], and a directory with
    [EISDIR]; in each case the driver's [unlink] is not called and the
    store and the trace are as they were. *)
Theorem __vfs_do_unlink_refuses (dnode : ptr) (w : world) (d : v_dnode) (i : v_inode) :
  dnodes (w_heap w) !! dnode = Some d →
  inodes (w_heap w) !! d_inode d = Some i →
  (1 < d_ref_count d → __vfs_do_unlink dnode w = Some (EBUSY, w))
  ∧ (i_open_count i ≠ 0 → __vfs_do_unlink dnode w = Some (EBUSY, w))
  ∧ (d_ref_count d ≤ 1 → i_open_count i = 0 →
     has_flag (i_itype i) VFS_IFDIR = true →
     __vfs_do_unlink dnode w = Some (EISDIR, w)).
Proof.
  intros Hd Hi. unfold __vfs_do_unlink.
  rewrite (bind_Some _ _ _ _ _ (deref_dnode_Some _ _ _ Hd)).
  repeat apply conj.
  - intros Href. now replace (d_ref_count d >? 1) with true by lia.
  - intros Hopen. destruct (d_ref_count d >? 1); [reflexivity|].
    rewrite (bind_Some _ _ _ _ _ (deref_inode_Some _ _ _ Hi)).
    now replace (i_open_count i =? 0) with false by lia.
  - intros Href Hopen Hdir. replace (d_ref_count d >? 1) with false by lia.
    rewrite (bind_Some _ _ _ _ _ (deref_inode_Some _ _ _ Hi)).
    rewrite Hopen, Hdir. reflexivity.
Qed.

(** X19.  The exits of [vfs_do_rename] before the driver: two dnodes of
    one inode id are taken for hard links of each other and the rename
    reports success without doing anything; a dnode in use gives
    [EBUSY], two superblocks [EXDEV], a target with children
    [ENOTEMPTY].  The store and the trace are as they were in each
    case. *)
Theorem vfs_do_rename_refuses (current target : ptr) (w : world) (c t : v_dnode)
    (ci ti : v_inode) :
  dnodes (w_heap w) !! current = Some c →
  dnodes (w_heap w) !! target = Some t →
  inodes (w_heap w) !! d_inode c = Some ci →
  inodes (w_heap w) !! d_inode t = Some ti →
  (i_id ci = i_id ti → vfs_do_rename current target w = Some (0, w))
  ∧ (i_id ci ≠ i_id ti → 1 < d_ref_count c ∨ 1 < d_ref_count t →
     vfs_do_rename current target w = Some (EBUSY, w))
  ∧ (i_id ci ≠ i_id ti → d_ref_count c ≤ 1 → d_ref_count t ≤ 1 →
     d_super_block c ≠ d_super_block t →
     vfs_do_rename current target w = Some (EXDEV, w))
  ∧ (i_id ci ≠ i_id ti → d_ref_count c ≤ 1 → d_ref_count t ≤ 1 →
     d_super_block c = d_super_block t →
     d_children t ≠ [] →
     vfs_do_rename current target w = Some (ENOTEMPTY, w)).
Proof.
  intros Hc Ht Hci Hti. unfold vfs_do_rename.
  rewrite (bind_Some _ _ _ _ _ (deref_dnode_Some _ _ _ Hc)).
  rewrite (bind_Some _ _ _ _ _ (deref_dnode_Some _ _ _ Ht)).
  rewrite (bind_Some _ _ _ _ _ (deref_inode_Some _ _ _ Hci)).
  rewrite (bind_Some _ _ _ _ _ (deref_inode_Some _ _ _ Hti)).
  repeat apply conj.
  - intros Hid. now replace (i_id ci =? i_id ti) with true by lia.
  - intros Hid Hbusy. replace (i_id ci =? i_id ti) with false by lia.
    replace ((d_ref_count c >? 1) || (d_ref_count t >? 1)) with true; [reflexivity|].
    symmetry. apply orb_true_iff. destruct Hbusy; [left|right]; lia.
  - intros Hid Hrc Hrt Hsb. replace (i_id ci =? i_id ti) with false by lia.
    replace (d_ref_count c >? 1) with false by lia.
    replace (d_ref_count t >? 1) with false by lia. cbn [orb].
    now replace (d_super_block c =? d_super_block t) with false by lia.
  - intros Hid Hrc Hrt Hsb Hch. replace (i_id ci =? i_id ti) with false by lia.
    replace (d_ref_count c >? 1) with false by lia.
    replace (d_ref_count t >? 1) with false by lia. cbn [orb].
    replace (d_super_block c =? d_super_block t) with true by lia. cbn [negb].
    destruct (d_children t); [contradiction|reflexivity].
Qed.

(** X20.  [__vfs_do_chdir] refuses what is no directory with [ENOTDIR]:
    the store and the trace are as they were, but the mutex of the
    dnode, taken on entry, is still held at the return, since this exit
    lies behind [unlock_dnode].  Into a directory it moves the working
    directory and one reference with it, from the old working directory
    to the new, both in 32-bit arithmetic, and returns with no mutex
    held; changing into the working directory itself leaves the store
    as it was.  The busy counters of the mounts are no part of the
    store. *)
Theorem __vfs_do_chdir_outcome (dnode : ptr) (w : world) (d : v_dnode) (i : v_inode) :
  dnode ≠ 0 →
  dnodes (w_heap w) !! dnode = Some d →
  inodes (w_heap w) !! d_inode d = Some i →
  (has_flag (i_itype i) VFS_IFDIR = false →
   __vfs_do_chdir dnode w = Some ((ENOTDIR, [dnode]), w))
  ∧ (has_flag (i_itype i) VFS_IFDIR = true → cwd (w_heap w) = dnode →
     0 ≤ d_ref_count d < 2 ^ 32 →
     __vfs_do_chdir dnode w = Some ((0, []), w))
  ∧ (∀ old,
       has_flag (i_itype i) VFS_IFDIR = true →
       cwd (w_heap w) ≠ dnode →
       cwd (w_heap w) ≠ 0 →
       dnodes (w_heap w) !! cwd (w_heap w) = Some old →
       ∃ w',
         __vfs_do_chdir dnode w = Some ((0, []), w')
         ∧ w_trace w' = w_trace w
         ∧ cwd (w_heap w') = dnode
         ∧ d_ref_count <$> dnodes (w_heap w') !! dnode
           = Some (wrap32 (d_ref_count d + 1))
         ∧ d_ref_count <$> dnodes (w_heap w') !! cwd (w_heap w)
           = Some (wrap32 (d_ref_count old - 1))
         ∧ (0 ≤ d_ref_count d < 2 ^ 32 - 1 →
            d_ref_count <$> dnodes (w_heap w') !! dnode = Some (d_ref_count d + 1))
         ∧ (0 < d_ref_count old < 2 ^ 32 →
            d_ref_count <$> dnodes (w_heap w') !! cwd (w_heap w)
            = Some (d_ref_count old - 1))
         ∧ (d_ref_count old = 0 →
            d_ref_count <$> dnodes (w_heap w') !! cwd (w_heap w) = Some (2 ^ 32 - 1))).
Proof.
  intros Hne Hd Hi. destruct w as [h tr]. cbn [w_heap w_trace] in *.
  assert (Hunlock : unlock_dnode dnode (lock_dnode dnode []) = []).
  { unfold unlock_dnode, lock_dnode. cbn. now rewrite Z.eqb_refl. }
  unfold __vfs_do_chdir. rewrite Hunlock. cbv zeta. unfold lock_dnode.
  rewrite (bind_Some _ _ _ _ _ (deref_dnode_Some _ _ (mk_world h tr) Hd)).
  rewrite (bind_Some _ _ _ _ _ (deref_inode_Some _ _ (mk_world h tr) Hi)).
  repeat apply conj.
  - intros Hdir. now rewrite Hdir.
  - intros Hdir Hcwd Hrange. rewrite Hdir. cbn [negb].
    rewrite (bind_Some _ _ _ _ _ (get_heap_eq (mk_world h tr))). cbn [w_heap].
    rewrite Hcwd. replace (dnode =? 0) with false by lia. cbn [negb].
    step_update. step_update.
    unfold bind, modify_heap, ret. cbn [w_heap w_trace]. do 3 f_equal.
    destruct h. unfold set_cwd, set_dnodes. cbn in *. unfold ptr in *.
    rewrite Hcwd. f_equal.
    eapply alter_alter_id; [exact Hd|].
    destruct d. unfold dnode_with_ref_count. cbn in *. f_equal.
    unfold wrap32. rewrite Zplus_mod_idemp_l.
    replace (d_ref_count0 - 1 + 1) with d_ref_count0 by lia.
    now apply Z.mod_small.
  - intros old Hdir Hcwd Hcwd0 Hold. rewrite Hdir. cbn [negb].
    rewrite (bind_Some _ _ _ _ _ (get_heap_eq (mk_world h tr))). cbn [w_heap].
    replace (cwd h =? 0) with false by lia. cbn [negb].
    step_update. step_update.
    unfold bind, modify_heap, ret. cbn [w_heap w_trace].
    eexists. split; [reflexivity|]. cbn. unfold ptr in *.
    rewrite lookup_alter_eq, lookup_alter_ne, Hd by congruence.
    rewrite lookup_alter_ne, lookup_alter_eq, Hold by congruence.
    cbn. repeat apply conj; try reflexivity.
    + intros Hr. unfold wrap32. now rewrite Z.mod_small by lia.
    + intros Hr. unfold wrap32. now rewrite Z.mod_small by lia.
    + intros ->. reflexivity.
Qed.


(** ** Paths from dnodes *)

Lemma wrap32_small (x : Z) : 0 ≤ x < 2 ^ 32 → wrap32 x = x.
Proof. intros H. unfold wrap32. now apply Z.mod_small. Qed.

Lemma to_int_small (x : Z) : 0 ≤ x < 2 ^ 31 → to_int x = x.
Proof.
  intros H. unfold to_int. rewrite wrap32_small by lia.
  destruct (x <? 2 ^ 31) eqn:E; lia.
Qed.

Lemma wrap32_negative (x : Z) : - 2 ^ 31 ≤ x < 0 → wrap32 x = x + 2 ^ 32.
Proof.
  intros H. unfold wrap32. symmetry. apply Z.mod_unique_pos with (q := -1); lia.
Qed.

Lemma to_int_wrap32_negative (x : Z) : - 2 ^ 31 ≤ x < 0 → to_int (wrap32 x) = x.
Proof.
  intros H. unfold to_int. rewrite (wrap32_negative x H).
  rewrite wrap32_small by lia.
  destruct (x + 2 ^ 32 <? 2 ^ 31) eqn:E; lia.
Qed.

Lemma mem_write_outside (m : mem) (off : Z) (data : string) (i : Z) :
  i < off ∨ off + str_len data ≤ i → mem_write m off data i = m i.
Proof.
  intros H. unfold mem_write, str_len in *.
  destruct ((off <=? i) && (i <? off + Z.of_nat (String.length data))) eqn:E;
    [|reflexivity].
  apply andb_true_iff in E. lia.
Qed.

Lemma strncpy_length (n : nat) : ∀ s, String.length (strncpy s n) = n.
Proof.
  induction n as [|n IH]; intros s; [reflexivity|].
  simpl. destruct s as [|c s]; simpl; [now rewrite IH|].
  destruct (Ascii.eqb c NUL); simpl; now rewrite IH.
Qed.

(** What one level of [vfs_get_path] returns and where it writes. *)
Lemma get_path_at_bounds (h : heap) (buf : mem) (size : Z) (n : nat) :
  - 2 ^ 31 ≤ ELOOP < 0 →
  0 ≤ size < 2 ^ 31 →
  ∀ dnode r buf',
    get_path_at n h dnode buf size = Some (r, buf') →
    (r = ELOOP ∧ buf' = buf)
    ∨ (0 ≤ r ≤ size ∧ ∀ i, i < 0 ∨ r ≤ i → buf' i = buf i).
Proof.
  intros Hloop Hsize. induction n as [|n IH]; intros dnode r buf'; cbn [get_path_at].
  - destruct (dnode =? 0); intros [= <- <-]; [right|left]; auto with lia.
  - destruct (dnode =? 0); [intros [= <- <-]; right; auto with lia|].
    destruct (dnodes h !! dnode) as [d|]; [|discriminate]. cbn [mbind option_bind].
    destruct (get_path_at n h (d_parent d) buf size) as [[r1 b1]|] eqn:Hrec;
      [|discriminate].
    cbn [mbind option_bind fst snd].
    destruct (IH _ _ _ Hrec) as [[-> ->]|[Hr1 Hb1]].
    + rewrite (wrap32_negative ELOOP Hloop).
      replace (ELOOP + 2 ^ 32 >=? size) with true by lia.
      rewrite <- (wrap32_negative ELOOP Hloop), (to_int_wrap32_negative ELOOP Hloop).
      intros [= <- <-]. now left.
    + rewrite (wrap32_small r1) by lia.
      destruct (r1 >=? size) eqn:E1.
      { rewrite to_int_small by lia. intros [= <- <-]. right. auto. }
      set (cpy := Z.min (wrap32 (len (d_name d))) (size - r1)).
      assert (Hcpy : 0 ≤ cpy ≤ size - r1).
      { subst cpy. unfold wrap32.
        pose proof (Z.mod_pos_bound (len (d_name d)) (2 ^ 32) ltac:(lia)). lia. }
      assert (Hlen : str_len (strncpy (value (d_name d)) (Z.to_nat cpy)) = cpy).
      { unfold str_len. rewrite strncpy_length. lia. }
      destruct (r1 + cpy <? size) eqn:E2.
      * rewrite wrap32_small, to_int_small by lia. intros [= <- <-]. right.
        split; [lia|]. intros i Hi.
        rewrite mem_write_outside by (change (str_len (String PATH_DELIM "")) with 1; lia).
        rewrite mem_write_outside by (rewrite Hlen; lia).
        apply Hb1. lia.
      * rewrite to_int_small by lia. intros [= <- <-]. right.
        split; [lia|]. intros i Hi.
        rewrite mem_write_outside by (rewrite Hlen; lia).
        apply Hb1. lia.
Qed.

(** X21.  [vfs_get_path] stays inside the buffer: its result is [ELOOP]
    or a length between 0 and [size], and it writes below that length
    only; the bytes from the returned length on, those before the buffer
    and those behind it are as they were.  With [ELOOP] nothing at all
    has been written. *)
Theorem vfs_get_path_bounds (h : heap) (dnode : ptr) (buf buf' : mem) (size depth r : Z) :
  - 2 ^ 31 ≤ ELOOP < 0 →
  0 ≤ size < 2 ^ 31 →
  vfs_get_path h dnode buf size depth = Some (r, buf') →
  (r = ELOOP ∧ buf' = buf)
  ∨ (0 ≤ r ≤ size ∧ ∀ i, i < 0 ∨ r ≤ i → buf' i = buf i).
Proof. intros Hloop Hsize. unfold vfs_get_path. now apply get_path_at_bounds. Qed.

Lemma get_path_at_deep (h : heap) (buf : mem) (size : Z) (n : nat) :
  - 2 ^ 31 ≤ ELOOP < 0 →
  0 ≤ size < 2 ^ 31 →
  ∀ dnode p,
    ancestor h n dnode = Some p →
    p ≠ 0 →
    get_path_at n h dnode buf size = Some (ELOOP, buf).
Proof.
  intros Hloop Hsize. induction n as [|n IH]; intros dnode p; cbn [ancestor get_path_at].
  - intros [= <-] Hp. now replace (dnode =? 0) with false by lia.
  - destruct (dnode =? 0); [intros [= <-]; contradiction|].
    destruct (dnodes h !! dnode) as [d|]; [|discriminate]. cbn [mbind option_bind].
    intros Hanc Hp. rewrite (IH _ _ Hanc Hp). cbn [mbind option_bind fst snd].
    rewrite (wrap32_negative ELOOP Hloop).
    replace (ELOOP + 2 ^ 32 >=? size) with true by lia.
    rewrite <- (wrap32_negative ELOOP Hloop), (to_int_wrap32_negative ELOOP Hloop).
    reflexivity.
Qed.

(** X22.  The parent links are followed for at most 65 levels: from a
    dnode that still has a dnode 65 parent links up, and so from every
    dnode on a cycle of parent links, [vfs_get_path] returns [ELOOP] and
    leaves the buffer as it was. *)
Theorem vfs_get_path_deep (h : heap) (dnode p : ptr) (buf : mem) (size : Z) :
  - 2 ^ 31 ≤ ELOOP < 0 →
  0 ≤ size < 2 ^ 31 →
  ancestor h 65 dnode = Some p →
  p ≠ 0 →
  vfs_get_path h dnode buf size 0 = Some (ELOOP, buf).
Proof.
  intros Hloop Hsize Hanc Hp. unfold vfs_get_path.
  change (Z.to_nat (65 - 0)) with 65%nat. eapply get_path_at_deep; eassumption.
Qed.

Lemma str_len_append (s t : string) : str_len (String.append s t) = str_len s + str_len t.
Proof.
  unfold str_len. induction s as [|c s IH]; rewrite ?append_nil_l, ?append_cons.
  - simpl. lia.
  - simpl String.length. lia.
Qed.

Lemma append_assoc (s t u : string) :
  String.append (String.append s t) u = String.append s (String.append t u).
Proof.
  induction s as [|c s IH]; rewrite ?append_nil_l, ?append_cons; [reflexivity|].
  now rewrite IH.
Qed.

Lemma append_nil_r (s : string) : String.append s EmptyString = s.
Proof.
  induction s as [|c s IH]; rewrite ?append_nil_l, ?append_cons; [reflexivity|].
  now rewrite IH.
Qed.

Lemma path_of_app (a b : list string) :
  path_of (a ++ b)%list = String.append (path_of a) (path_of b).
Proof.
  induction a as [|s a IH]; simpl; [now rewrite append_nil_l|].
  rewrite IH. now rewrite append_assoc, append_cons.
Qed.

Lemma strncpy_exact (s : string) :
  no_nul s = true → strncpy s (String.length s) = s.
Proof.
  induction s as [|c s IH]; simpl; [reflexivity|].
  intros H. apply andb_true_iff in H as [Hc Hs]. apply negb_true_iff in Hc.
  rewrite Hc. now rewrite IH.
Qed.

Lemma mem_write_ext (m m' : mem) (off : Z) (data : string) (i : Z) :
  m i = m' i → mem_write m off data i = mem_write m' off data i.
Proof. intros H. unfold mem_write. now rewrite H. Qed.

Lemma mem_write_app (m : mem) (off : Z) (s t : string) (i : Z) :
  mem_write (mem_write m off s) (off + str_len s) t i
  = mem_write m off (String.append s t) i.
Proof.
  unfold mem_write. fold (str_len t) (str_len s) (str_len (String.append s t)).
  rewrite str_len_append.
  pose proof (str_len_nonneg s). pose proof (str_len_nonneg t).
  destruct ((off + str_len s <=? i) && (i <? off + str_len s + str_len t)) eqn:E1.
  - apply andb_true_iff in E1.
    replace ((off <=? i) && (i <? off + (str_len s + str_len t))) with true
      by (symmetry; apply andb_true_iff; lia).
    f_equal.
    replace (Z.to_nat (i - off))
      with (Z.to_nat (i - (off + str_len s)) + String.length s)%nat
      by (unfold str_len in *; lia).
    apply append_correct2.
  - apply andb_false_iff in E1.
    destruct ((off <=? i) && (i <? off + str_len s)) eqn:E2.
    + apply andb_true_iff in E2.
      replace ((off <=? i) && (i <? off + (str_len s + str_len t))) with true
        by (symmetry; apply andb_true_iff; lia).
      f_equal. apply append_correct1. unfold str_len in *. lia.
    + apply andb_false_iff in E2.
      replace ((off <=? i) && (i <? off + (str_len s + str_len t))) with false;
        [reflexivity|].
      symmetry. apply andb_false_iff. lia.
Qed.

Lemma get_path_at_content (h : heap) (buf : mem) (size : Z) (n : nat) :
  0 ≤ size < 2 ^ 31 →
  ∀ dnode chain,
    chain_to n h dnode = Some chain →
    forallb hstr_wf chain = true →
    str_len (path_of (map value chain)) ≤ size →
    ∃ buf',
      get_path_at n h dnode buf size = Some (str_len (path_of (map value chain)), buf')
      ∧ ∀ i, buf' i = mem_write buf 0 (path_of (map value chain)) i.
Proof.
  intros Hsize. induction n as [|n IH]; intros dnode chain; cbn [chain_to get_path_at].
  - destruct (dnode =? 0); [|discriminate]. intros [= <-] _ _.
    exists buf. split; [reflexivity|]. intros i. symmetry. apply mem_write_outside.
    change (str_len (path_of (map value []))) with 0. lia.
  - destruct (dnode =? 0).
    { intros [= <-] _ _. exists buf. split; [reflexivity|]. intros i. symmetry.
      apply mem_write_outside. change (str_len (path_of (map value []))) with 0. lia. }
    destruct (dnodes h !! dnode) as [d|]; [|discriminate]. cbn [mbind option_bind].
    destruct (chain_to n h (d_parent d)) as [up|] eqn:Hup; [|discriminate].
    cbn [mbind option_bind]. intros [= <-] Hwf Hfit.
    rewrite forallb_app in Hwf. apply andb_true_iff in Hwf as [Hwf_up Hwf_d].
    simpl in Hwf_d. rewrite andb_true_r in Hwf_d.
    unfold hstr_wf in Hwf_d. apply andb_true_iff in Hwf_d as [Hlen Hnul].
    rewrite map_app, path_of_app in Hfit |- *. cbn [map path_of] in Hfit |- *.
    rewrite !str_len_append in Hfit |- *.
    change (str_len (String PATH_DELIM EmptyString)) with 1 in Hfit |- *.
    pose proof (str_len_nonneg (path_of (map value up))) as Hup0.
    pose proof (str_len_nonneg (value (d_name d))) as Hd0.
    destruct (IH _ _ Hup Hwf_up ltac:(lia)) as (b1 & Hrec & Hb1).
    rewrite Hrec. cbn [mbind option_bind fst snd].
    set (L1 := str_len (path_of (map value up))) in *.
    rewrite (wrap32_small L1) by lia.
    replace (L1 >=? size) with false by lia.
    assert (Hl : len (d_name d) = str_len (value (d_name d))) by lia.
    rewrite Hl. rewrite (wrap32_small (str_len (value (d_name d)))) by lia.
    rewrite Z.min_l by lia.
    replace (Z.to_nat (str_len (value (d_name d))))
      with (String.length (value (d_name d))) by (unfold str_len; lia).
    rewrite (strncpy_exact _ Hnul).
    replace (L1 + str_len (value (d_name d)) <? size) with true by lia.
    rewrite wrap32_small, to_int_small by lia.
    eexists. split; [f_equal; f_equal; lia|].
    intros i.
    rewrite <- (Z.add_0_l L1) at 2.
    rewrite <- (mem_write_app buf 0 (path_of (map value up))).
    fold L1. rewrite Z.add_0_l.
    rewrite <- (mem_write_app _ L1 (value (d_name d)) (String PATH_DELIM EmptyString)).
    apply mem_write_ext. apply mem_write_ext. apply Hb1.
Qed.

(** X23.  Where the chain of parents ends within 65 levels and its
    names fit, [vfs_get_path] writes the names from the root down, each
    followed by a [/], from the start of the buffer, and returns the
    number of bytes written.  No terminator is written, and the rest of
    the buffer keeps its content. *)
Theorem vfs_get_path_content (h : heap) (dnode : ptr) (buf : mem) (size : Z)
    (chain : list hstr) :
  0 ≤ size < 2 ^ 31 →
  chain_to 65 h dnode = Some chain →
  forallb hstr_wf chain = true →
  str_len (path_of (map value chain)) ≤ size →
  ∃ buf',
    vfs_get_path h dnode buf size 0 = Some (str_len (path_of (map value chain)), buf')
    ∧ ∀ i, buf' i = mem_write buf 0 (path_of (map value chain)) i.
Proof.
  intros Hsize Hchain Hwf Hfit. unfold vfs_get_path.
  change (Z.to_nat (65 - 0)) with 65%nat. now apply get_path_at_content.
Qed.


(** [getcwd] on a working directory whose path fits. *)
Lemma sys_getcwd_run (h : heap) (buf : mem) (size : Z) (chain : list hstr) :
  2 ≤ size < 2 ^ 31 →
  cwd h ≠ 0 →
  chain_to 65 h (cwd h) = Some chain →
  forallb hstr_wf chain = true →
  str_len (path_of (map value chain)) < size →
  ∃ b1,
    sys_getcwd h buf size
    = Some (0, true,
            mem_write b1 (str_len (path_of (map value chain)) + 1) (String NUL EmptyString))
    ∧ ∀ i, b1 i = mem_write buf 0 (path_of (map value chain)) i.
Proof.
  intros Hsize Hcwd Hchain Hwf Hfit.
  pose proof (str_len_nonneg (path_of (map value chain))) as H0.
  destruct (get_path_at_content h buf size 65 ltac:(lia) (cwd h) chain Hchain Hwf ltac:(lia))
    as (b1 & Hrun & Hb1).
  exists b1. split; [|exact Hb1].
  unfold sys_getcwd, vfs_get_path. change (Z.to_nat (65 - 0)) with 65%nat.
  replace (size <? 2) with false by lia.
  replace (cwd h =? 0) with false by lia.
  rewrite Hrun. cbn [mbind option_bind fst snd].
  rewrite wrap32_small by lia.
  replace (str_len (path_of (map value chain)) =? size) with false by lia.
  rewrite wrap32_small by lia. reflexivity.
Qed.

(** X24.  [getcwd] puts its terminator one byte too far.  Where the
    path of the working directory takes [n] bytes and [n < size], the
    call succeeds with the path in the first [n] bytes of the buffer and
    the terminator at index [n + 1]: the byte at index [n] is not
    written and keeps what the caller had there, and for [n = size - 1]
    the terminator lands at index [size], behind the buffer. *)
Theorem sys_getcwd_terminator (h : heap) (buf : mem) (size : Z) (chain : list hstr) :
  2 ≤ size < 2 ^ 31 →
  cwd h ≠ 0 →
  chain_to 65 h (cwd h) = Some chain →
  forallb hstr_wf chain = true →
  str_len (path_of (map value chain)) < size →
  let n := str_len (path_of (map value chain)) in
  ∃ buf',
    sys_getcwd h buf size = Some (0, true, buf')
    ∧ (∀ i, 0 ≤ i < n → buf' i = mem_write buf 0 (path_of (map value chain)) i)
    ∧ buf' n = buf n
    ∧ buf' (n + 1) = NUL
    ∧ (∀ i, i < 0 ∨ n + 1 < i → buf' i = buf i).
Proof.
  intros Hsize Hcwd Hchain Hwf Hfit n.
  destruct (sys_getcwd_run h buf size chain Hsize Hcwd Hchain Hwf Hfit) as (b1 & Hrun & Hb1).
  pose proof (str_len_nonneg (path_of (map value chain))) as H0. fold n in Hrun, H0.
  eexists. split; [exact Hrun|].
  change (str_len (path_of (map value chain))) with n.
  repeat apply conj.
  - intros i Hi. rewrite mem_write_outside
      by (change (str_len (String NUL EmptyString)) with 1; lia).
    apply Hb1.
  - rewrite mem_write_outside by (change (str_len (String NUL EmptyString)) with 1; lia).
    rewrite Hb1. apply mem_write_outside. fold n. lia.
  - unfold mem_write. change (Z.of_nat (String.length (String NUL EmptyString))) with 1.
    replace ((n + 1 <=? n + 1) && (n + 1 <? n + 1 + 1)) with true
      by (symmetry; apply andb_true_iff; lia).
    replace (n + 1 - (n + 1)) with 0 by lia. reflexivity.
  - intros i Hi. rewrite mem_write_outside
      by (change (str_len (String NUL EmptyString)) with 1; lia).
    rewrite Hb1. apply mem_write_outside. fold n. lia.
Qed.

(** ** What a walk hands back *)

Lemma returns_ret {A} (P : A → Prop) (a : A) : P a → returns P (ret a).
Proof. intros H w a' w' [= <- <-]. exact H. Qed.

Lemma returns_bind {A B} (Q : A → Prop) (P : B → Prop) (m : M A) (k : A → M B) :
  returns Q m → (∀ a, Q a → returns P (k a)) → returns P (bind m k).
Proof.
  intros Hm Hk w b w'. unfold bind.
  destruct (m w) as [[a w1]|] eqn:E; [|discriminate].
  intros H. exact (Hk a (Hm _ _ _ E) _ _ _ H).
Qed.

Lemma returns_any {A} (m : M A) : returns (λ _, True) m.
Proof. intros w a w' _. exact I. Qed.

Lemma returns_fault {A} (P : A → Prop) : returns P fault.
Proof. intros w a w'. discriminate. Qed.

(** Sequencing behind a computation of which nothing is known. *)
Lemma returns_then {A B} (P : B → Prop) (m : M A) (k : A → M B) :
  (∀ a, returns P (k a)) → returns P (bind m k).
Proof. intros Hk. apply (returns_bind (λ _, True)); [apply returns_any|auto]. Qed.

Lemma walk_error_ok (opts : Z) (hc : bool) (e : Z) : walk_result_ok opts hc (walk_error e).
Proof.
  unfold walk_result_ok, walk_error. cbn.
  split; [intros _; eauto|]. split; [intros _; now right|].
  intros [x Hx]. discriminate.
Qed.

Lemma walk_done_ok (opts : Z) (hc : bool) (p : ptr) : walk_result_ok opts hc (walk_done p).
Proof.
  unfold walk_result_ok, walk_done. cbn.
  split; [intros _; eauto|]. split; [intros H; now contradiction H|].
  intros [x Hx]. discriminate.
Qed.

Lemma walk_return_ok (opts : Z) (hc : bool) (e : Z) :
  e ≠ 0 → walk_result_ok opts hc (mk_walk_result e None None).
Proof.
  intros He. unfold walk_result_ok. cbn.
  split; [intros H; now contradiction He|]. split; [intros _; now left|].
  intros [x Hx]. discriminate.
Qed.

Lemma walk_symlink_returns rec (cl ci : ptr) :
  returns (λ s, match s with inl r => ∃ e, r = walk_error e | inr _ => True end)
    (walk_symlink rec cl ci).
Proof.
  unfold walk_symlink.
  apply returns_then. intros i.
  destruct (has_flag (i_itype i) VFS_IFSYMLINK); [|now apply returns_ret].
  apply returns_then. intros r.
  destruct (negb (fst r =? 0)); [apply returns_ret; eauto|].
  apply returns_then. intros d. apply returns_then. intros res.
  destruct (negb (wr_errno res =? 0)); [apply returns_ret; eauto|].
  repeat (apply returns_then; intros ?). now apply returns_ret.
Qed.

Lemma walk_lookup_returns (opts : Z) (cl ci : ptr) (name : hstr) :
  returns (λ s, match s with inl r => ∃ e, r = walk_error e | inr _ => True end)
    (walk_lookup opts cl ci name).
Proof.
  unfold walk_lookup.
  apply returns_then. intros _. apply returns_then. intros h.
  apply returns_then. intros dnode.
  destruct (dnode =? 0); [|now apply returns_ret].
  apply returns_then. intros dnode'.
  destruct (dnode' =? 0); [apply returns_ret; eauto|].
  repeat (apply returns_then; intros ?).
  match goal with |- returns _ (if ?b then _ else _) => destruct b end.
  - apply returns_then. intros _. apply returns_ret. eauto.
  - now apply returns_ret.
Qed.

Lemma walk_component_returns rec (opts : Z) (hc : bool) (la : ascii) (cl : ptr)
    (buf : string) (k : ptr → M walk_result) :
  (∀ d, returns (walk_result_ok opts hc) (k d)) →
  returns (walk_result_ok opts hc) (walk_component rec opts hc la cl buf k).
Proof.
  intros Hk. unfold walk_component.
  destruct (Ascii.eqb la NUL && has_flag opts VFS_WALK_PARENT) eqn:E.
  - apply returns_ret. apply andb_true_iff in E as [_ Hf].
    unfold walk_result_ok. cbn.
    split; [intros _; eauto|]. split; [intros H; now contradiction H|].
    destruct hc; [auto|]. intros [x Hx]. discriminate.
  - apply returns_then. intros d.
    eapply returns_bind; [apply walk_symlink_returns|].
    intros [r|[cl' ci]] Hs.
    + destruct Hs as [e ->]. apply returns_ret. apply walk_error_ok.
    + eapply returns_bind; [apply walk_lookup_returns|].
      intros [r|dnode] Hl.
      * destruct Hl as [e ->]. apply returns_ret. apply walk_error_ok.
      * apply Hk.
Qed.

Lemma walk_scan_return (c la : ascii) (buf : string) (e : Z) :
  walk_scan c la buf = ScanReturn e → e = ENAMETOOLONG ∨ e = EINVAL.
Proof.
  unfold walk_scan.
  destruct (negb (Ascii.eqb c PATH_DELIM)).
  - destruct (str_len buf >=? VFS_NAME_MAXLEN - 1); [intros [= <-]; now left|].
    destruct (negb (VFS_VALID_CHAR c)); [intros [= <-]; now right|].
    destruct (negb (Ascii.eqb la NUL)); [discriminate|].
    destruct (Ascii.eqb la PATH_DELIM); discriminate.
  - destruct (Ascii.eqb la PATH_DELIM); discriminate.
Qed.

Lemma walk_loop_returns rec (opts : Z) (hc : bool) (rest : string) :
  ENAMETOOLONG ≠ 0 →
  EINVAL ≠ 0 →
  ∀ c buf cl, returns (walk_result_ok opts hc) (walk_loop rec opts hc c rest buf cl).
Proof.
  intros Hlong Hinval. induction rest as [|c' rest IH]; intros c buf cl;
    rewrite walk_loop_unfold.
  - destruct (Ascii.eqb c NUL || (cl =? 0)); [apply returns_ret, walk_done_ok|].
    cbv zeta. destruct (walk_scan c NUL buf) as [e|buf'|buf'] eqn:Hscan.
    + apply returns_ret, walk_return_ok.
      destruct (walk_scan_return _ _ _ _ Hscan) as [-> | ->]; assumption.
    + apply returns_ret, walk_done_ok.
    + apply walk_component_returns. intros d. apply returns_ret, walk_done_ok.
  - destruct (Ascii.eqb c NUL || (cl =? 0)); [apply returns_ret, walk_done_ok|].
    cbv zeta. destruct (walk_scan c c' buf) as [e|buf'|buf'] eqn:Hscan.
    + apply returns_ret, walk_return_ok.
      destruct (walk_scan_return _ _ _ _ Hscan) as [-> | ->]; assumption.
    + apply IH.
    + apply walk_component_returns. intros d. apply IH.
Qed.

Lemma walk_at_returns (n : nat) (start : ptr) (path : string) (hc : bool) (opts : Z) :
  ENAMETOOLONG ≠ 0 →
  EINVAL ≠ 0 →
  returns (walk_result_ok opts hc) (walk_at n start path hc opts).
Proof.
  intros Hlong Hinval. destruct n as [|n]; cbn [walk_at].
  - apply returns_ret. now apply walk_return_ok.
  - apply returns_then. intros [start' [|c rest]]; cbn [fst snd];
      now apply walk_loop_returns.
Qed.

(** X25.  What a walk hands back is one of three things.  Status 0
    comes with a written [*dentry].  A status other than 0 comes with no
    dnode: [*dentry] is NULL, or, on the early returns for an overlong
    or illegal name and for too deep a nesting, not written.  And
    [component] is filled only by a walk with [VFS_WALK_PARENT] that
    ends in status 0. *)
Theorem vfs_walk_result (start : ptr) (path : string) (hc : bool) (opts : Z)
    (w w' : world) (r : walk_result) :
  ENAMETOOLONG ≠ 0 →
  EINVAL ≠ 0 →
  vfs_walk start path hc opts w = Some (r, w') →
  (wr_errno r = 0 → is_Some (wr_dentry r))
  ∧ (wr_errno r ≠ 0 → wr_dentry r = None ∨ wr_dentry r = Some NULL)
  ∧ (is_Some (wr_component r) →
     hc = true ∧ wr_errno r = 0 ∧ has_flag opts VFS_WALK_PARENT = true).
Proof.
  intros Hlong Hinval Hrun.
  exact (walk_at_returns _ start path hc opts Hlong Hinval w r w' Hrun).
Qed.

(** A failed [__vfs_try_locate_file] hands no file back. *)
Lemma __vfs_try_locate_file_returns (name_str path : string) (options : Z) :
  ENAMETOOLONG ≠ 0 →
  EINVAL ≠ 0 →
  ENOENT ≠ 0 →
  returns (λ l, fst (fst l) ≠ 0 → snd l = None ∨ snd l = Some NULL)
    (__vfs_try_locate_file name_str path options).
Proof.
  intros Hlong Hinval Hnoent. unfold __vfs_try_locate_file.
  apply returns_then. intros h. apply returns_then. intros r.
  destruct (negb (wr_errno r =? 0)); [apply returns_ret; cbn; auto|].
  apply returns_then. intros fdir.
  eapply returns_bind; [apply (walk_at_returns _ fdir _ false 0 Hlong Hinval)|].
  intros r2 (_ & Hfail & _).
  destruct (negb (wr_errno r2 =? ENOENT) || negb (has_flag options FLOCATE_CREATE_EMPTY))
    eqn:E.
  { apply returns_ret. cbn. exact Hfail. }
  apply orb_false_iff in E as [E _]. apply negb_false_iff in E.
  assert (Hr2 : wr_errno r2 ≠ 0) by lia.
  apply returns_then. intros file_new.
  destruct (file_new =? 0); [apply returns_ret; cbn; auto|].
  repeat (apply returns_then; intros ?).
  match goal with |- returns _ (if ?b then _ else _) => destruct b eqn:Eerr end.
  - apply returns_then. intros _. apply returns_ret. cbn. lia.
  - apply returns_then. intros _. apply returns_ret. cbn. auto.
Qed.

(** X26.  [link] never links.  Let the local [name_file] hold NULL where
    it is left unwritten.  If [oldpath] cannot be located, [link] ends
    in that failure.  Otherwise [newpath] is located with
    [FLOCATE_CREATE_EMPTY]: a success, be it that the name existed or
    that it has just been created, is turned into [EEXIST], and after a
    failure there is no dnode to link.  So the status is never 0, and
    the store is the one the two lookups left; [vfs_link] is not
    reached. *)
Theorem sys_link_never_links (name_str oldpath newpath : string) (w w' : world)
    (result : sysret) :
  EEXIST ≠ 0 →
  ENAMETOOLONG ≠ 0 →
  EINVAL ≠ 0 →
  ENOENT ≠ 0 →
  sys_link NULL name_str oldpath newpath w = Some (result, w') →
  ∃ errno l w1,
    result = DO_STATUS errno
    ∧ errno ≠ 0
    ∧ __vfs_try_locate_file name_str oldpath 0 w = Some (l, w1)
    ∧ (fst (fst l) ≠ 0 → errno = fst (fst l) ∧ w' = w1)
    ∧ (fst (fst l) = 0 →
       ∃ l2, __vfs_try_locate_file name_str newpath FLOCATE_CREATE_EMPTY w1 = Some (l2, w')
             ∧ errno = if fst (fst l2) =? 0 then EEXIST else fst (fst l2)).
Proof.
  intros Hexist Hlong Hinval Hnoent. unfold sys_link. unfold bind at 1.
  destruct (__vfs_try_locate_file name_str oldpath 0 w) as [[l w1]|] eqn:Hl;
    [|discriminate].
  destruct (fst (fst l) =? 0) eqn:E1.
  - unfold bind at 1.
    destruct (__vfs_try_locate_file name_str newpath FLOCATE_CREATE_EMPTY w1)
      as [[l2 w2]|] eqn:Hl2; [|discriminate].
    destruct (fst (fst l2) =? 0) eqn:E2.
    + intros [= <- <-]. exists EEXIST, l, w1.
      repeat split; try assumption; try lia.
      intros _. exists l2. split; [exact Hl2|]. now rewrite E2.
    + pose proof (__vfs_try_locate_file_returns name_str newpath FLOCATE_CREATE_EMPTY
                    Hlong Hinval Hnoent w1 l2 w2 Hl2 ltac:(lia)) as Hfile.
      assert (Hnull : default NULL (snd l2) = 0) by (destruct Hfile as [-> | ->]; reflexivity).
      rewrite Hnull. cbn [Z.eqb negb].
      intros [= <- <-]. exists (fst (fst l2)), l, w1.
      repeat split; try assumption; try lia.
      intros _. exists l2. split; [exact Hl2|]. now rewrite E2.
  - intros [= <- <-]. exists (fst (fst l)), l, w1.
    repeat split; try assumption; try lia.
Qed.


(** ** Opening and closing *)

(** X27.  [vfs_open] and [vfs_close].  Under a driver whose [open] and
    [close] succeed without touching the store, [vfs_open] creates the
    file object at position 0 with one reference and counts one more
    reference on the dnode and one more opening on the inode;
    [vfs_close] of that file takes both back and releases the file, so
    that the store of dnodes, inodes, files and descriptors is again the
    one before the [vfs_open].  A failing [open] of the driver releases
    the file object at once.  The page cache stands apart from this:
    before the driver's [open] is called, a regular file whose inode has
    no page cache is given a fresh one with the inode as its master, and
    neither the release after a failing [open] nor [vfs_close], which
    has no access to the page caches, takes it off again.  Any other
    inode leaves the page caches as they are, and so does a second
    [vfs_open]. *)
Theorem vfs_open_close (dnode : ptr) (w : world) (pc pc' : pcaches) (d : v_dnode)
    (i : v_inode) (open : ptr → ptr → heap → Z * heap) (vfile : ptr) (errno : Z) :
  dnodes (w_heap w) !! dnode = Some d →
  d_inode d ≠ 0 →
  inodes (w_heap w) !! d_inode d = Some i →
  ops_open (i_ops i) = Some open →
  cake_grab_file (w_heap w) = (vfile, w_heap w) →
  vfile ≠ 0 →
  files (w_heap w) !! vfile = None →
  attach_pg_cache i (d_inode d) pc = Some pc' →
  (∀ h, open (d_inode d) vfile h = (errno, h)) →
  (errno ≠ 0 → vfs_open dnode pc w = Some ((errno, None, pc'), w))
  ∧ (∀ close,
       errno = 0 →
       fops_close (default_fops i) = Some close →
       (∀ h, close vfile h = (0, h)) →
       ∃ w1,
         vfs_open dnode pc w = Some ((0, Some vfile, pc'), w1)
         ∧ files (w_heap w1) !! vfile
           = Some (mk_file dnode (d_inode d) 0 1 (default_fops i))
         ∧ d_ref_count <$> dnodes (w_heap w1) !! dnode = Some (d_ref_count d + 1)
         ∧ i_open_count <$> inodes (w_heap w1) !! d_inode d = Some (i_open_count i + 1)
         ∧ vfs_close vfile w1
           = Some (0, mk_world (w_heap w) (w_trace w ++ [EvClose vfile])))
  ∧ (has_flag (i_itype i) VFS_IFFILE = true →
     default 0 (pg_cache pc !! d_inode d) = 0 →
     vzalloc_pcache pc ≠ 0
     ∧ pg_cache pc' = <[d_inode d := vzalloc_pcache pc]> (pg_cache pc)
     ∧ master pc' = <[vzalloc_pcache pc := d_inode d]> (master pc)
     ∧ pc' ≠ pc)
  ∧ (has_flag (i_itype i) VFS_IFFILE = false ∨ default 0 (pg_cache pc !! d_inode d) ≠ 0 →
     pc' = pc)
  ∧ attach_pg_cache i (d_inode d) pc' = Some pc'.
Proof.
  intros Hd Hino Hi Hops Hgrab Hnull Hfree Hattach Hopen.
  destruct w as [h tr]. cbn [w_heap w_trace] in *.
  set (file := mk_file dnode (d_inode d) 0 1 (default_fops i)).
  assert (Hhead : vfs_open dnode pc (mk_world h tr) =
    (if negb (errno =? 0) then
       modify_heap (set_files (delete vfile)) ;; ret (errno, None, pc')
     else
       update_dnode dnode (λ d, dnode_with_ref_count (d_ref_count d + 1) d) ;;
       update_inode (d_inode d) (λ i, inode_with_open_count (i_open_count i + 1) i) ;;
       ret (errno, Some vfile, pc')) (mk_world (set_files <[vfile := file]> h) tr)).
  { unfold vfs_open.
    rewrite (bind_Some _ _ _ _ _ (deref_dnode_Some _ _ (mk_world h tr) Hd)).
    replace (d_inode d =? 0) with false by lia.
    rewrite (bind_Some _ _ _ _ _ (deref_inode_Some _ _ (mk_world h tr) Hi)).
    rewrite Hops.
    unfold bind at 1, call_plain at 1. cbn [w_heap w_trace]. rewrite Hgrab.
    replace (vfile =? 0) with false by lia.
    unfold bind at 1, modify_heap at 1. cbn [w_heap w_trace].
    rewrite Hattach. unfold bind at 1, of_option at 1, ret at 1.
    unfold bind at 1, call_plain at 1. cbn [w_heap w_trace]. rewrite Hopen.
    reflexivity. }
  rewrite Hhead. split; [|split; [|split; [|split]]].
  - intros Herr. replace (errno =? 0) with false by lia. cbn [negb].
    unfold bind, modify_heap, ret. cbn [w_heap w_trace]. do 3 f_equal.
    destruct h. unfold set_files. cbn in *. f_equal. unfold ptr in *.
    now apply delete_insert_id.
  - intros close -> Hclose Hcl. cbn [Z.eqb negb].
    step_update. step_update. unfold ret.
    eexists. split; [reflexivity|]. cbn [w_heap].
    match goal with
    | |- context [files ?x !! vfile = _] => set (h1 := x)
    end.
    assert (Hf1 : files h1 !! vfile = Some file).
    { subst h1. cbn. unfold ptr in *. apply lookup_insert_eq. }
    assert (Hd1 : dnodes h1 !! dnode
                  = Some (dnode_with_ref_count (d_ref_count d + 1) d)).
    { subst h1. cbn. unfold ptr in *. now rewrite lookup_alter_eq, Hd. }
    assert (Hi1 : inodes h1 !! d_inode d
                  = Some (inode_with_open_count (i_open_count i + 1) i)).
    { subst h1. cbn. unfold ptr in *. now rewrite lookup_alter_eq, Hi. }
    split; [exact Hf1|]. split; [now rewrite Hd1|]. split; [now rewrite Hi1|].
    unfold vfs_close.
    rewrite (bind_Some _ _ _ _ _ (deref_file_Some _ _ (mk_world h1 tr) Hf1)).
    unfold bind at 1, call_driver at 1. cbn [w_heap w_trace f_ops file].
    rewrite Hclose. cbn [mbind option_bind]. rewrite Hcl. cbn [Z.eqb].
    rewrite (bind_Some _ _ _ _ _ (deref_file_Some _ _ (mk_world h1 _) Hf1)).
    cbn [f_dnode f_inode file].
    step_update. step_update.
    unfold bind, modify_heap, ret. cbn [w_heap w_trace]. do 3 f_equal.
    subst h1. destruct h. unfold set_files, set_inodes, set_dnodes. cbn in *.
    unfold ptr in *. f_equal.
    + eapply alter_alter_id; [exact Hd|].
      destruct d. unfold dnode_with_ref_count. cbn. f_equal. lia.
    + eapply alter_alter_id; [exact Hi|].
      destruct i. unfold inode_with_open_count. cbn. f_equal. lia.
    + now apply delete_insert_id.
  - intros Hreg Hnone. unfold attach_pg_cache in Hattach.
    rewrite Hreg, Hnone in Hattach. cbn in Hattach.
    destruct (vzalloc_pcache pc =? 0) eqn:Ez; [discriminate|].
    injection Hattach as <-. cbn.
    split; [lia|]. split; [reflexivity|]. split; [reflexivity|].
    intros Heq. apply (f_equal (λ p, default 0 (pg_cache p !! d_inode d))) in Heq.
    cbn in Heq. unfold ptr in *. rewrite lookup_insert_eq, Hnone in Heq. cbn in Heq. lia.
  - intros Hcase. unfold attach_pg_cache in Hattach.
    destruct Hcase as [Hreg|Hsome].
    + rewrite Hreg in Hattach. cbn in Hattach. congruence.
    + replace (default 0 (pg_cache pc !! d_inode d) =? 0) with false in Hattach by lia.
      rewrite andb_false_r in Hattach. congruence.
  - unfold attach_pg_cache in *.
    destruct (has_flag (i_itype i) VFS_IFFILE); [|cbn; reflexivity]. cbn [andb] in *.
    destruct (default 0 (pg_cache pc !! d_inode d) =? 0) eqn:Enone.
    + destruct (vzalloc_pcache pc =? 0) eqn:Ez; [discriminate|].
      injection Hattach as <-. cbn. unfold ptr in *. rewrite lookup_insert_eq. cbn.
      now rewrite Ez.
    + injection Hattach as <-. now rewrite Enone.
Qed.

Lemma land_append_mask (fsize : Z) (append : bool) :
  0 ≤ fsize < 2 ^ 32 →
  Z.land fsize (wrap32 (- (if append then 1 else 0))) = if append then fsize else 0.
Proof.
  intros H. destruct append.
  - change (wrap32 (- (1))) with (Z.ones 32). rewrite Z.land_ones by lia.
    now apply Z.mod_small.
  - change (wrap32 (- 0)) with 0. apply Z.land_0_r.
Qed.

(** X28.  [vfs_do_open] behind a successful [vfs_open]: the descriptor
    it returns is the lowest empty slot, which then holds the file with
    the options as flags; the position of the file is the size of the
    inode when [FO_APPEND] is among the options and 0 otherwise.  When
    the table is full it returns [EMFILE] and leaves the store as
    [vfs_open] left it: the file stays open without a descriptor. *)
Theorem vfs_do_open_descriptor (name_str path : string) (options : Z) (pc pc' : pcaches)
    (w w1 w2 : world) (fdir : option ptr) (file ofile : ptr) (f : v_file) (i : v_inode) :
  __vfs_try_locate_file name_str path
    (if has_flag options FO_CREATE then FLOCATE_CREATE_EMPTY else 0) w
  = Some ((0, fdir, Some file), w1) →
  vfs_open file pc w1 = Some ((0, Some ofile, pc'), w2) →
  files (w_heap w2) !! ofile = Some f →
  inodes (w_heap w2) !! f_inode f = Some i →
  0 ≤ i_fsize i < 2 ^ 32 →
  (∀ fd,
     vfs_alloc_fdslot (w_heap w2) = (0, Some fd) →
     ∃ w3,
       vfs_do_open name_str path options pc w = Some ((fd, pc'), w3)
       ∧ w_trace w3 = w_trace w2
       ∧ fds (w_heap w3) !! fd = Some (mk_fd ofile options)
       ∧ f_pos <$> files (w_heap w3) !! ofile
         = Some (if has_flag options FO_APPEND then i_fsize i else 0))
  ∧ (EMFILE ≠ 0 →
     vfs_alloc_fdslot (w_heap w2) = (EMFILE, None) →
     vfs_do_open name_str path options pc w = Some ((EMFILE, pc'), w2)).
Proof.
  intros Hlocate Hopen Hf Hi Hsize.
  assert (Hhead : vfs_do_open name_str path options pc w =
    (let a := vfs_alloc_fdslot (w_heap w2) in
     if fst a =? 0 then
       fd <- of_option (snd a) ;;
       f <- deref_file ofile ;;
       i <- deref_inode (f_inode f) ;;
       let mask := wrap32 (- (if has_flag options FO_APPEND then 1 else 0)) in
       update_file ofile (file_with_pos (Z.land (i_fsize i) mask)) ;;
       modify_heap (set_fds <[fd := mk_fd ofile options]>) ;;
       ret (fd, pc')
     else ret (fst a, pc')) w2).
  { unfold vfs_do_open.
    rewrite (bind_Some _ _ _ _ _ Hlocate). cbn [fst snd Z.eqb negb of_option].
    rewrite (bind_Some _ _ w1 file w1) by reflexivity.
    rewrite (bind_Some _ _ _ _ _ Hopen). cbn [fst snd Z.eqb negb of_option].
    rewrite (bind_Some _ _ w2 ofile w2) by reflexivity.
    rewrite (bind_Some _ _ _ _ _ (get_heap_eq w2)). reflexivity. }
  rewrite Hhead. cbv zeta. split.
  - intros fd Halloc. rewrite Halloc. cbn [fst snd Z.eqb of_option].
    rewrite (bind_Some _ _ w2 fd w2) by reflexivity.
    rewrite (bind_Some _ _ _ _ _ (deref_file_Some _ _ _ Hf)).
    rewrite (bind_Some _ _ _ _ _ (deref_inode_Some _ _ _ Hi)).
    rewrite land_append_mask by assumption.
    destruct w2 as [h2 tr2]. cbn [w_heap w_trace] in *.
    step_update. unfold bind, modify_heap, ret. cbn [w_heap w_trace].
    eexists. split; [reflexivity|]. cbn. unfold ptr in *.
    rewrite lookup_insert_eq, lookup_alter_eq, Hf.
    repeat split; reflexivity.
  - intros Hne Halloc. rewrite Halloc. cbn [fst snd].
    now replace (EMFILE =? 0) with false by lia.
Qed.

(** ** [rmdir] behind its refusals *)

(** X29.  [rmdir] of a dnode that is free to go: without a parent it
    ends in [EINVAL], and on what is no directory in [ENOTDIR], both
    before the driver is called.  Otherwise the parent's [rmdir] method
    decides: its failure is handed back with the dnode still cached, and
    after its success the dnode is detached, so that no lookup through
    the hash table answers with it any more. *)
Theorem sys_rmdir_outcome (w w1 : world) (pathname : string) (r : walk_result)
    (dnode : ptr) (d : v_dnode) (sb : v_superblock) (fs : filesystem) (i : v_inode) :
  vfs_walk (cwd (w_heap w)) pathname false 0 w = Some (r, w1) →
  wr_errno r = 0 →
  wr_dentry r = Some dnode →
  dnodes (w_heap w1) !! dnode = Some d →
  superblocks (w_heap w1) !! d_super_block d = Some sb →
  filesystems (w_heap w1) !! sb_fs sb = Some fs →
  has_flag (fs_types fs) FSTYPE_ROFS = false →
  d_ref_count d ≤ 1 →
  inodes (w_heap w1) !! d_inode d = Some i →
  i_open_count i = 0 →
  d_children d = [] →
  (d_parent d = 0 → sys_rmdir pathname w = Some (DO_STATUS EINVAL, w1))
  ∧ (∀ pd pi,
       d_parent d ≠ 0 →
       dnodes (w_heap w1) !! d_parent d = Some pd →
       inodes (w_heap w1) !! d_inode pd = Some pi →
       (has_flag (i_itype i) VFS_IFDIR = false →
        sys_rmdir pathname w = Some (DO_STATUS ENOTDIR, w1))
       ∧ (∀ rmdir errno h2,
            has_flag (i_itype i) VFS_IFDIR = true →
            ops_rmdir (i_ops pi) = Some rmdir →
            rmdir (d_inode pd) dnode (w_heap w1) = (errno, h2) →
            (errno ≠ 0 →
             sys_rmdir pathname w
             = Some (DO_STATUS errno,
                     mk_world h2 (w_trace w1 ++ [EvRmdir (d_inode pd) dnode])%list))
            ∧ (∀ d2,
                 errno = 0 →
                 dnode ≠ 0 →
                 dnodes h2 !! dnode = Some d2 →
                 d_ref_count d2 = 1 →
                 ∃ w',
                   sys_rmdir pathname w = Some (DO_STATUS 0, w')
                   ∧ w_trace w' = (w_trace w1 ++ [EvRmdir (d_inode pd) dnode])%list
                   ∧ (∀ (parent : ptr) (str : hstr),
                        hstr_special str = false →
                        vfs_dcache_lookup (w_heap w') parent str ≠ Some dnode)))).
Proof.
  intros Hwalk Herr Hdentry Hd Hsb Hfs Hrw Href Hi Hopen Hchildren.
  assert (Hhead : sys_rmdir pathname w =
    (let parent := d_parent d in
     if parent =? 0 then ret (DO_STATUS EINVAL)
     else
       pd <- deref_dnode parent ;;
       pi <- deref_inode (d_inode pd) ;;
       i <- deref_inode (d_inode d) ;;
       if has_flag (i_itype i) VFS_IFDIR then
         errno <- call_driver (EvRmdir (d_inode pd) dnode)
                    (f ← ops_rmdir (i_ops pi); Some (f (d_inode pd) dnode)) ;;
         (if errno =? 0 then vfs_dcache_remove dnode else ret tt) ;;
         ret (DO_STATUS errno)
       else ret (DO_STATUS ENOTDIR)) w1).
  { unfold sys_rmdir.
    rewrite (bind_Some _ _ _ _ _ (get_heap_eq w)).
    rewrite (bind_Some _ _ _ _ _ Hwalk).
    rewrite Herr, Hdentry. cbn [Z.eqb negb of_option].
    rewrite (bind_Some _ _ w1 dnode w1) by reflexivity.
    rewrite (bind_Some _ _ _ _ _ (deref_dnode_Some _ _ _ Hd)).
    rewrite (bind_Some _ _ _ _ _ (deref_sb_Some _ _ _ Hsb)).
    rewrite (bind_Some _ _ _ _ _ (deref_fs_Some _ _ _ Hfs)).
    rewrite Hrw.
    assert (Hbusy : (if d_ref_count d >? 1 then ret true
                     else i <- deref_inode (d_inode d) ;; ret (negb (i_open_count i =? 0))) w1
                    = Some (false, w1)).
    { replace (d_ref_count d >? 1) with false by lia.
      rewrite (bind_Some _ _ _ _ _ (deref_inode_Some _ _ _ Hi)).
      now rewrite Hopen. }
    rewrite (bind_Some _ _ _ _ _ Hbusy).
    rewrite Hchildren. reflexivity. }
  rewrite Hhead. cbv zeta. split.
  - intros Hpar. now rewrite Hpar.
  - intros pd pi Hpar Hpd Hpi. replace (d_parent d =? 0) with false by lia.
    rewrite (bind_Some _ _ _ _ _ (deref_dnode_Some _ _ _ Hpd)).
    rewrite (bind_Some _ _ _ _ _ (deref_inode_Some _ _ _ Hpi)).
    rewrite (bind_Some _ _ _ _ _ (deref_inode_Some _ _ _ Hi)).
    split.
    + intros Hdir. now rewrite Hdir.
    + intros rmdir errno h2 Hdir Hops Hcall. rewrite Hdir.
      assert (Hcd : call_driver (EvRmdir (d_inode pd) dnode)
                      (f ← ops_rmdir (i_ops pi); Some (f (d_inode pd) dnode)) w1
                    = Some (errno,
                            mk_world h2 (w_trace w1 ++ [EvRmdir (d_inode pd) dnode])%list)).
      { unfold call_driver. rewrite Hops. cbn [mbind option_bind]. now rewrite Hcall. }
      rewrite (bind_Some _ _ _ _ _ Hcd). split.
      * intros Hne. replace (errno =? 0) with false by lia. reflexivity.
      * intros d2 -> Hdn Hd2 Hrc2. cbn [Z.eqb].
        destruct (vfs_dcache_remove_spec dnode (mk_world h2 (w_trace w1 ++ [EvRmdir (d_inode pd) dnode])%list)
                    d2 Hdn Hd2 Hrc2)
          as (h' & Hrun & _ & _ & _ & Hb & _).
        rewrite (bind_Some _ _ _ _ _ Hrun).
        eexists. split; [reflexivity|]. split; [reflexivity|].
        intros parent str Hs. cbn [w_heap].
        rewrite vfs_dcache_lookup_plain by assumption. intros Hfind.
        apply bucket_find_hit in Hfind as [[Hin _]|[Hnull _]].
        -- rewrite Hb in Hin. apply list_elem_of_filter in Hin as [Hne _].
           now apply Hne.
        -- now apply Hdn.
Qed.

(** ** The inode cache *)

Lemma icache_find_sound (h : heap) (id : Z) (chain : list ptr) (p : ptr) :
  icache_find h id chain = Some p →
  p ≠ 0 →
  p ∈ chain ∧ ∃ i, inodes h !! p = Some i ∧ i_id i = id.
Proof.
  induction chain as [|pos n IH]; simpl.
  - intros [= <-] Hp. now contradiction Hp.
  - destruct (inodes h !! pos) as [i|] eqn:Hi; simpl; [|discriminate].
    destruct (i_id i =? id) eqn:E.
    + intros [= <-] _. split; [left|]. exists i. split; [assumption|lia].
    + intros Hf Hp. destruct (IH Hf Hp) as [Hin Hex]. split; [now right|assumption].
Qed.

(** X30.  The inode cache answers by id.  What [vfs_i_addhash] enters
    is found by [vfs_i_find] under the id of the inode; entering an
    inode twice is the same as entering it once; and an inode that
    [vfs_i_find] returns carries the id that was asked for, not merely
    an id of the same bucket. *)
Theorem vfs_i_addhash_find (h : heap) (i_cache : gmap Z (list ptr)) (inode : ptr)
    (i : v_inode) :
  inodes h !! inode = Some i →
  ∃ i_cache',
    vfs_i_addhash h i_cache inode = Some i_cache'
    ∧ vfs_i_find h i_cache' (i_id i) = Some inode
    ∧ vfs_i_addhash h i_cache' inode = Some i_cache'
    ∧ (∀ id (p : ptr),
         vfs_i_find h i_cache' id = Some p →
         p ≠ 0 →
         ∃ i', inodes h !! p = Some i' ∧ i_id i' = id).
Proof.
  intros Hi. unfold vfs_i_addhash. unfold ptr in *. rewrite Hi. cbn [mbind option_bind].
  set (slot := Z.land (i_id i) VFS_HASH_MASK).
  set (unlinked := filter (λ p : Z, p ≠ inode) <$> i_cache).
  eexists. split; [reflexivity|]. repeat apply conj.
  - unfold vfs_i_find. fold slot. rewrite lookup_insert_eq. cbn.
    unfold ptr in *. rewrite Hi. cbn. now rewrite Z.eqb_refl.
  - f_equal.
    assert (Hun : filter (λ p : Z, p ≠ inode)
                    <$> <[slot := inode :: default [] (unlinked !! slot)]> unlinked
                  = <[slot := default [] (unlinked !! slot)]> unlinked).
    { rewrite fmap_insert. rewrite filter_cons_False by (intros H; now apply H).
      f_equal.
      - subst unlinked. rewrite lookup_fmap.
        destruct (i_cache !! slot) as [l|]; cbn; [|reflexivity].
        apply list_filter_filter_l. auto.
      - subst unlinked. rewrite <- map_fmap_compose. apply map_fmap_ext.
        intros k l _. cbn. apply list_filter_filter_l. auto. }
    rewrite Hun. rewrite lookup_insert_eq. cbn.
    now rewrite insert_insert_eq.
  - intros id p Hfind Hp. unfold vfs_i_find in Hfind.
    apply icache_find_sound in Hfind as [_ Hex]; assumption.
Qed.

End MoreProperties.

(** * The further properties on the sample configuration *)

Section MoreEvaluation.
#[local] Existing Instance Sample.config.
#[local] Existing Instance Sample.driver.
#[local] Existing Instance SampleMore.config.
#[local] Existing Instance SampleMore.driver.

Ltac ev := vm_compute; reflexivity.
Ltac ne := vm_compute; discriminate.
Ltac decided := apply (bool_decide_unpack _); vm_compute; exact I.

(** X1 on the file [az] of the sample tree. *)
Lemma vfs_dcache_add_lookup_witness :
  ∃ w', vfs_dcache_add Sample.root Sample.dnode_az (mk_world SampleMore.az_uncached [])
        = Some (tt, w')
        ∧ vfs_dcache_lookup (w_heap w') Sample.root (component_name "az")
          = Some Sample.dnode_az.
Proof.
  epose proof (vfs_dcache_add_lookup Sample.root Sample.dnode_az
                 (mk_world SampleMore.az_uncached []) (Sample.fresh_dnode "az" 55)
                 _ (component_name "az")) as H.
  edestruct H
    as (w' & d' & Hrun & _ & Hlook & _); [ne | ev | ev | ev | ev |].
  exists w'. split; [exact Hrun | exact Hlook].
Defined.

(** X2: entering [az] leaves the lookup of [g] as it was. *)
Lemma vfs_dcache_add_other_witness :
  ∃ w', vfs_dcache_add Sample.root Sample.dnode_az (mk_world SampleMore.az_uncached [])
        = Some (tt, w')
        ∧ vfs_dcache_lookup (w_heap w') Sample.root (component_name "g")
          = Some Sample.dnode_g.
Proof.
  epose proof (vfs_dcache_add_other Sample.root Sample.dnode_az
                 (mk_world SampleMore.az_uncached []) (Sample.fresh_dnode "az" 55)
                 _ Sample.root (component_name "g")) as H.
  edestruct H
    as (w' & Hrun & Hlook); [ne | ev | ev | ev | ne | decided |].
  exists w'. split; [exact Hrun|]. etransitivity; [exact Hlook | ev].
Defined.

(** X3 on the file [g] of the sample tree. *)
Lemma vfs_dcache_remove_lookup_witness :
  ∃ w', vfs_dcache_remove Sample.dnode_g (Sample.tree 0) = Some (tt, w')
        ∧ vfs_dcache_lookup (w_heap w') Sample.root (component_name "g")
          ≠ Some Sample.dnode_g.
Proof.
  edestruct (vfs_dcache_remove_lookup Sample.dnode_g (Sample.tree 0))
    as (w' & d' & Hrun & _ & _ & _ & _ & _ & _ & Hlook); [ne | ev | ev |].
  exists w'. split; [exact Hrun|]. apply Hlook. ev.
Defined.

(** X4: [g] is moved from the root under [d]. *)
Lemma vfs_dcache_rehash_lookup_witness :
  ∃ w', vfs_dcache_rehash Sample.dnode_d Sample.dnode_g (Sample.tree 0) = Some (tt, w')
        ∧ vfs_dcache_lookup (w_heap w') Sample.dnode_d (component_name "g")
          = Some Sample.dnode_g.
Proof.
  epose proof (vfs_dcache_rehash_lookup Sample.dnode_d Sample.dnode_g (Sample.tree 0)
                 _ _ (component_name "g")) as H.
  edestruct H
    as (w' & d' & Hrun & _ & Hlook & _); [ne | ne | ev | ev | ev | ev | ev |].
  exists w'. split; [exact Hrun | exact Hlook].
Defined.

(** X6 on the name [n], which the sample tree does not hold. *)
Lemma vfs_walk_parent_name_witness :
  vfs_walk Sample.root "n" true VFS_WALK_PARENT (Sample.tree 0)
  = Some (mk_walk_result 0 (Some Sample.root) (Some (component_name "n")), Sample.tree 0).
Proof.
  apply (vfs_walk_parent_name Sample.root "n" EmptyString true (Sample.tree 0));
    [ne | ne | ev | vm_compute; discriminate].
Defined.

(** X7 on the path [a*b]. *)
Lemma vfs_walk_invalid_byte_witness :
  vfs_walk Sample.root "a*b" false 0 (Sample.tree 0)
  = Some (mk_walk_result EINVAL None None, Sample.tree 0).
Proof.
  apply (vfs_walk_invalid_byte Sample.root "a" "*" "b" false 0 (Sample.tree 0));
    [ne | ev | ev | ev | ev | ev].
Defined.

(** X8 on the file [g] of the sample tree. *)
Lemma vfs_walk_cached_witness :
  vfs_walk Sample.root "g" false 0 (Sample.tree 0)
  = Some (walk_done Sample.dnode_g,
          mk_world (w_heap (Sample.tree 0))
            (w_trace (Sample.tree 0)
               ++ [EvDcacheLookup Sample.root (component_name "g")])%list).
Proof.
  eapply (vfs_walk_cached Sample.root "g" EmptyString false 0 (Sample.tree 0));
    [ne | ev | vm_compute; discriminate | ev | ev | ev | ev | ev | ne].
Defined.

(** X9 from the directory [d] of the sample tree. *)
Lemma vfs_walk_no_component_witness :
  vfs_walk Sample.dnode_d "" false 0 (Sample.tree 0)
  = Some (walk_done Sample.dnode_d, Sample.tree 0)
  ∧ vfs_walk Sample.dnode_d "/" false 0 (Sample.tree 0)
    = Some (walk_done Sample.root, Sample.tree 0).
Proof.
  edestruct (vfs_walk_no_component Sample.dnode_d false 0 (Sample.tree 0))
    as (Hempty & Hroot & _); [ne | ev | ne | ev |].
  split; [exact Hempty | exact Hroot].
Defined.

(** X10 on the empty slot 7 of the sample table. *)
Lemma bad_descriptor_witness :
  sys_lseek 7 0 FSEEK_SET Sample.opened = Some (DO_STATUS EBADF, Sample.opened)
  ∧ sys_close 7 Sample.opened = Some (DO_STATUS EBADF, Sample.opened)
  ∧ sys_dup2 7 3 Sample.opened = Some (DO_STATUS EBADF, Sample.opened).
Proof.
  edestruct (bad_descriptor 7 Sample.opened 0 FSEEK_SET (mk_dirent 0 0 0 EmptyString) 0 0 3)
    as (Hseek & _ & _ & _ & Hclose & _ & _ & _ & Hdup2); [ne | right; ev |].
  repeat apply conj; [exact Hseek | exact Hclose | apply Hdup2; ne].
Defined.

(** Whether the first [n] slots of the table are taken. *)
Lemma fds_taken (h : heap) (n : nat) :
  forallb (λ j, match fds h !! Z.of_nat j with Some _ => true | None => false end)
    (seq 0 n) = true →
  ∀ j, 0 ≤ j < Z.of_nat n → is_Some (fds h !! j).
Proof.
  intros H j Hj. rewrite forallb_forall in H.
  specialize (H (Z.to_nat j)). rewrite Z2Nat.id in H by lia.
  destruct (fds h !! j); [eauto|].
  discriminate H. apply in_seq. lia.
Qed.

(** X11 on the sample table, where slot 0 is empty, and on the full
    table. *)
Lemma vfs_alloc_fdslot_lowest_witness :
  vfs_alloc_fdslot (w_heap Sample.opened) = (0, Some 0)
  ∧ vfs_alloc_fdslot SampleMore.full_table = (EMFILE, None).
Proof.
  split.
  - apply (proj1 (vfs_alloc_fdslot_lowest (w_heap Sample.opened)) 0);
      [vm_compute; split; [discriminate|reflexivity] | ev | intros j Hj; lia].
  - apply (proj2 (vfs_alloc_fdslot_lowest SampleMore.full_table)).
    apply (fds_taken SampleMore.full_table 32). ev.
Defined.

(** X12 on the open file of the sample store. *)
Lemma sys_dup_close_witness :
  ∃ w1, sys_dup 3 Sample.opened = Some (RETURN 0, w1)
        ∧ sys_close 0 w1 = Some (DO_STATUS 0, Sample.opened).
Proof.
  edestruct (sys_dup_close 3 0 Sample.opened) as (w1 & Hdup & _ & _ & Hclose);
    [ev | ev | vm_compute; discriminate | ev |].
  exists w1. split; [exact Hdup | exact Hclose].
Defined.

(** X13 on the open directory of the sample store. *)
Lemma sys_read_write_directory_witness :
  sys_read 4 0 10 Sample.opened_dir = Some (DO_STATUS EISDIR, Sample.opened_dir)
  ∧ sys_write 4 0 10 Sample.opened_dir = Some (DO_STATUS EISDIR, Sample.opened_dir).
Proof.
  eapply (sys_read_write_directory 4 0 10 Sample.opened_dir); [ev | ev | ev | ev].
Defined.

(** X14 on the open file of the sample store: of ten bytes asked for,
    the page cache transfers four, and the position moves from 10 to
    14. *)
Lemma sys_read_write_position_witness :
  ∃ w', sys_read 3 0 10 Sample.opened = Some (RETURN 4, w')
        ∧ f_pos <$> files (w_heap w') !! 600 = Some 14.
Proof.
  edestruct (sys_read_write_position 3 0 10 Sample.opened) as [Hread _];
    [ev | ev | ev | ev |].
  eexists. split.
  - apply (Hread 4 (w_heap Sample.opened)); [ev | ev].
  - ev.
Defined.


(** X17: the name [h], which has no inode, is linked to the file [f]. *)
Lemma vfs_link_outcome_witness :
  ∃ w', vfs_link Sample.dnode_f SampleMore.dnode_h (mk_world SampleMore.unlinked_heap [])
        = Some (0, w')
        ∧ d_inode <$> dnodes (w_heap w') !! SampleMore.dnode_h = Some 53
        ∧ i_link_count <$> inodes (w_heap w') !! 53 = Some 2.
Proof.
  edestruct (vfs_link_outcome Sample.dnode_f SampleMore.dnode_h
               (mk_world SampleMore.unlinked_heap []))
    as (_ & _ & _ & Hok); [ev | ev | ev | ev | ev |].
  edestruct (Hok (λ _ _ h, (0, h)) SampleMore.unlinked_heap) as (w' & Hrun & Hd & Hl);
    [ev | ev | ev | ev | ev | ev | ev |].
  exists w'. split; [exact Hrun|]. split.
  - etransitivity; [exact Hd | ev].
  - etransitivity; [exact Hl | ev].
Defined.

(** X18 on the directory [d] of the sample tree. *)
Lemma __vfs_do_unlink_refuses_witness :
  __vfs_do_unlink Sample.dnode_d (Sample.tree 0) = Some (EISDIR, Sample.tree 0).
Proof.
  edestruct (__vfs_do_unlink_refuses Sample.dnode_d (Sample.tree 0)) as (_ & _ & Hdir);
    [ev | ev |].
  apply Hdir; [vm_compute; discriminate | ev | ev].
Defined.

(** X19: the file [g] is renamed onto the directory [d], which holds
    [f]. *)
Lemma vfs_do_rename_refuses_witness :
  vfs_do_rename Sample.dnode_g Sample.dnode_d (Sample.tree 0)
  = Some (ENOTEMPTY, Sample.tree 0).
Proof.
  edestruct (vfs_do_rename_refuses Sample.dnode_g Sample.dnode_d (Sample.tree 0))
    as (_ & _ & _ & Hne); [ev | ev | ev | ev |].
  apply Hne; [ne | vm_compute; discriminate | vm_compute; discriminate | ev | ne].
Defined.

(** X20: from the root of the sample tree into the directory [d], and
    into the file [g]. *)
Lemma __vfs_do_chdir_outcome_witness :
  (∃ w', __vfs_do_chdir Sample.dnode_d (Sample.tree 0) = Some ((0, []), w')
         ∧ cwd (w_heap w') = Sample.dnode_d
         ∧ d_ref_count <$> dnodes (w_heap w') !! Sample.dnode_d = Some 2
         ∧ d_ref_count <$> dnodes (w_heap w') !! Sample.root = Some 0)
  ∧ __vfs_do_chdir Sample.dnode_g (Sample.tree 0)
    = Some ((ENOTDIR, [Sample.dnode_g]), Sample.tree 0).
Proof.
  split.
  - edestruct (__vfs_do_chdir_outcome Sample.dnode_d (Sample.tree 0)) as (_ & _ & Hdir);
      [ne | ev | ev |].
    edestruct Hdir as (w' & Hrun & _ & Hcwd & _ & _ & Hnew & Hold & _); [ev | ne | ne | ev |].
    exists w'. split; [exact Hrun|]. split; [exact Hcwd|]. split.
    + etransitivity; [apply Hnew; vm_compute; split; [discriminate|reflexivity] | ev].
    + etransitivity; [apply Hold; vm_compute; split; reflexivity | ev].
  - edestruct (__vfs_do_chdir_outcome Sample.dnode_g (Sample.tree 0)) as (Hfile & _);
      [ne | ev | ev |].
    apply Hfile. ev.
Defined.

(** X21: the path of [f] in a buffer of three bytes. *)
Lemma vfs_get_path_bounds_witness :
  ∃ buf', vfs_get_path (Sample.tree_heap 0) Sample.dnode_f SampleMore.blank 3 0
          = Some (3, buf')
          ∧ SampleMore.mem_read buf' 0 4 = "/d/ ".
Proof.
  destruct (vfs_get_path (Sample.tree_heap 0) Sample.dnode_f SampleMore.blank 3 0)
    as [[r buf']|] eqn:Hrun; [|vm_compute in Hrun; discriminate].
  destruct (vfs_get_path_bounds (Sample.tree_heap 0) Sample.dnode_f SampleMore.blank buf'
              3 0 r) as [[Hloop _]|[Hr Hout]];
    [vm_compute; split; [discriminate|reflexivity]
    | vm_compute; split; [discriminate|reflexivity]
    | exact Hrun | |].
  - exfalso. vm_compute in Hrun. injection Hrun as Hr _. rewrite <- Hr in Hloop.
    vm_compute in Hloop. discriminate.
  - exists buf'. vm_compute in Hrun. injection Hrun as <- <-. split; ev.
Defined.

(** X22 on the dnode that is its own parent. *)
Lemma vfs_get_path_deep_witness :
  vfs_get_path SampleMore.loop_heap 77 SampleMore.blank 16 0 = Some (ELOOP, SampleMore.blank).
Proof.
  apply (vfs_get_path_deep SampleMore.loop_heap 77 77 SampleMore.blank 16);
    [vm_compute; split; [discriminate|reflexivity]
    | vm_compute; split; [discriminate|reflexivity] | ev | ne].
Defined.

(** X23: the path of [f] in a buffer of 16 bytes. *)
Lemma vfs_get_path_content_witness :
  ∃ buf', vfs_get_path (Sample.tree_heap 0) Sample.dnode_f SampleMore.blank 16 0
          = Some (5, buf')
          ∧ ∀ i, buf' i = mem_write SampleMore.blank 0 "/d/f/" i.
Proof.
  edestruct (vfs_get_path_content (Sample.tree_heap 0) Sample.dnode_f SampleMore.blank 16)
    as (buf' & Hrun & Hbuf);
    [vm_compute; split; [discriminate|reflexivity] | ev | ev | vm_compute; discriminate |].
  exists buf'. split; [exact Hrun | exact Hbuf].
Defined.

(** X24: with [d] as the working directory and a buffer of four bytes,
    the terminator is written at index 4. *)
Lemma sys_getcwd_terminator_witness :
  ∃ buf', sys_getcwd SampleMore.in_d_heap SampleMore.blank 4 = Some (0, true, buf')
          ∧ buf' 3 = " "%char
          ∧ buf' 4 = NUL.
Proof.
  edestruct (sys_getcwd_terminator SampleMore.in_d_heap SampleMore.blank 4)
    as (buf' & Hrun & _ & Hgap & Hnul & _);
    [vm_compute; split; [discriminate|reflexivity] | ne | ev | ev | vm_compute; reflexivity |].
  exists buf'. split; [exact Hrun|]. split; [exact Hgap | exact Hnul].
Defined.

(** X25 on the walk of a name that the sample tree does not hold. *)
Lemma vfs_walk_result_witness :
  wr_dentry (walk_error ENOENT) = None ∨ wr_dentry (walk_error ENOENT) = Some NULL.
Proof.
  edestruct (vfs_walk_result Sample.root "zz" false 0 (Sample.tree 0)
               (Sample.run (vfs_walk Sample.root "zz" false 0) (Sample.tree 0))
               (walk_error ENOENT))
    as (_ & Hfail & _); [ne | ne | ev |].
  apply Hfail. ne.
Defined.

(** X26: [link] of the file [g] to the new name [h] creates [h] and ends
    in [EEXIST]. *)
Lemma sys_link_never_links_witness :
  ∃ errno, Sample.result_of (sys_link NULL "" "g" "h") (Sample.tree 0)
           = Some (DO_STATUS errno)
           ∧ errno ≠ 0.
Proof.
  edestruct (sys_link_never_links "" "g" "h" (Sample.tree 0)
               (Sample.run (sys_link NULL "" "g" "h") (Sample.tree 0))
               (DO_STATUS EEXIST))
    as (errno & l & w1 & Hres & Hne & _); [ne | ne | ne | ne | ev |].
  exists errno. split; [|exact Hne].
  injection Hres as <-. ev.
Defined.

(** X27 on the file [g] as a regular file without a page cache. *)
Lemma vfs_open_close_witness :
  (∃ w1, vfs_open Sample.dnode_g SampleMore.no_pcaches SampleMore.regular
         = Some ((0, Some 2097152, SampleMore.g_pcaches), w1)
         ∧ vfs_close 2097152 w1
           = Some (0, mk_world (w_heap SampleMore.regular)
                        (w_trace SampleMore.regular ++ [EvClose 2097152])%list))
  ∧ pg_cache SampleMore.g_pcaches !! 54 = Some 3145728
  ∧ master SampleMore.g_pcaches !! 3145728 = Some 54
  ∧ SampleMore.g_pcaches ≠ SampleMore.no_pcaches.
Proof.
  epose proof (vfs_open_close Sample.dnode_g SampleMore.regular SampleMore.no_pcaches
                 SampleMore.g_pcaches _ _ (λ _ _ h, (0, h)) 2097152 0) as H.
  edestruct H as (_ & Hok & Hfresh & _);
    [ev | ne | ev | ev | ev | ne | ev | ev | reflexivity |].
  edestruct (Hok (λ _ h, (0, h))) as (w1 & Hopen & _ & _ & _ & Hclose);
    [reflexivity | ev | reflexivity |].
  edestruct Hfresh as (_ & _ & _ & Hne); [ev | ev |].
  split; [exists w1; split; [exact Hopen | exact Hclose]|].
  split; [ev|]. split; [ev | exact Hne].
Defined.

(** X28: [g] is opened for appending on the sample tree. *)
Lemma vfs_do_open_descriptor_witness :
  ∃ w3, vfs_do_open "" "g" FO_APPEND SampleMore.no_pcaches (Sample.tree 0)
        = Some ((0, SampleMore.no_pcaches), w3)
        ∧ fds (w_heap w3) !! 0 = Some (mk_fd 2097152 FO_APPEND)
        ∧ f_pos <$> files (w_heap w3) !! 2097152 = Some 100.
Proof.
  edestruct (vfs_do_open_descriptor "" "g" FO_APPEND SampleMore.no_pcaches
               SampleMore.no_pcaches (Sample.tree 0)
               (Sample.run (__vfs_try_locate_file "" "g" 0) (Sample.tree 0))
               (Sample.run (vfs_open Sample.dnode_g SampleMore.no_pcaches)
                  (Sample.run (__vfs_try_locate_file "" "g" 0) (Sample.tree 0)))
               (Some Sample.root) Sample.dnode_g 2097152)
    as (Hok & _); [ev | ev | ev | ev | vm_compute; split; [discriminate|reflexivity] |].
  edestruct (Hok 0) as (w3 & Hrun & _ & Hfd & Hpos); [ev|].
  exists w3. split; [exact Hrun|]. split; [exact Hfd|].
  etransitivity; [exact Hpos | ev].
Defined.

(** X29 on the empty directory [e]. *)
Lemma sys_rmdir_outcome_witness :
  ∃ w', sys_rmdir "e" (mk_world SampleMore.empty_dir_heap []) = Some (DO_STATUS 0, w')
        ∧ vfs_dcache_lookup (w_heap w') Sample.root (component_name "e")
          ≠ Some SampleMore.dnode_e.
Proof.
  edestruct (sys_rmdir_outcome (mk_world SampleMore.empty_dir_heap [])
               (mk_world SampleMore.empty_dir_heap
                  [EvDcacheLookup Sample.root (component_name "e")])
               "e" (mk_walk_result 0 (Some SampleMore.dnode_e) None) SampleMore.dnode_e)
    as (_ & Hparent);
    [ev | ev | ev | ev | ev | ev | ev | vm_compute; discriminate | ev | ev | ev |].
  edestruct Hparent as (_ & Hdir); [ne | ev | ev |].
  edestruct (Hdir (λ _ _ h, (0, h)) 0 SampleMore.empty_dir_heap) as (_ & Hok);
    [ev | ev | ev |].
  edestruct Hok as (w' & Hrun & _ & Hlook); [reflexivity | ne | ev | ev |].
  exists w'. split; [exact Hrun|]. apply Hlook. ev.
Defined.

(** X30 on the inode of [f] and an empty table. *)
Lemma vfs_i_addhash_find_witness :
  ∃ i_cache', vfs_i_addhash (Sample.tree_heap 0) ∅ 53 = Some i_cache'
              ∧ vfs_i_find (Sample.tree_heap 0) i_cache' 3 = Some 53.
Proof.
  edestruct (vfs_i_addhash_find (Sample.tree_heap 0) ∅ 53) as (c & Hadd & Hfind & _); [ev|].
  exists c. split; [exact Hadd|]. etransitivity; [|exact Hfind]. ev.
Defined.

End MoreEvaluation.
